(** * Benchmark harness for pandas / polars / dask (src/main.py)

    A shallow embedding of [main], [measure] and the three adapters
    [read_write_pandas], [read_write_polars], [read_write_dask].

    Modelling conventions.
    - Python dictionaries are finite maps [gmap string pyval].
    - Python floats are modelled by exact rationals [Qc]; rounding is not
      part of the model.  Resident-set sizes are integers [N].
    - The code runs in an explicit state: the part of the process and of the
      file system that library calls may change ([World]), and two counters
      kept by the harness model ([calls], [gc_passes]) that record how often
      [measure] invoked its work and how often [gc.collect()] ran.
    - A computation returns a value or raises; [except Exception] catches
      exactly the exceptions that derive from [Exception].
    - pandas, polars, dask and the collector are external: they are the
      fields of the class [Externals].
    - The file system is a finite map from paths, as the program spells
      them, to what is there: a regular file or a directory.  A call of the
      operating system fails for the reasons that this map shows (a file
      where a directory is needed, a directory where a file is opened);
      permissions, quotas and links are not part of the model. *)

From Stdlib Require Import Ascii String QArith Qcanon.
From stdpp Require Import gmap strings list fin_maps pretty.

Local Open Scope Z_scope.
Local Open Scope string_scope.

(** ** Python values *)

#[warnings="-register-all"]
Inductive pyval : Type :=
  | VStr (s : string)
  | VInt (z : Z)
  | VFloat (q : Qc)
  | VDict (d : gmap string pyval).

(** ** Exceptions *)

(** [exn_repr] is what [repr(e)] returns; [is_Exception] tells whether the
    class of [e] derives from [Exception] (KeyboardInterrupt, SystemExit and
    the PanicException of PyO3 extensions derive from BaseException only). *)
Record exn : Type := MkExn { exn_repr : string; is_Exception : bool }.

Inductive Res (A : Type) : Type :=
  | Ok (a : A)
  | Raise (e : exn).
Arguments Ok {A} a.
Arguments Raise {A} e.

Definition KeyError (k : string) : exn := MkExn ("KeyError('" ++ k ++ "')") true.
Definition TypeError (m : string) : exn := MkExn ("TypeError('" ++ m ++ "')") true.
Definition StatisticsError (m : string) : exn :=
  MkExn ("StatisticsError('" ++ m ++ "')") true.
Definition OSError (m : string) : exn := MkExn ("OSError('" ++ m ++ "')") true.

(** ** The world *)

Inductive node : Type :=
  | File (content : pyval)
  | Dir.

Record World : Type := MkWorld {
  fs : gmap string node;   (* what exists at each path *)
  rss : N;                 (* psutil: memory_info().rss, in bytes *)
  clock : Qc               (* time.perf_counter(), in seconds *)
}.

Record State : Type := MkState {
  world : World;
  calls : nat;             (* invocations of a measured work *)
  gc_passes : nat          (* gc.collect() passes triggered by measure *)
}.

Definition set_world (w : World) (s : State) : State :=
  MkState w (calls s) (gc_passes s).
Definition set_fs (f : gmap string node) (w : World) : World :=
  MkWorld f (rss w) (clock w).

(** ** The monad of the harness: state and exceptions *)

Definition M (A : Type) : Type := State -> Res A * State.

Definition ret {A} (a : A) : M A := fun s => (Ok a, s).
Definition raise {A} (e : exn) : M A := fun s => (Raise e, s).
Definition bind {A B} (m : M A) (k : A -> M B) : M B :=
  fun s => match m s with
           | (Ok a, s') => k a s'
           | (Raise e, s') => (Raise e, s')
           end.

(** [try: body except Exception as e: handler e] *)
Definition try_except {A} (body : M A) (handler : exn -> M A) : M A :=
  fun s => match body s with
           | (Ok a, s') => (Ok a, s')
           | (Raise e, s') =>
               if is_Exception e then handler e s' else (Raise e, s')
           end.

Definition lift_res {A} (r : Res A) : M A := fun s => (r, s).

Notation "x <- c1 ;; c2" := (bind c1 (fun x => c2))
  (at level 100, c1 at next level, right associativity).
Notation "c1 ;; c2" := (bind c1 (fun _ => c2))
  (at level 100, right associativity).

(** An external call acts on the world only. *)
Definition Work (A : Type) : Type := World -> Res A * World.

Definition run_work {A} (f : Work A) : M A :=
  fun s => let '(r, w') := f (world s) in (r, set_world w' s).

Definition with_value {A B} (f : Work A) (b : B) : Work (A * B) :=
  fun w => match f w with
           | (Ok a, w') => (Ok (a, b), w')
           | (Raise e, w') => (Raise e, w')
           end.

(** ** Numbers *)

Definition float_of_int (z : Z) : Qc := Q2Qc (inject_Z z).

(** [max(a, b)] of Python: [b] when [b > a], otherwise [a]. *)
Definition py_max (a b : Qc) : Qc := if Qclt_le_dec a b then b else a.

(** ** Operating-system primitives

    The file system is a flat map from path strings to nodes: a path names
    the node stored under that very string.  [os.makedirs] creates the
    missing parents and fails on a regular file, the write of the report
    fails on a directory, and [os.remove] fails on a directory and on a
    missing path, as the real calls do. *)

Definition starts_with_slash (s : string) : bool :=
  match s with
  | String c _ => Ascii.eqb c "/"%char
  | EmptyString => false
  end.

Fixpoint ends_with_slash (s : string) : bool :=
  match s with
  | EmptyString => false
  | String c EmptyString => Ascii.eqb c "/"%char
  | String _ s' => ends_with_slash s'
  end.

(** [os.path.join(a, b)] on POSIX. *)
Definition os_path_join (a b : string) : string :=
  if starts_with_slash b then b
  else match a with
       | EmptyString => b
       | _ => if ends_with_slash a then a ++ b else a ++ "/" ++ b
       end.

Definition path_exists_in (p : string) (w : World) : bool :=
  match fs w !! p with Some _ => true | None => false end.

(** [os.path.exists(p)] and [Path(p).exists()] *)
Definition os_path_exists (p : string) : M bool :=
  fun s => (Ok (path_exists_in p (world s)), s).

Definition is_empty (s : string) : bool :=
  match s with
  | EmptyString => true
  | _ => false
  end.

(** [(p[:i], p[i:])] for [i = p.rfind("/") + 1] *)
Fixpoint split_at_last_slash (p : string) : string * string :=
  match p with
  | EmptyString => (EmptyString, EmptyString)
  | String ch p' =>
      let '(h, t) := split_at_last_slash p' in
      if negb (is_empty h) then (String ch h, t)
      else if Ascii.eqb ch "/"%char then (String ch EmptyString, t)
      else (EmptyString, String ch t)
  end.

(** [s.rstrip("/")] *)
Fixpoint rstrip_slashes (s : string) : string :=
  match s with
  | EmptyString => EmptyString
  | String ch s' =>
      let r := rstrip_slashes s' in
      if is_empty r && Ascii.eqb ch "/"%char then EmptyString else String ch r
  end.

(** [posixpath.split(p)]: the head loses its trailing slashes unless it
    consists of slashes only. *)
Definition posix_split (p : string) : string * string :=
  let '(head, tail) := split_at_last_slash p in
  (if is_empty (rstrip_slashes head) then head else rstrip_slashes head, tail).

Definition exists_in (p : string) (f : gmap string node) : bool :=
  match f !! p with Some _ => true | None => false end.

Definition isdir_in (p : string) (f : gmap string node) : bool :=
  match f !! p with Some Dir => true | _ => false end.

Inductive mkdir_error : Type :=
  | EEXIST       (* FileExistsError *)
  | ENOTDIR      (* NotADirectoryError *)
  | ENOENT.      (* FileNotFoundError *)

(** [os.mkdir(name)], where [parent] is the directory part of [name]: it
    fails when [name] exists, when [name] is empty and when [parent] is a
    regular file. *)
Definition mkdir_in (parent name : string) (f : gmap string node)
  : option mkdir_error * gmap string node :=
  if is_empty name then (Some ENOENT, f)
  else match f !! name with
       | Some _ => (Some EEXIST, f)
       | None =>
           match f !! parent with
           | Some (File _) => (Some ENOTDIR, f)
           | _ => (None, <[name := Dir]> f)
           end
       end.

(** The last step of [os.makedirs(name, exist_ok=True)]: [mkdir], whose
    failure is ignored when [name] is a directory. *)
Definition mkdir_exist_ok (parent name : string) (f : gmap string node)
  : option mkdir_error * gmap string node :=
  match mkdir_in parent name f with
  | (Some err, f') => if isdir_in name f' then (None, f') else (Some err, f')
  | (None, f') => (None, f')
  end.

(** [os.makedirs(name, exist_ok=True)]: the recursion on the head of [name]
    is bounded by [fuel]; each call is on a shorter path, so the length of
    [name] is enough.  A FileExistsError of the recursive call is passed
    over, any other error is raised.  A last component ["."] makes the real
    call return once the head exists; the path then names that directory,
    which the flat name space records under [name] too. *)
Fixpoint makedirs_in (fuel : nat) (name : string) (f : gmap string node)
  : option mkdir_error * gmap string node :=
  let '(head0, tail0) := posix_split name in
  let '(head, tail) :=
    if is_empty tail0 then posix_split head0 else (head0, tail0) in
  match fuel with
  | O => mkdir_exist_ok head name f
  | S fuel' =>
      if negb (is_empty head) && negb (is_empty tail) && negb (exists_in head f)
      then match makedirs_in fuel' head f with
           | (None, f1) | (Some EEXIST, f1) => mkdir_exist_ok head name f1
           | (Some err, f1) => (Some err, f1)
           end
      else mkdir_exist_ok head name f
  end.

Definition makedirs_result (p : string) (f : gmap string node)
  : option mkdir_error * gmap string node :=
  makedirs_in (String.length p) p f.

(** The exception that [os.mkdir] raises for an error, with the repr that
    an OSError has: its errno and its message, without the path. *)
Definition mkdir_exn (err : mkdir_error) : exn :=
  match err with
  | EEXIST => MkExn "FileExistsError(17, 'File exists')" true
  | ENOTDIR => MkExn "NotADirectoryError(20, 'Not a directory')" true
  | ENOENT => MkExn "FileNotFoundError(2, 'No such file or directory')" true
  end.

(** The world that [os.makedirs(p, exist_ok=True)] leaves. *)
Definition makedirs_world (p : string) (w : World) : World :=
  set_fs (snd (makedirs_result p (fs w))) w.

(** [os.makedirs(p, exist_ok=True)] *)
Definition os_makedirs (p : string) : M unit :=
  fun s => match fst (makedirs_result p (fs (world s))) with
           | None => (Ok tt, set_world (makedirs_world p (world s)) s)
           | Some err =>
               (Raise (mkdir_exn err),
                set_world (makedirs_world p (world s)) s)
           end.

(** [os.remove(p)] *)
Definition os_remove (p : string) : M unit :=
  fun s => match fs (world s) !! p with
           | Some (File _) =>
               (Ok tt, set_world (set_fs (delete p (fs (world s))) (world s)) s)
           | Some Dir => (Raise (OSError ("Is a directory: " ++ p)), s)
           | None => (Raise (OSError ("No such file or directory: " ++ p)), s)
           end.

Definition write_world (p : string) (v : pyval) (w : World) : World :=
  set_fs (<[p := File v]> (fs w)) w.

Definition IsADirectoryError : exn :=
  MkExn "IsADirectoryError(21, 'Is a directory')" true.

(** [with open(p, "w") as fh: json.dump(v, fh, ...)]: opening a directory
    for writing fails; otherwise the file at [p] then holds the document
    [v], whose textual layout is not modelled. *)
Definition json_dump_to (p : string) (v : pyval) : M unit :=
  fun s => match fs (world s) !! p with
           | Some Dir => (Raise IsADirectoryError, s)
           | _ => (Ok tt, set_world (write_world p v (world s)) s)
           end.

(** [proc.memory_info().rss] and [time.perf_counter()] *)
Definition memory_rss : M N := fun s => (Ok (rss (world s)), s).
Definition perf_counter : M Qc := fun s => (Ok (clock (world s)), s).

(** ** External libraries *)

Class Externals : Type := {
  pd_DataFrame : Type;
  pl_DataFrame : Type;
  dd_DataFrame : Type;
  (* pd.read_csv(path, sep=, encoding=, engine="python") *)
  pd_read_csv : string -> string -> string -> Work pd_DataFrame;
  (* df.to_csv(out, index=False[, encoding=]) *)
  pd_to_csv : pd_DataFrame -> string -> option string -> Work unit;
  (* pl.read_csv(path, separator=, encoding=) *)
  pl_read_csv : string -> string -> string -> Work pl_DataFrame;
  (* df.write_csv(out) *)
  pl_write_csv : pl_DataFrame -> string -> Work unit;
  (* dd.read_csv(path, sep=, encoding=) *)
  dd_read_csv : string -> string -> string -> Work dd_DataFrame;
  (* ddf.compute() *)
  dd_compute : dd_DataFrame -> Work pd_DataFrame;
  (* what a collection pass does to the process *)
  collect : World -> World
}.

Section Harness.
Context `{E : Externals}.

(** [gc.collect()] *)
Definition gc_collect : M unit :=
  fun s => (Ok tt, MkState (collect (world s)) (calls s) (S (gc_passes s))).

(** The call of the wrapped work inside [measure] *)
Definition call {A} (func : Work A) : M A :=
  fun s => run_work func (MkState (world s) (S (calls s)) (gc_passes s)).

Definition measure {A} (func : Work A) : M (A * Qc * Qc) :=
  mem0 <- memory_rss ;;
  t0 <- perf_counter ;;
  res <- call func ;;
  t1 <- perf_counter ;;
  mem1 <- memory_rss ;;
  let elapsed := (t1 - t0)%Qc in
  let avg_mem :=
    ((float_of_int (Z.of_N (mem0 + mem1)) / float_of_int 2)
      / float_of_int (1024 * 1024))%Qc in
  gc_collect ;;
  ret (res, elapsed, avg_mem).

Definition sample_dict (t_read t_write mem_read mem_write : Qc)
  : gmap string pyval :=
  list_to_map [ ("read_time_s", VFloat t_read);
                ("write_time_s", VFloat t_write);
                ("read_mem_mb", VFloat mem_read);
                ("write_mem_mb", VFloat mem_write) ].

Definition error_dict (msg : string) : gmap string pyval :=
  {[ "error" := VStr msg ]}.

Definition read_write_pandas (path out_tmp encoding sep : string)
  : M (gmap string pyval) :=
  try_except
    (r <- measure (with_value (pd_read_csv path sep encoding) sep) ;;
     let '((df, _), t_read, mem_read) := r in
     w <- measure (pd_to_csv df out_tmp (Some encoding)) ;;
     let '(_, t_write, mem_write) := w in
     ret (sample_dict t_read t_write mem_read mem_write))
    (fun e => ret (error_dict (exn_repr e))).

Definition read_write_polars (path out_tmp encoding sep : string)
  : M (gmap string pyval) :=
  try_except
    (r <- measure (with_value (pl_read_csv path sep encoding) sep) ;;
     let '((df, _), t_read, mem_read) := r in
     w <- measure (pl_write_csv df out_tmp) ;;
     let '(_, t_write, mem_write) := w in
     ret (sample_dict t_read t_write mem_read mem_write))
    (fun e => ret (error_dict (exn_repr e))).

(** The one-element tuple [(ddf.compute(),)] is modelled by its element. *)
Definition read_write_dask (path out_tmp encoding sep : string)
  : M (gmap string pyval) :=
  try_except
    (r <- measure (with_value (dd_read_csv path sep encoding) sep) ;;
     let '((ddf, _), t_read_lazy, mem_read_lazy) := r in
     c <- measure (dd_compute ddf) ;;
     let '(pdf, t_compute, mem_compute) := c in
     w <- measure (pd_to_csv pdf out_tmp None) ;;
     let '(_, t_write, mem_write) := w in
     ret (sample_dict (t_read_lazy + t_compute)%Qc t_write
                      (py_max mem_read_lazy mem_compute) mem_write))
    (fun e => ret (error_dict (exn_repr e))).

(** ** The repetition loop and the aggregation of [main] *)

Record Config : Type := MkConfig {
  input_path : string;
  outdir : string;
  encoding : string;
  runs : Z;
  sep : string
}.

(** The values written in [main]. *)
Definition source_config : Config :=
  MkConfig "StudentsPerformance.csv" "./bench_results" "utf-8" 1000 ",".

Definition lib_func : Type :=
  string -> string -> string -> string -> M (gmap string pyval).

(** The dictionary [libs], in its insertion order. *)
Definition libs : list (string * lib_func) :=
  [ ("pandas", read_write_pandas);
    ("polars", read_write_polars);
    ("dask", read_write_dask) ].

(** A [for] loop that threads the value its body updates. *)
Fixpoint for_each {A S} (xs : list A) (body : A -> S -> M S) (acc : S) : M S :=
  match xs with
  | [] => ret acc
  | x :: xs' => acc' <- body x acc ;; for_each xs' body acc'
  end.

(** [range(max(1, runs))] *)
Definition trial_range (c : Config) : list nat :=
  seq 0 (Z.to_nat (Z.max 1 (runs c))).

Definition temp_out_path (c : Config) (lib_name : string) (i : nat) : string :=
  os_path_join (outdir c) ("tmp_" ++ lib_name ++ "_" ++ pretty i ++ ".csv").

(** The second [try] of the loop body: removal of the temp file. *)
Definition cleanup (temp_out : string) : M unit :=
  try_except
    (b <- os_path_exists temp_out ;;
     if b then os_remove temp_out else ret tt)
    (fun _ => ret tt).

(** One iteration of the inner loop of [main]. *)
Definition trial (c : Config) (lib_name : string) (f : lib_func) (i : nat)
    (runs_data : list (gmap string pyval)) : M (list (gmap string pyval)) :=
  let temp_out := temp_out_path c lib_name i in
  runs_data <-
    try_except
      (res <- f (input_path c) temp_out (encoding c) (sep c) ;;
       ret (runs_data ++ [res])%list)
      (fun e => ret (runs_data ++ [error_dict (exn_repr e)])%list) ;;
  cleanup temp_out ;;
  ret runs_data.

Definition run_trials (c : Config) (lib_name : string) (f : lib_func)
  : M (list (gmap string pyval)) :=
  for_each (trial_range c) (trial c lib_name f) [].

(** ["error" in r] *)
Definition has_error (r : gmap string pyval) : bool :=
  match r !! "error" with Some _ => true | None => false end.

(** [r[k]] *)
Definition getitem (r : gmap string pyval) (k : string) : Res pyval :=
  match r !! k with
  | Some v => Ok v
  | None => Raise (KeyError k)
  end.

(** [[r[k] for r in rs]] *)
Fixpoint column (k : string) (rs : list (gmap string pyval)) : Res (list pyval) :=
  match rs with
  | [] => Ok []
  | r :: rs' =>
      match getitem r k with
      | Raise e => Raise e
      | Ok v => match column k rs' with
                | Raise e => Raise e
                | Ok vs => Ok (v :: vs)
                end
      end
  end.

(** [type(v).__name__] *)
Definition type_name (v : pyval) : string :=
  match v with
  | VStr _ => "str"
  | VInt _ => "int"
  | VFloat _ => "float"
  | VDict _ => "dict"
  end.

(** [statistics._exact_ratio(v)]: ints and floats have an exact ratio; for
    anything else the TypeError names the type. *)
Definition exact_ratio (v : pyval) : Res Qc :=
  match v with
  | VFloat q => Ok q
  | VInt z => Ok (float_of_int z)
  | _ => Raise (TypeError ("can't convert type '" ++ type_name v
                           ++ "' to numerator/denominator"))
  end.

(** The exact sum that [statistics.mean] forms, in the order of the data:
    the first value without an exact ratio raises. *)
Fixpoint float_sum (vs : list pyval) : Res Qc :=
  match vs with
  | [] => Ok (Q2Qc 0)
  | v :: vs' =>
      match exact_ratio v with
      | Raise e => Raise e
      | Ok q =>
          match float_sum vs' with
          | Ok t => Ok (q + t)%Qc
          | Raise e => Raise e
          end
      end
  end.

Definition is_int (v : pyval) : bool :=
  match v with
  | VInt _ => true
  | _ => false
  end.

(** [statistics.mean(data)]: the exact mean, as an int when the data are all
    ints and the mean is integral, as a float otherwise.  The range of
    floats is not modelled, so no conversion overflows. *)
Definition statistics_mean (data : list pyval) : Res pyval :=
  match data with
  | [] => Raise (StatisticsError "mean requires at least one data point")
  | _ =>
      match float_sum data with
      | Ok total =>
          let m := (total / float_of_int (Z.of_nat (length data)))%Qc in
          if forallb is_int data && Pos.eqb (Qden (this m)) 1
          then Ok (VInt (Qnum (this m)))
          else Ok (VFloat m)
      | Raise e => Raise e
      end
  end.

Definition res_bind {A B} (r : Res A) (k : A -> Res B) : Res B :=
  match r with
  | Ok a => k a
  | Raise e => Raise e
  end.

(** Lines 74-90 of [main]: the value stored in [results["libs"][lib_name]]. *)
Definition summarise (runs_data : list (gmap string pyval))
  : Res (gmap string pyval) :=
  let successful_runs := List.filter (fun r => negb (has_error r)) runs_data in
  match successful_runs with
  | _ :: _ =>
      res_bind (column "read_time_s" successful_runs) (fun read_times =>
      res_bind (column "write_time_s" successful_runs) (fun write_times =>
      res_bind (column "read_mem_mb" successful_runs) (fun read_mems =>
      res_bind (column "write_mem_mb" successful_runs) (fun write_mems =>
      res_bind (statistics_mean read_times) (fun m1 =>
      res_bind (statistics_mean write_times) (fun m2 =>
      res_bind (statistics_mean read_mems) (fun m3 =>
      res_bind (statistics_mean write_mems) (fun m4 =>
      Ok (list_to_map
            [ ("read_time_s", m1);
              ("write_time_s", m2);
              ("read_mem_mb", m3);
              ("write_mem_mb", m4);
              ("runs_used", VInt (Z.of_nat (length successful_runs))) ])))))))))
  | [] => Ok {[ "error" := VStr "all runs failed" ]}
  end.

(** [results["libs"][lib_name] = v] *)
Definition set_lib (results : gmap string pyval) (lib_name : string)
    (v : gmap string pyval) : Res (gmap string pyval) :=
  match getitem results "libs" with
  | Ok (VDict l) => Ok (<["libs" := VDict (<[lib_name := VDict v]> l)]> results)
  | Ok _ => Raise (TypeError "object does not support item assignment")
  | Raise e => Raise e
  end.

(** The body of the outer loop of [main]. *)
Definition run_lib (c : Config) (lf : string * lib_func)
    (results : gmap string pyval) : M (gmap string pyval) :=
  let '(lib_name, f) := lf in
  runs_data <- run_trials c lib_name f ;;
  summary <- lift_res (summarise runs_data) ;;
  lift_res (set_lib results lib_name summary).

Definition initial_results (c : Config) : gmap string pyval :=
  list_to_map [ ("input", VStr (input_path c));
                ("runs", VInt (runs c));
                ("separator", VStr (sep c));
                ("libs", VDict ∅) ].

Definition missing_input_report (c : Config) : gmap string pyval :=
  list_to_map [ ("error", VStr "input file not found");
                ("input", VStr (input_path c)) ].

Definition result_path (c : Config) : string :=
  os_path_join (outdir c) "bench_result.json".

(** [main], with its local settings gathered in [c]. *)
Definition main_with (c : Config) : M Z :=
  os_makedirs (outdir c) ;;
  let result_filename := result_path c in
  found <- os_path_exists (input_path c) ;;
  if negb found then
    json_dump_to result_filename (VDict (missing_input_report c)) ;;
    ret 2
  else
    results <- for_each libs (run_lib c) (initial_results c) ;;
    json_dump_to result_filename (VDict results) ;;
    ret 0.

Definition main : M Z := main_with source_config.

End Harness.

(** * Vocabulary of the specification *)

(** The formula of the specification for the memory figure of [measure]. *)
Definition mean_of_two_mb (mem_before mem_after : N) : Qc :=
  ((float_of_int (Z.of_N mem_before) + float_of_int (Z.of_N mem_after))
     / float_of_int 2 / float_of_int 1048576)%Qc.

Definition metric_keys : gset string :=
  {[ "read_time_s"; "write_time_s"; "read_mem_mb"; "write_mem_mb" ]}.

(** A TrialSample: exactly the four metric fields, each a float. *)
Definition is_sample (d : gmap string pyval) : Prop :=
  exists t_read t_write mem_read mem_write,
    d = sample_dict t_read t_write mem_read mem_write.

(** A TrialFailure: exactly the field ["error"], holding a description. *)
Definition is_failure (d : gmap string pyval) : Prop :=
  exists msg, d = error_dict msg.

Definition is_outcome (d : gmap string pyval) : Prop :=
  is_sample d \/ is_failure d.

(** What a trial may hand back to its caller: a recorded outcome, or an
    exception that [except Exception] does not catch. *)
Definition adapter_result {A} (r : Res (gmap string pyval) * A) : Prop :=
  match r with
  | (Ok d, _) => is_outcome d
  | (Raise e, _) => is_Exception e = false
  end.

(** What the cleanup of a trial leaves of the world: a regular file at the
    temp path is gone, anything else is as it was. *)
Definition cleanup_world (p : string) (w : World) : World :=
  match fs w !! p with
  | Some (File _) => set_fs (delete p (fs w)) w
  | _ => w
  end.

(** A work that raises nothing outside the [Exception] hierarchy. *)
Definition raises_only_Exception {A} (f : Work A) : Prop :=
  forall w e w', f w = (Raise e, w') -> is_Exception e = true.

(** Libraries none of whose calls raises outside the [Exception] hierarchy. *)
Definition only_Exceptions (E : Externals) : Prop :=
  (forall p sp en, raises_only_Exception (pd_read_csv p sp en)) /\
  (forall df p en, raises_only_Exception (pd_to_csv df p en)) /\
  (forall p sp en, raises_only_Exception (pl_read_csv p sp en)) /\
  (forall df p, raises_only_Exception (pl_write_csv df p)) /\
  (forall p sp en, raises_only_Exception (dd_read_csv p sp en)) /\
  (forall ddf, raises_only_Exception (dd_compute ddf)).

(** An adapter that always hands back a recorded outcome. *)
Definition always_records (f : lib_func) : Prop :=
  forall path out_tmp enc sp s,
    exists d s', f path out_tmp enc sp s = (Ok d, s') /\ is_outcome d.

(** An adapter that hands back a recorded outcome or lets an exception
    outside the [Exception] hierarchy through. *)
Definition records_or_propagates (f : lib_func) : Prop :=
  forall path out_tmp enc sp s, adapter_result (f path out_tmp enc sp s).

(** A trial succeeded when its outcome has no ["error"] field. *)
Definition succeeded (r : gmap string pyval) : bool :=
  match r !! "error" with
  | None => true
  | Some _ => false
  end.

(** Number of successful trials among the outcomes. *)
Fixpoint success_count (outcomes : list (gmap string pyval)) : nat :=
  match outcomes with
  | [] => 0
  | r :: rest =>
      if succeeded r then S (success_count rest) else success_count rest
  end.

(** The float stored under [k], zero when there is none. *)
Definition metric (k : string) (r : gmap string pyval) : Qc :=
  match r !! k with
  | Some (VFloat q) => q
  | _ => Q2Qc 0
  end.

(** Sum of the metric [k] over the successful trials; a failed trial adds
    nothing. *)
Fixpoint success_total (k : string) (outcomes : list (gmap string pyval)) : Qc :=
  match outcomes with
  | [] => Q2Qc 0
  | r :: rest =>
      if succeeded r then (metric k r + success_total k rest)%Qc
      else success_total k rest
  end.

(** Arithmetic mean of the metric [k] over the successful trials only. *)
Definition mean_over_successes (k : string)
    (outcomes : list (gmap string pyval)) : Qc :=
  (success_total k outcomes
     / float_of_int (Z.of_nat (success_count outcomes)))%Qc.

(** The BackendSummary of a backend with at least one successful trial. *)
Definition mean_summary (outcomes : list (gmap string pyval))
  : gmap string pyval :=
  list_to_map
    [ ("read_time_s", VFloat (mean_over_successes "read_time_s" outcomes));
      ("write_time_s", VFloat (mean_over_successes "write_time_s" outcomes));
      ("read_mem_mb", VFloat (mean_over_successes "read_mem_mb" outcomes));
      ("write_mem_mb", VFloat (mean_over_successes "write_mem_mb" outcomes));
      ("runs_used", VInt (Z.of_nat (success_count outcomes))) ].

(** The failure marker of a backend none of whose trials succeeded. *)
Definition all_runs_failed : gmap string pyval :=
  {[ "error" := VStr "all runs failed" ]}.

(** The BackendSummary that the outcomes of one backend determine. *)
Definition summary_of (outcomes : list (gmap string pyval))
  : gmap string pyval :=
  match success_count outcomes with
  | O => all_runs_failed
  | S _ => mean_summary outcomes
  end.

(** The BenchmarkReport with the backend summaries [lm]. *)
Definition report_with (c : Config) (lm : gmap string pyval)
  : gmap string pyval :=
  <["libs" := VDict lm]> (initial_results c).

(** The report once the three backends have contributed. *)
Definition full_report (c : Config)
    (pandas_runs polars_runs dask_runs : list (gmap string pyval))
  : gmap string pyval :=
  report_with c
    (<["dask" := VDict (summary_of dask_runs)]>
       (<["polars" := VDict (summary_of polars_runs)]>
          (<["pandas" := VDict (summary_of pandas_runs)]> ∅))).

(** What [Path(input_path).exists()] answers when [main] evaluates it, that
    is, once [os.makedirs(outdir)] has run. *)
Definition input_found (c : Config) (s : State) : bool :=
  path_exists_in (input_path c) (makedirs_world (outdir c) (world s)).

(** The state in which [main] returns when the input is missing. *)
Definition missing_input_state (c : Config) (s : State) : State :=
  set_world
    (write_world (result_path c) (VDict (missing_input_report c))
       (makedirs_world (outdir c) (world s))) s.

(** Sum of the floats stored under [k]. *)
Fixpoint total (k : string) (l : list (gmap string pyval)) : Qc :=
  match l with
  | [] => Q2Qc 0
  | r :: l' => (metric k r + total k l')%Qc
  end.

(** A key under which every sample stores a float. *)
Definition float_field (k : string) : Prop :=
  forall a b c d, exists q, sample_dict a b c d !! k = Some (VFloat q).

Section ReportVocabulary.
Context `{E : Externals}.

(** The three backends in turn, from the state [s1] in which the loop
    starts, and the state in which the report has been written. *)
Definition benchmarked (c : Config) (s1 s' : State)
    (l1 l2 l3 : list (gmap string pyval)) : Prop :=
  exists s2 s3 s4,
    run_trials c "pandas" read_write_pandas s1 = (Ok l1, s2) /\
    run_trials c "polars" read_write_polars s2 = (Ok l2, s3) /\
    run_trials c "dask" read_write_dask s3 = (Ok l3, s4) /\
    s' = set_world
           (write_world (result_path c) (VDict (full_report c l1 l2 l3))
              (world s4)) s4.

End ReportVocabulary.

(** * Concrete libraries and states used in the examples *)

Definition MiB : N := 1048576.

(** A work that allocates [grow] bytes and takes [dt] seconds. *)
Definition busy {A} (a : A) (grow : N) (dt : Qc) : Work A :=
  fun w => (Ok a, MkWorld (fs w) (rss w + grow) (clock w + dt)%Qc).

(** A work that writes a CSV file at [p]; it fails when [p] is a directory. *)
Definition write_csv_file (p : string) : Work unit :=
  fun w => match fs w !! p with
           | Some Dir => (Raise (OSError ("Is a directory: " ++ p)), w)
           | _ => (Ok tt, write_world p (VStr "csv") w)
           end.

(** A work that fails with an exception [e]. *)
Definition failing {A} (e : exn) : Work A := fun w => (Raise e, w).

Definition ParserError : exn := MkExn "ParserError('Error tokenizing data')" true.

(** The panic of a PyO3 extension module: a BaseException that is not an
    Exception. *)
Definition PanicException : exn :=
  MkExn "PanicException('called `Option::unwrap()` on a `None` value')" false.

(** Libraries whose calls all succeed; the dask build is lazy and cheap, the
    materialization allocates 60 MiB. *)
Definition steady_libs : Externals := {|
  pd_DataFrame := unit;
  pl_DataFrame := unit;
  dd_DataFrame := unit;
  pd_read_csv := fun _ _ _ => busy tt (2 * MiB) (Q2Qc 3);
  pd_to_csv := fun _ p _ => write_csv_file p;
  pl_read_csv := fun _ _ _ => busy tt MiB (Q2Qc 1);
  pl_write_csv := fun _ p => write_csv_file p;
  dd_read_csv := fun _ _ _ => busy tt 0 (Q2Qc 1);
  dd_compute := fun _ => busy tt (60 * MiB) (Q2Qc 4);
  collect := fun w => w
|}.

(** Libraries that cannot parse the dataset: every read fails. *)
Definition failing_libs : Externals := {|
  pd_DataFrame := unit;
  pl_DataFrame := unit;
  dd_DataFrame := unit;
  pd_read_csv := fun _ _ _ => failing ParserError;
  pd_to_csv := fun _ p _ => write_csv_file p;
  pl_read_csv := fun _ _ _ => failing ParserError;
  pl_write_csv := fun _ p => write_csv_file p;
  dd_read_csv := fun _ _ _ => failing ParserError;
  dd_compute := fun _ => busy tt 0 (Q2Qc 0);
  collect := fun w => w
|}.

(** Libraries in which the polars reader panics. *)
Definition panicking_libs : Externals := {|
  pd_DataFrame := unit;
  pl_DataFrame := unit;
  dd_DataFrame := unit;
  pd_read_csv := fun _ _ _ => busy tt MiB (Q2Qc 1);
  pd_to_csv := fun _ p _ => write_csv_file p;
  pl_read_csv := fun _ _ _ => failing PanicException;
  pl_write_csv := fun _ p => write_csv_file p;
  dd_read_csv := fun _ _ _ => busy tt 0 (Q2Qc 1);
  dd_compute := fun _ => busy tt MiB (Q2Qc 1);
  collect := fun w => w
|}.

(** A process of 50 MiB with the dataset in place. *)
Definition world_with_input : World :=
  MkWorld {[ "StudentsPerformance.csv" := File (VStr "gender,score") ]}
          (50 * MiB) (Q2Qc 0).

(** The same process without the dataset. *)
Definition world_without_input : World := MkWorld ∅ (50 * MiB) (Q2Qc 0).

(** The dataset in place, and a directory where the first pandas trial wants
    its temp file. *)
Definition world_with_blocked_temp : World :=
  MkWorld (<["./bench_results/tmp_pandas_0.csv" := Dir]>
             (<["./bench_results" := Dir]>
                {[ "StudentsPerformance.csv" := File (VStr "gender,score") ]}))
          (50 * MiB) (Q2Qc 0).

Definition start_in (w : World) : State := MkState w 0 0.

(** The settings of [main] with another repetition count. *)
Definition config_with_runs (n : Z) : Config :=
  MkConfig "StudentsPerformance.csv" "./bench_results" "utf-8" n ",".

(** The outcome that the loop of [main] records for what an adapter did. *)
Definition recorded (r : Res (gmap string pyval)) : gmap string pyval :=
  match r with
  | Ok d => d
  | Raise e => error_dict (exn_repr e)
  end.

(** Five trials of which the second and the fourth failed; the read times of
    the successful ones are 0.1 s, 0.2 s and 0.3 s. *)
Definition five_trials_two_failed : list (gmap string pyval) :=
  [ sample_dict (Q2Qc (1 # 10)) (Q2Qc (4 # 10)) (Q2Qc 50) (Q2Qc 60);
    error_dict "ParserError('Error tokenizing data')";
    sample_dict (Q2Qc (2 # 10)) (Q2Qc (5 # 10)) (Q2Qc 51) (Q2Qc 61);
    error_dict "OSError('No space left on device')";
    sample_dict (Q2Qc (3 # 10)) (Q2Qc (6 # 10)) (Q2Qc 52) (Q2Qc 62) ].

Definition two_trials_failed : list (gmap string pyval) :=
  [ error_dict "ParserError('Error tokenizing data')";
    error_dict "OSError('No space left on device')" ].

(** The report in which the three backends carry the failure marker. *)
Definition all_failed_report (c : Config) : gmap string pyval :=
  report_with c
    (<["dask" := VDict all_runs_failed]>
       (<["polars" := VDict all_runs_failed]>
          (<["pandas" := VDict all_runs_failed]> ∅))).

(** The field [k] of the summary of backend [lib_name] in the report file
    at [p]. *)
Definition reported (p lib_name k : string) (w : World) : option pyval :=
  match fs w !! p with
  | Some (File (VDict report)) =>
      match report !! "libs" with
      | Some (VDict lm) =>
          match lm !! lib_name with
          | Some (VDict summary) => summary !! k
          | _ => None
          end
      | _ => None
      end
  | _ => None
  end.

(** Exit status, number of collection passes and reported [runs_used] of
    pandas after a run of the harness. *)
Definition run_digest (r : Res Z * State) : Res Z * Z * option pyval :=
  (fst r, Z.of_nat (gc_passes (snd r)),
   reported "./bench_results/bench_result.json" "pandas" "runs_used"
     (world (snd r))).

(** * Further vocabulary *)

(** The names under which [main] registers its backends. *)
Definition lib_names : list string := [ "pandas"; "polars"; "dask" ].

(** What [os.path.join] puts in front of a relative second component. *)
Definition join_prefix (a : string) : string :=
  match a with
  | EmptyString => EmptyString
  | _ => if ends_with_slash a then a else a ++ "/"
  end.

(** What [try: ... except Exception as e: return {"error": repr(e)}] makes
    of an exception raised in its body. *)
Definition caught (e : exn) : Res (gmap string pyval) :=
  if is_Exception e then Ok (error_dict (exn_repr e)) else Raise e.

(** Number of measured works that failed behind a result of an adapter: one
    for a failure outcome or an escaping exception, none for a sample. *)
Definition failed_works (r : Res (gmap string pyval)) : nat :=
  match r with
  | Ok d => if has_error d then 1 else 0
  | Raise _ => 1
  end.

(** Number of failure outcomes in a list of recorded outcomes. *)
Definition failure_count (outcomes : list (gmap string pyval)) : nat :=
  length (List.filter has_error outcomes).

(** An adapter whose every result accounts for the calls and collection
    passes it made: a pass follows every work that returned. *)
Definition accounts_for_passes (f : lib_func) : Prop :=
  forall path out_tmp enc sp s,
    (calls (snd (f path out_tmp enc sp s)) + gc_passes s
     = calls s + gc_passes (snd (f path out_tmp enc sp s))
       + failed_works (fst (f path out_tmp enc sp s)))%nat.

(** A sample whose two memory figures are non-negative. *)
Definition sound_sample (d : gmap string pyval) : Prop :=
  exists t_read t_write mem_read mem_write,
    d = sample_dict t_read t_write mem_read mem_write /\
    (0 <= mem_read)%Qc /\ (0 <= mem_write)%Qc.

(** A run of the harness with two repetitions on libraries whose reads all
    fail, and one on libraries that all succeed. *)
Definition failing_run : Res Z * State :=
  main_with (E := failing_libs) (config_with_runs 2) (start_in world_with_input).

Definition steady_run : Res Z * State :=
  main_with (E := steady_libs) (config_with_runs 2) (start_in world_with_input).

(** An outcome that is neither a sample nor a failure: it has no field. *)
Definition empty_outcome : gmap string pyval := ∅.

(** A recorded outcome whose memory figures, if any, are non-negative. *)
Definition sound_outcome (d : gmap string pyval) : Prop :=
  sound_sample d \/ is_failure d.

(** What [os.makedirs(outdir)] answers at the start of [main]: an error, or
    nothing when the directory is there afterwards. *)
Definition makedirs_error (c : Config) (s : State) : option mkdir_error :=
  fst (makedirs_result (outdir c) (fs (world s))).

(** The report path holds a directory, so that it cannot be opened for
    writing. *)
Definition report_blocked (c : Config) (w : World) : bool :=
  isdir_in (result_path c) (fs w).

(** A computation that raises nothing but Exceptions. *)
Definition raises_Exceptions_only (f : lib_func) : Prop :=
  forall path out_tmp enc sp s e s',
    f path out_tmp enc sp s = (Raise e, s') -> is_Exception e = true.

(** A regular file sits at the output path of the current directory, and
    the input is missing. *)
Definition world_with_file_at_outdir : World :=
  MkWorld (<["./bench_results" := File (VStr "notes")]> {[ "." := Dir ]})
          (50 * MiB) (Q2Qc 0).

(** The output directory is there, a directory sits at the report path, and
    the input is missing. *)
Definition world_with_dir_at_report : World :=
  MkWorld (<["./bench_results/bench_result.json" := Dir]>
             (<["./bench_results" := Dir]> {[ "." := Dir ]}))
          (50 * MiB) (Q2Qc 0).

(** Two results that are the same value, or both an exception. *)
Definition same_result {A} (r r' : Res A) : Prop :=
  match r, r' with
  | Ok a, Ok a' => a = a'
  | Raise _, Raise _ => True
  | _, _ => False
  end.

Section TrialsVocabulary.
Context `{E : Externals}.

(** The trials of the three backends in turn, from [s1] to [s4]. *)
Definition trials_ran (c : Config) (s1 s4 : State)
    (l1 l2 l3 : list (gmap string pyval)) : Prop :=
  exists s2 s3,
    run_trials c "pandas" read_write_pandas s1 = (Ok l1, s2) /\
    run_trials c "polars" read_write_polars s2 = (Ok l2, s3) /\
    run_trials c "dask" read_write_dask s3 = (Ok l3, s4).

End TrialsVocabulary.

(** * Properties *)

Section MeasureFacts.
Context `{E : Externals}.

Lemma float_of_int_add (a b : Z) :
  float_of_int (a + b) = (float_of_int a + float_of_int b)%Qc.
Proof.
  unfold float_of_int. apply Qc_is_canon.
  unfold Qcplus, Q2Qc, this. rewrite !Qred_correct, inject_Z_plus. reflexivity.
Qed.

Lemma mean_of_two_mb_code (mem0 mem1 : N) :
  ((float_of_int (Z.of_N (mem0 + mem1)) / float_of_int 2)
     / float_of_int (1024 * 1024))%Qc = mean_of_two_mb mem0 mem1.
Proof.
  unfold mean_of_two_mb. rewrite N2Z.inj_add, float_of_int_add. reflexivity.
Qed.

Lemma mean_of_two_mb_nonneg (mem0 mem1 : N) : (0 <= mean_of_two_mb mem0 mem1)%Qc.
Proof.
  rewrite <- mean_of_two_mb_code.
  unfold float_of_int, Qcle, Qcdiv, Qcmult, Qcinv, Q2Qc, this.
  rewrite !Qred_correct.
  apply Qmult_le_0_compat; [apply Qmult_le_0_compat |].
  - unfold Qle; simpl. lia.
  - discriminate.
  - discriminate.
Qed.

Lemma measure_ok {A} (func : Work A) (s : State) (res : A) (w1 : World) :
  func (world s) = (Ok res, w1) ->
  measure func s =
    (Ok (res, (clock w1 - clock (world s))%Qc,
         mean_of_two_mb (rss (world s)) (rss w1)),
     MkState (collect w1) (S (calls s)) (S (gc_passes s))).
Proof.
  intros H. rewrite <- mean_of_two_mb_code.
  unfold measure, bind, memory_rss, perf_counter, call, run_work,
    gc_collect, ret. simpl. rewrite H. reflexivity.
Qed.

Lemma measure_raise {A} (func : Work A) (s : State) (e : exn) (w1 : World) :
  func (world s) = (Raise e, w1) ->
  measure func s = (Raise e, MkState w1 (S (calls s)) (gc_passes s)).
Proof.
  intros H. unfold measure, bind, memory_rss, perf_counter, call, run_work.
  simpl. rewrite H. reflexivity.
Qed.

Lemma with_value_raise {A B} (f : Work A) (b : B) w e w' :
  f w = (Raise e, w') -> with_value f b w = (Raise e, w').
Proof. intros H. unfold with_value. rewrite H. reflexivity. Qed.

End MeasureFacts.

(** ** Trial outcomes *)

Section OutcomeFacts.
Context `{E : Externals}.

Lemma dom_sample_dict a b c d : dom (sample_dict a b c d) = metric_keys.
Proof.
  unfold sample_dict, metric_keys. simpl.
  rewrite !dom_insert_L, dom_empty_L. set_solver.
Qed.

Lemma dom_error_dict msg : dom (error_dict msg) = {[ "error" ]}.
Proof. unfold error_dict. apply dom_singleton_L. Qed.

Lemma has_error_sample a b c d : has_error (sample_dict a b c d) = false.
Proof. reflexivity. Qed.

Lemma has_error_failure msg : has_error (error_dict msg) = true.
Proof. reflexivity. Qed.

Lemma sample_not_failure d : is_sample d -> is_failure d -> False.
Proof.
  intros (a & b & c & e & ->) (msg & H).
  apply (f_equal has_error) in H. discriminate H.
Qed.

Lemma try_except_record (body : M (gmap string pyval)) s :
  (forall d s', body s = (Ok d, s') -> is_sample d) ->
  adapter_result (try_except body (fun e => ret (error_dict (exn_repr e))) s).
Proof.
  intros Hb. unfold try_except. destruct (body s) as [[d | e] s'] eqn:Hbody.
  - left. eauto.
  - destruct (is_Exception e) eqn:He; simpl.
    + right. eexists. reflexivity.
    + exact He.
Qed.

Lemma read_write_pandas_result path out_tmp enc sp s :
  adapter_result (read_write_pandas path out_tmp enc sp s).
Proof.
  apply try_except_record. intros d s' H. unfold bind in H.
  destruct (measure _ s) as [[[[[df x] t1] m1] | e] s1]; [| discriminate H].
  destruct (measure _ s1) as [[[[u t2] m2] | e] s2]; [| discriminate H].
  injection H as <- _. repeat eexists.
Qed.

Lemma read_write_polars_result path out_tmp enc sp s :
  adapter_result (read_write_polars path out_tmp enc sp s).
Proof.
  apply try_except_record. intros d s' H. unfold bind in H.
  destruct (measure _ s) as [[[[[df x] t1] m1] | e] s1]; [| discriminate H].
  destruct (measure _ s1) as [[[[u t2] m2] | e] s2]; [| discriminate H].
  injection H as <- _. repeat eexists.
Qed.

Lemma read_write_dask_result path out_tmp enc sp s :
  adapter_result (read_write_dask path out_tmp enc sp s).
Proof.
  apply try_except_record. intros d s' H. unfold bind in H.
  destruct (measure _ s) as [[[[[df x] t1] m1] | e] s1]; [| discriminate H].
  destruct (measure _ s1) as [[[[pdf t2] m2] | e] s2]; [| discriminate H].
  destruct (measure _ s2) as [[[[u t3] m3] | e] s3]; [| discriminate H].
  injection H as <- _. repeat eexists.
Qed.

End OutcomeFacts.

(** ** Totality of the adapters when the libraries raise only Exceptions *)

Section AdapterTotality.
Context `{E : Externals}.

Lemma with_value_only_Exception {A B} (f : Work A) (b : B) :
  raises_only_Exception f -> raises_only_Exception (with_value f b).
Proof.
  intros Hf w e w' H. unfold with_value in H.
  destruct (f w) as [[a | e0] w0] eqn:Hfw; [discriminate H |].
  injection H as <- <-. eapply Hf, Hfw.
Qed.

Lemma measure_cases {A} (func : Work A) (s : State) :
  (exists res w1, func (world s) = (Ok res, w1) /\
     measure func s =
       (Ok (res, (clock w1 - clock (world s))%Qc,
            mean_of_two_mb (rss (world s)) (rss w1)),
        MkState (collect w1) (S (calls s)) (S (gc_passes s)))) \/
  (exists e w1, func (world s) = (Raise e, w1) /\
     measure func s = (Raise e, MkState w1 (S (calls s)) (gc_passes s))).
Proof.
  destruct (func (world s)) as [[res | e] w1] eqn:H.
  - left. exists res, w1. split; [reflexivity | apply measure_ok, H].
  - right. exists e, w1. split; [reflexivity | apply measure_raise, H].
Qed.

Lemma measure_raise_only_Exception {A} (func : Work A) s e s' :
  raises_only_Exception func ->
  measure func s = (Raise e, s') -> is_Exception e = true.
Proof.
  intros Hf H. destruct (measure_cases func s) as
    [(res & w1 & _ & Hm) | (e0 & w1 & Hw & Hm)]; rewrite Hm in H.
  - discriminate H.
  - injection H as <- _. eapply Hf, Hw.
Qed.

Lemma try_except_total (body : M (gmap string pyval)) s :
  (forall e s', body s = (Raise e, s') -> is_Exception e = true) ->
  adapter_result (try_except body (fun e => ret (error_dict (exn_repr e))) s) ->
  exists d s', try_except body (fun e => ret (error_dict (exn_repr e))) s
                 = (Ok d, s') /\ is_outcome d.
Proof.
  intros Hraise Hres. unfold try_except in *.
  destruct (body s) as [[d | e] s'] eqn:Hbody.
  - eauto.
  - rewrite (Hraise e s' eq_refl) in *. unfold ret in *. eauto.
Qed.

Lemma read_write_pandas_total :
  only_Exceptions E -> always_records read_write_pandas.
Proof.
  intros (Hr & Hw & _) path out_tmp enc sp s.
  apply try_except_total; [| apply read_write_pandas_result].
  intros e s' H. unfold bind in H.
  destruct (measure _ s) as [[[[[df x] t1] m1] | e1] s1] eqn:H1.
  - destruct (measure _ s1) as [[[[u t2] m2] | e2] s2] eqn:H2; [discriminate H |].
    injection H as <- _. eapply measure_raise_only_Exception, H2. apply Hw.
  - injection H as <- _. eapply measure_raise_only_Exception, H1.
    apply with_value_only_Exception, Hr.
Qed.

Lemma read_write_polars_total :
  only_Exceptions E -> always_records read_write_polars.
Proof.
  intros (_ & _ & Hr & Hw & _) path out_tmp enc sp s.
  apply try_except_total; [| apply read_write_polars_result].
  intros e s' H. unfold bind in H.
  destruct (measure _ s) as [[[[[df x] t1] m1] | e1] s1] eqn:H1.
  - destruct (measure _ s1) as [[[[u t2] m2] | e2] s2] eqn:H2; [discriminate H |].
    injection H as <- _. eapply measure_raise_only_Exception, H2. apply Hw.
  - injection H as <- _. eapply measure_raise_only_Exception, H1.
    apply with_value_only_Exception, Hr.
Qed.

Lemma read_write_dask_total :
  only_Exceptions E -> always_records read_write_dask.
Proof.
  intros (_ & Hw & _ & _ & Hr & Hc) path out_tmp enc sp s.
  apply try_except_total; [| apply read_write_dask_result].
  intros e s' H. unfold bind in H.
  destruct (measure _ s) as [[[[[df x] t1] m1] | e1] s1] eqn:H1.
  - destruct (measure _ s1) as [[[[pdf t2] m2] | e2] s2] eqn:H2.
    + destruct (measure _ s2) as [[[[u t3] m3] | e3] s3] eqn:H3;
        [discriminate H |].
      injection H as <- _. eapply measure_raise_only_Exception, H3. apply Hw.
    + injection H as <- _. eapply measure_raise_only_Exception, H2. apply Hc.
  - injection H as <- _. eapply measure_raise_only_Exception, H1.
    apply with_value_only_Exception, Hr.
Qed.

End AdapterTotality.

(** ** One iteration of the inner loop *)

Section TrialFacts.
Context `{E : Externals}.

Lemma set_world_same s : set_world (world s) s = s.
Proof. destruct s; reflexivity. Qed.

Lemma cleanup_run (p : string) (s : State) :
  cleanup p s = (Ok tt, set_world (cleanup_world p (world s)) s).
Proof.
  unfold cleanup, try_except, bind, os_path_exists, os_remove, cleanup_world,
    path_exists_in, ret.
  destruct (fs (world s) !! p) as [[v |] |] eqn:Hp; simpl; rewrite ?Hp;
    simpl; rewrite ?set_world_same; reflexivity.
Qed.

Lemma cleanup_world_removes_file p w :
  fs w !! p <> Some Dir -> fs (cleanup_world p w) !! p = None.
Proof.
  intros H. unfold cleanup_world.
  destruct (fs w !! p) as [[v |] |] eqn:Hp; simpl.
  - apply lookup_delete_eq.
  - congruence.
  - exact Hp.
Qed.

Lemma cleanup_world_keeps_dir p w :
  fs w !! p = Some Dir -> cleanup_world p w = w.
Proof. intros H. unfold cleanup_world. rewrite H. reflexivity. Qed.

Lemma cleanup_world_rss p w : rss (cleanup_world p w) = rss w.
Proof. unfold cleanup_world. destruct (fs w !! p) as [[v |] |]; reflexivity. Qed.

Lemma trial_run c lib_name (f : lib_func) i runs_data s :
  let p := temp_out_path c lib_name i in
  trial c lib_name f i runs_data s =
    match f (input_path c) p (encoding c) (sep c) s with
    | (Ok d, s1) =>
        (Ok (runs_data ++ [d])%list, set_world (cleanup_world p (world s1)) s1)
    | (Raise e, s1) =>
        if is_Exception e
        then (Ok (runs_data ++ [error_dict (exn_repr e)])%list,
              set_world (cleanup_world p (world s1)) s1)
        else (Raise e, s1)
    end.
Proof.
  intros p. unfold trial. fold p. unfold bind at 1. unfold try_except at 1.
  unfold bind at 1.
  destruct (f (input_path c) p (encoding c) (sep c) s) as [[d | e] s1].
  - unfold ret at 1. unfold bind. rewrite cleanup_run. reflexivity.
  - destruct (is_Exception e); [| reflexivity].
    unfold ret at 1. unfold bind. rewrite cleanup_run. reflexivity.
Qed.

Lemma for_each_trial_length c lib_name (f : lib_func) :
  forall xs acc s l s',
    for_each xs (trial c lib_name f) acc s = (Ok l, s') ->
    length l = (length acc + length xs)%nat.
Proof.
  intros xs. induction xs as [| i xs IH]; intros acc s l s' H.
  - injection H as <- _. simpl. lia.
  - simpl in H. unfold bind in H. rewrite trial_run in H.
    destruct (f _ _ _ _ s) as [[d | e] s1].
    + apply IH in H. rewrite H, length_app. simpl. lia.
    + destruct (is_Exception e); [| discriminate H].
      apply IH in H. rewrite H, length_app. simpl. lia.
Qed.

Lemma for_each_trial_ok c lib_name (f : lib_func) :
  records_or_propagates f ->
  forall xs acc s l s',
    for_each xs (trial c lib_name f) acc s = (Ok l, s') ->
    exists l', l = (acc ++ l')%list /\ length l' = length xs /\
               Forall is_outcome l'.
Proof.
  intros Hf xs. induction xs as [| i xs IH]; intros acc s l s' H.
  - injection H as <- _. exists []. rewrite app_nil_r. auto.
  - simpl in H. unfold bind in H. rewrite trial_run in H.
    specialize (Hf (input_path c) (temp_out_path c lib_name i)
                   (encoding c) (sep c) s).
    destruct (f _ _ _ _ s) as [[d | e] s1]; simpl in Hf.
    + apply IH in H as (l' & -> & Hlen & Hall).
      exists (d :: l'). rewrite <- app_assoc. simpl. auto.
    + rewrite Hf in H. discriminate H.
Qed.

Lemma run_trials_length c lib_name (f : lib_func) s l s' :
  run_trials c lib_name f s = (Ok l, s') ->
  length l = Z.to_nat (Z.max 1 (runs c)).
Proof.
  intros H. apply for_each_trial_length in H. rewrite H. simpl.
  apply length_seq.
Qed.

Lemma for_each_trial_total c lib_name (f : lib_func) :
  always_records f ->
  forall xs acc s, exists l s',
    for_each xs (trial c lib_name f) acc s = (Ok l, s').
Proof.
  intros Hf xs. induction xs as [| i xs IH]; intros acc s.
  - simpl. unfold ret. eauto.
  - simpl. unfold bind. rewrite trial_run.
    destruct (Hf (input_path c) (temp_out_path c lib_name i)
                 (encoding c) (sep c) s) as (d & s1 & -> & _).
    apply IH.
Qed.

Lemma always_records_propagates (f : lib_func) :
  always_records f -> records_or_propagates f.
Proof.
  intros Hf path out_tmp enc sp s.
  destruct (Hf path out_tmp enc sp s) as (d & s' & -> & Hd). exact Hd.
Qed.

Lemma trial_range_length c : length (trial_range c) = Z.to_nat (Z.max 1 (runs c)).
Proof. unfold trial_range. apply length_seq. Qed.

Lemma run_trials_ok c lib_name (f : lib_func) s l s' :
  records_or_propagates f ->
  run_trials c lib_name f s = (Ok l, s') ->
  length l = Z.to_nat (Z.max 1 (runs c)) /\ Forall is_outcome l.
Proof.
  intros Hf H. unfold run_trials in H.
  apply (for_each_trial_ok _ _ _ Hf) in H as (l' & -> & Hlen & Hall).
  simpl. rewrite Hlen, trial_range_length. auto.
Qed.

End TrialFacts.

(** ** The aggregation *)

Section AggregationFacts.

Abbreviation successes l := (List.filter (fun r => negb (has_error r)) l).

Lemma succeeded_negb_has_error r : succeeded r = negb (has_error r).
Proof. unfold succeeded, has_error. destruct (r !! "error"); reflexivity. Qed.

Lemma successes_length l : length (successes l) = success_count l.
Proof.
  induction l as [| r l IH]; [reflexivity |]. simpl.
  rewrite succeeded_negb_has_error. destruct (negb (has_error r)); simpl; lia.
Qed.

Lemma successes_are_samples l :
  Forall is_outcome l -> Forall is_sample (successes l).
Proof.
  induction 1 as [| r l Hr _ IH]; [constructor |]. simpl.
  destruct Hr as [Hs | (msg & ->)].
  - destruct Hs as (a & b & c & d & ->). rewrite has_error_sample. simpl.
    constructor; [repeat eexists | exact IH].
  - rewrite has_error_failure. exact IH.
Qed.

Lemma total_successes k l : total k (successes l) = success_total k l.
Proof.
  induction l as [| r l IH]; [reflexivity |]. simpl.
  rewrite succeeded_negb_has_error.
  destruct (negb (has_error r)); simpl; rewrite IH; reflexivity.
Qed.

Lemma float_field_read_time : float_field "read_time_s".
Proof. intros a b c d. exists a. reflexivity. Qed.
Lemma float_field_write_time : float_field "write_time_s".
Proof. intros a b c d. exists b. reflexivity. Qed.
Lemma float_field_read_mem : float_field "read_mem_mb".
Proof. intros a b c d. exists c. reflexivity. Qed.
Lemma float_field_write_mem : float_field "write_mem_mb".
Proof. intros a b c d. exists d. reflexivity. Qed.

Lemma column_samples k l :
  float_field k -> Forall is_sample l ->
  column k l = Ok (map (fun r => VFloat (metric k r)) l).
Proof.
  intros Hk. induction 1 as [| r l (a & b & c & d & ->) _ IH]; [reflexivity |].
  simpl. rewrite IH. unfold getitem, metric.
  destruct (Hk a b c d) as (q & ->). reflexivity.
Qed.

Lemma float_sum_floats k l :
  float_sum (map (fun r => VFloat (metric k r)) l) = Ok (total k l).
Proof.
  induction l as [| r l IH]; [reflexivity |]. simpl. rewrite IH. reflexivity.
Qed.

Lemma statistics_mean_floats k r l :
  statistics_mean (map (fun r => VFloat (metric k r)) (r :: l)) =
    Ok (VFloat (total k (r :: l)
                  / float_of_int (Z.of_nat (length (r :: l))))%Qc).
Proof.
  unfold statistics_mean. rewrite float_sum_floats, length_map. reflexivity.
Qed.

Lemma summarise_some_success outcomes :
  Forall is_outcome outcomes ->
  (1 <= success_count outcomes)%nat ->
  summarise outcomes = Ok (mean_summary outcomes).
Proof.
  intros Hall Hn. unfold summarise, mean_summary, mean_over_successes.
  pose proof (successes_are_samples _ Hall) as Hs.
  rewrite <- successes_length in *. rewrite <- !total_successes.
  destruct (successes outcomes) as [| r l] eqn:Hl; [simpl in Hn; lia |].
  rewrite !column_samples by
    auto using float_field_read_time, float_field_write_time,
               float_field_read_mem, float_field_write_mem.
  unfold res_bind. rewrite !statistics_mean_floats. reflexivity.
Qed.

Lemma summarise_no_success outcomes :
  success_count outcomes = 0%nat -> summarise outcomes = Ok all_runs_failed.
Proof.
  intros H0. unfold summarise. rewrite <- successes_length in H0.
  destruct (successes outcomes); [reflexivity | discriminate H0].
Qed.

Lemma summarise_total outcomes :
  Forall is_outcome outcomes ->
  summarise outcomes =
    Ok (summary_of outcomes).
Proof.
  intros Hall. unfold summary_of. destruct (success_count outcomes) eqn:Hn.
  - apply summarise_no_success, Hn.
  - apply summarise_some_success; [exact Hall | lia].
Qed.

End AggregationFacts.

(** ** The outer loop and [main] *)

Section MainFacts.
Context `{E : Externals}.

Lemma initial_results_report c : initial_results c = report_with c ∅.
Proof.
  unfold report_with. symmetry. apply insert_id. reflexivity.
Qed.

Lemma report_with_libs c lm : report_with c lm !! "libs" = Some (VDict lm).
Proof. unfold report_with. apply lookup_insert_eq. Qed.

Lemma report_with_runs c lm : report_with c lm !! "runs" = Some (VInt (runs c)).
Proof. unfold report_with. rewrite lookup_insert_ne by discriminate. reflexivity. Qed.

Lemma set_lib_report c lm lib_name v :
  set_lib (report_with c lm) lib_name v =
    Ok (report_with c (<[lib_name := VDict v]> lm)).
Proof.
  unfold set_lib, getitem. rewrite report_with_libs.
  unfold report_with. rewrite insert_insert_eq. reflexivity.
Qed.

Lemma run_lib_cases c lib_name (f : lib_func) lm s :
  records_or_propagates f ->
  match run_lib c (lib_name, f) (report_with c lm) s with
  | (Ok r, s') =>
      exists l, run_trials c lib_name f s = (Ok l, s') /\
                r = report_with c (<[lib_name := VDict (summary_of l)]> lm)
  | (Raise e, s') => is_Exception e = false
  end.
Proof.
  intros Hf. unfold run_lib, bind.
  destruct (run_trials c lib_name f s) as [[l | e] s1] eqn:Hrun.
  - destruct (run_trials_ok _ _ _ _ _ _ Hf Hrun) as [_ Hall].
    unfold lift_res. rewrite (summarise_total _ Hall), set_lib_report.
    exists l. auto.
  - unfold run_trials in Hrun. revert Hrun. generalize (@nil (gmap string pyval)).
    generalize s. induction (trial_range c) as [| i xs IH]; intros s0 acc H.
    + discriminate H.
    + simpl in H. unfold bind in H. rewrite trial_run in H.
      specialize (Hf (input_path c) (temp_out_path c lib_name i)
                     (encoding c) (sep c) s0).
      destruct (f _ _ _ _ s0) as [[d | e0] s2]; simpl in Hf.
      * eapply IH, H.
      * rewrite Hf in H. injection H as <- _. exact Hf.
Qed.

Lemma run_lib_total c lib_name (f : lib_func) lm s :
  always_records f ->
  exists l s', run_trials c lib_name f s = (Ok l, s') /\
    run_lib c (lib_name, f) (report_with c lm) s =
      (Ok (report_with c (<[lib_name := VDict (summary_of l)]> lm)), s').
Proof.
  intros Hf.
  destruct (for_each_trial_total c lib_name f Hf (trial_range c) [] s)
    as (l & s' & Hrun).
  fold (run_trials c lib_name f) in Hrun.
  exists l, s'. split; [exact Hrun |].
  pose proof (run_trials_ok c lib_name f s l s'
                (always_records_propagates _ Hf) Hrun) as [_ Hall].
  unfold run_lib, bind. rewrite Hrun. unfold lift_res.
  rewrite (summarise_total _ Hall), set_lib_report. reflexivity.
Qed.

Lemma pandas_records_or_propagates : records_or_propagates read_write_pandas.
Proof. intros path out_tmp enc sp s. apply read_write_pandas_result. Qed.

Lemma polars_records_or_propagates : records_or_propagates read_write_polars.
Proof. intros path out_tmp enc sp s. apply read_write_polars_result. Qed.

Lemma dask_records_or_propagates : records_or_propagates read_write_dask.
Proof. intros path out_tmp enc sp s. apply read_write_dask_result. Qed.

Lemma main_with_eq c s :
  main_with c s =
    match makedirs_error c s with
    | Some err =>
        (Raise (mkdir_exn err),
         set_world (makedirs_world (outdir c) (world s)) s)
    | None =>
        if input_found c s then
          match for_each libs (run_lib c) (initial_results c)
                  (set_world (makedirs_world (outdir c) (world s)) s) with
          | (Ok results, s4) =>
              if report_blocked c (world s4)
              then (Raise IsADirectoryError, s4)
              else (Ok 0, set_world
                            (write_world (result_path c) (VDict results)
                               (world s4)) s4)
          | (Raise e, s4) => (Raise e, s4)
          end
        else
          if report_blocked c (makedirs_world (outdir c) (world s))
          then (Raise IsADirectoryError,
                set_world (makedirs_world (outdir c) (world s)) s)
          else (Ok 2, missing_input_state c s)
    end.
Proof.
  unfold main_with, makedirs_error, input_found, report_blocked, isdir_in,
    missing_input_state.
  unfold bind at 1. unfold os_makedirs.
  destruct (fst (makedirs_result (outdir c) (fs (world s))));
    [reflexivity |].
  set (s1 := set_world (makedirs_world (outdir c) (world s)) s).
  change (makedirs_world (outdir c) (world s)) with (world s1).
  unfold bind at 1. unfold os_path_exists at 1.
  destruct (path_exists_in (input_path c) (world s1)); cbv beta iota delta [negb].
  - unfold bind at 1.
    destruct (for_each libs (run_lib c) (initial_results c) s1)
      as [[r | e] s4]; [| reflexivity].
    unfold bind, json_dump_to, ret.
    destruct (fs (world s4) !! result_path c) as [[v |] |]; reflexivity.
  - unfold bind, json_dump_to, ret.
    destruct (fs (world s1) !! result_path c) as [[v |] |]; reflexivity.
Qed.

Lemma libs_loop_unroll c r :
  for_each libs (run_lib c) r =
    (r1 <- run_lib c ("pandas", read_write_pandas : lib_func) r ;;
     r2 <- run_lib c ("polars", read_write_polars : lib_func) r1 ;;
     r3 <- run_lib c ("dask", read_write_dask : lib_func) r2 ;;
     ret r3).
Proof. reflexivity. Qed.

Lemma main_missing c s :
  makedirs_error c s = None ->
  input_found c s = false ->
  report_blocked c (makedirs_world (outdir c) (world s)) = false ->
  main_with c s = (Ok 2, missing_input_state c s).
Proof. intros Hm H Hb. rewrite main_with_eq, Hm, H, Hb. reflexivity. Qed.

Ltac case_run_lib s r e s' :=
  match goal with
  | |- context [run_lib ?c ?lf ?r0 s] =>
      destruct (run_lib c lf r0 s) as [[r | e] s']
  end.

Lemma libs_loop_cases c s1 :
  match for_each libs (run_lib c) (initial_results c) s1 with
  | (Ok results, s4) =>
      exists l1 l2 l3,
        trials_ran c s1 s4 l1 l2 l3 /\ results = full_report c l1 l2 l3
  | (Raise e, _) => is_Exception e = false
  end.
Proof.
  rewrite libs_loop_unroll, initial_results_report. unfold bind at 1.
  pose proof (run_lib_cases c "pandas" read_write_pandas ∅ s1
                pandas_records_or_propagates) as H1.
  revert H1. case_run_lib s1 r1 e s2; intros H1; [| exact H1].
  destruct H1 as (l1 & Hr1 & ->). unfold bind at 1.
  pose proof (run_lib_cases c "polars" read_write_polars
                (<["pandas" := VDict (summary_of l1)]> ∅) s2
                polars_records_or_propagates) as H2.
  revert H2. case_run_lib s2 r2 e s3; intros H2; [| exact H2].
  destruct H2 as (l2 & Hr2 & ->). unfold bind at 1.
  pose proof (run_lib_cases c "dask" read_write_dask
                (<["polars" := VDict (summary_of l2)]>
                   (<["pandas" := VDict (summary_of l1)]> ∅)) s3
                dask_records_or_propagates) as H3.
  revert H3. case_run_lib s3 r3 e s4; intros H3; [| exact H3].
  destruct H3 as (l3 & Hr3 & ->). unfold ret.
  exists l1, l2, l3. split; [exists s2, s3; auto | reflexivity].
Qed.

Lemma libs_loop_total c s1 :
  only_Exceptions E ->
  exists l1 l2 l3 s4,
    trials_ran c s1 s4 l1 l2 l3 /\
    for_each libs (run_lib c) (initial_results c) s1
      = (Ok (full_report c l1 l2 l3), s4).
Proof.
  intros HE. rewrite libs_loop_unroll, initial_results_report. unfold bind at 1.
  destruct (run_lib_total c "pandas" read_write_pandas ∅ s1
              (read_write_pandas_total HE)) as (l1 & s2 & R1 & ->).
  unfold bind at 1.
  destruct (run_lib_total c "polars" read_write_polars
              (<["pandas" := VDict (summary_of l1)]> ∅) s2
              (read_write_polars_total HE)) as (l2 & s3 & R2 & ->).
  unfold bind at 1.
  destruct (run_lib_total c "dask" read_write_dask
              (<["polars" := VDict (summary_of l2)]>
                 (<["pandas" := VDict (summary_of l1)]> ∅)) s3
              (read_write_dask_total HE)) as (l3 & s4 & R3 & ->).
  unfold ret. exists l1, l2, l3, s4. split; [exists s2, s3; auto | reflexivity].
Qed.

(** What a run of [main] on an existing input amounts to. *)
Lemma main_found_ok c s code s' :
  input_found c s = true ->
  main_with c s = (Ok code, s') ->
  code = 0 /\
  exists l1 l2 l3,
    benchmarked c (set_world (makedirs_world (outdir c) (world s)) s) s'
      l1 l2 l3.
Proof.
  intros H Hm. rewrite main_with_eq, H in Hm.
  destruct (makedirs_error c s); [discriminate Hm |].
  pose proof (libs_loop_cases c
                (set_world (makedirs_world (outdir c) (world s)) s)) as Hl.
  destruct (for_each libs (run_lib c) (initial_results c) _)
    as [[results | e] s4]; [| discriminate Hm].
  destruct Hl as (l1 & l2 & l3 & (s2 & s3 & R1 & R2 & R3) & ->).
  destruct (report_blocked c (world s4)); [discriminate Hm |].
  injection Hm as <- <-. split; [reflexivity |].
  exists l1, l2, l3, s2, s3, s4. auto.
Qed.

End MainFacts.

(** * The measurement primitive *)

Section MeasureClaims.
Context `{E : Externals}.

Lemma pandas_read_raise path out_tmp enc sp s e w1 :
  pd_read_csv path sp enc (world s) = (Raise e, w1) ->
  is_Exception e = true ->
  read_write_pandas path out_tmp enc sp s =
    (Ok (error_dict (exn_repr e)), MkState w1 (S (calls s)) (gc_passes s)).
Proof.
  intros Hr He. unfold read_write_pandas, try_except, bind.
  rewrite (measure_raise _ _ _ _ (with_value_raise _ sp _ _ _ Hr)), He.
  reflexivity.
Qed.

(** C6. When the wrapped work returns, [measure] hands back the work's own
    result, and a memory figure equal to (mem_before + mem_after) / 2 /
    1048576 of the two resident-set samples taken around the work; the
    figure is non-negative.  The work has been invoked once: the call
    counter grew by one, and the world is the one that a single run of the
    work left, after the collection pass. *)
Theorem measure_memory_is_mean_of_samples
    {A} (func : Work A) (s : State) (res : A) (w1 : World) :
  func (world s) = (Ok res, w1) ->
  exists elapsed avg_mem s',
    measure func s = (Ok (res, elapsed, avg_mem), s') /\
    avg_mem = mean_of_two_mb (rss (world s)) (rss w1) /\
    (0 <= avg_mem)%Qc /\
    elapsed = (clock w1 - clock (world s))%Qc /\
    calls s' = S (calls s) /\
    world s' = collect w1.
Proof.
  intros H. eexists _, _, _. split; [apply measure_ok, H |].
  repeat split. apply mean_of_two_mb_nonneg.
Qed.

(** C9. When the wrapped work raises, [measure] lets the exception through
    and runs no collection pass: the state is the one the work left, with
    the same number of passes as before.  Hence after a failing pandas read
    the trial is recorded as a failure, no pass has run, and the next
    before-sample reads the resident memory exactly as the failed work
    left it. *)
Theorem measure_failure_skips_collection
    {A} (func : Work A) (s : State) (e : exn) (w1 : World) :
  func (world s) = (Raise e, w1) ->
  measure func s = (Raise e, MkState w1 (S (calls s)) (gc_passes s)) /\
  gc_passes (snd (measure func s)) = gc_passes s /\
  world (snd (measure func s)) = w1 /\
  forall c i runs_data s0 e0 w0,
    pd_read_csv (input_path c) (sep c) (encoding c) (world s0) = (Raise e0, w0) ->
    is_Exception e0 = true ->
    exists s',
      trial c "pandas" read_write_pandas i runs_data s0 =
        (Ok (runs_data ++ [error_dict (exn_repr e0)])%list, s') /\
      gc_passes s' = gc_passes s0 /\
      memory_rss s' = (Ok (rss w0), s').
Proof.
  intros H. rewrite (measure_raise _ _ _ _ H). repeat split.
  intros c i runs_data s0 e0 w0 Hr He. rewrite trial_run.
  rewrite (pandas_read_raise _ _ _ _ _ _ _ Hr He).
  eexists. split; [reflexivity |]. split; [reflexivity |].
  unfold memory_rss. simpl. rewrite cleanup_world_rss. reflexivity.
Qed.

(** C7. When the three measured steps of the dask adapter return, the
    sample it reports has [read_time_s] equal to the lazy-build time plus
    the materialization time, and [read_mem_mb] equal to the larger of the
    two memory figures: it is one of the two, and neither exceeds it. *)
Theorem dask_read_cost_is_combined
    (path out_tmp enc sp : string) (s s1 s2 s3 : State)
    (ddf : dd_DataFrame) (x : string) (pdf : pd_DataFrame) (u : unit)
    (t_lazy mem_lazy t_compute mem_compute t_write mem_write : Qc) :
  measure (with_value (dd_read_csv path sp enc) sp) s
    = (Ok ((ddf, x), t_lazy, mem_lazy), s1) ->
  measure (dd_compute ddf) s1 = (Ok (pdf, t_compute, mem_compute), s2) ->
  measure (pd_to_csv pdf out_tmp None) s2 = (Ok (u, t_write, mem_write), s3) ->
  exists d m,
    read_write_dask path out_tmp enc sp s = (Ok d, s3) /\
    d !! "read_time_s" = Some (VFloat (t_lazy + t_compute)%Qc) /\
    d !! "read_mem_mb" = Some (VFloat m) /\
    (mem_lazy <= m)%Qc /\ (mem_compute <= m)%Qc /\
    (m = mem_lazy \/ m = mem_compute) /\
    d !! "write_time_s" = Some (VFloat t_write) /\
    d !! "write_mem_mb" = Some (VFloat mem_write).
Proof.
  intros H1 H2 H3. exists (sample_dict (t_lazy + t_compute)%Qc t_write
                             (py_max mem_lazy mem_compute) mem_write),
                          (py_max mem_lazy mem_compute).
  split.
  { unfold read_write_dask, try_except, bind. rewrite H1, H2, H3. reflexivity. }
  split; [reflexivity |]. split; [reflexivity |].
  unfold py_max. destruct (Qclt_le_dec mem_lazy mem_compute) as [Hlt | Hle].
  - repeat split; auto using Qclt_le_weak, Qcle_refl.
  - repeat split; auto using Qcle_refl.
Qed.

End MeasureClaims.

(** * The trial boundary *)

Section TrialClaims.
Context `{E : Externals}.

Lemma with_value_ok {A B} (f : Work A) (b : B) w a w' :
  f w = (Ok a, w') -> with_value f b w = (Ok (a, b), w').
Proof. intros H. unfold with_value. rewrite H. reflexivity. Qed.

Lemma try_except_caught_result (body : M (gmap string pyval)) s e s1 :
  body s = (Raise e, s1) ->
  try_except body (fun e => ret (error_dict (exn_repr e))) s = (caught e, s1).
Proof.
  intros H. unfold try_except, caught. rewrite H.
  destruct (is_Exception e); reflexivity.
Qed.

Lemma try_except_returned (body : M (gmap string pyval)) s d s1 :
  body s = (Ok d, s1) ->
  try_except body (fun e => ret (error_dict (exn_repr e))) s = (Ok d, s1).
Proof. intros H. unfold try_except. rewrite H. reflexivity. Qed.

Lemma pandas_trial_cases path out_tmp enc sp s :
  (exists e w1,
     pd_read_csv path sp enc (world s) = (Raise e, w1) /\
     read_write_pandas path out_tmp enc sp s
       = (caught e, MkState w1 (S (calls s)) (gc_passes s))) \/
  (exists df w1 e w2,
     pd_read_csv path sp enc (world s) = (Ok df, w1) /\
     pd_to_csv df out_tmp (Some enc) (collect w1) = (Raise e, w2) /\
     read_write_pandas path out_tmp enc sp s
       = (caught e, MkState w2 (S (S (calls s))) (S (gc_passes s)))) \/
  (exists df w1 w2 d,
     pd_read_csv path sp enc (world s) = (Ok df, w1) /\
     pd_to_csv df out_tmp (Some enc) (collect w1) = (Ok tt, w2) /\
     is_sample d /\
     read_write_pandas path out_tmp enc sp s
       = (Ok d, MkState (collect w2) (S (S (calls s))) (S (S (gc_passes s))))).
Proof.
  destruct (pd_read_csv path sp enc (world s)) as [[df | e] w1] eqn:Hr.
  - right.
    pose proof (measure_ok _ s _ _ (with_value_ok _ sp _ _ _ Hr)) as M1.
    destruct (pd_to_csv df out_tmp (Some enc) (collect w1)) as [[[] | e] w2] eqn:Hw.
    + right. eexists df, w1, w2, _. split; [reflexivity |].
      split; [exact Hw |]. split; [repeat eexists |].
      apply try_except_returned. unfold bind. rewrite M1.
      rewrite (measure_ok (pd_to_csv df out_tmp (Some enc))
                 (MkState (collect w1) (S (calls s)) (S (gc_passes s)))
                 tt w2 Hw).
      reflexivity.
    + left. exists df, w1, e, w2. split; [reflexivity |]. split; [exact Hw |].
      apply try_except_caught_result. unfold bind. rewrite M1.
      rewrite (measure_raise (pd_to_csv df out_tmp (Some enc))
                 (MkState (collect w1) (S (calls s)) (S (gc_passes s)))
                 e w2 Hw).
      reflexivity.
  - left. exists e, w1. split; [reflexivity |].
    apply try_except_caught_result. unfold bind.
    rewrite (measure_raise _ s _ _ (with_value_raise _ sp _ _ _ Hr)).
    reflexivity.
Qed.

Lemma polars_trial_cases path out_tmp enc sp s :
  (exists e w1,
     pl_read_csv path sp enc (world s) = (Raise e, w1) /\
     read_write_polars path out_tmp enc sp s
       = (caught e, MkState w1 (S (calls s)) (gc_passes s))) \/
  (exists df w1 e w2,
     pl_read_csv path sp enc (world s) = (Ok df, w1) /\
     pl_write_csv df out_tmp (collect w1) = (Raise e, w2) /\
     read_write_polars path out_tmp enc sp s
       = (caught e, MkState w2 (S (S (calls s))) (S (gc_passes s)))) \/
  (exists df w1 w2 d,
     pl_read_csv path sp enc (world s) = (Ok df, w1) /\
     pl_write_csv df out_tmp (collect w1) = (Ok tt, w2) /\
     is_sample d /\
     read_write_polars path out_tmp enc sp s
       = (Ok d, MkState (collect w2) (S (S (calls s))) (S (S (gc_passes s))))).
Proof.
  destruct (pl_read_csv path sp enc (world s)) as [[df | e] w1] eqn:Hr.
  - right.
    pose proof (measure_ok _ s _ _ (with_value_ok _ sp _ _ _ Hr)) as M1.
    destruct (pl_write_csv df out_tmp (collect w1)) as [[[] | e] w2] eqn:Hw.
    + right. eexists df, w1, w2, _. split; [reflexivity |].
      split; [exact Hw |]. split; [repeat eexists |].
      apply try_except_returned. unfold bind. rewrite M1.
      rewrite (measure_ok (pl_write_csv df out_tmp)
                 (MkState (collect w1) (S (calls s)) (S (gc_passes s)))
                 tt w2 Hw).
      reflexivity.
    + left. exists df, w1, e, w2. split; [reflexivity |]. split; [exact Hw |].
      apply try_except_caught_result. unfold bind. rewrite M1.
      rewrite (measure_raise (pl_write_csv df out_tmp)
                 (MkState (collect w1) (S (calls s)) (S (gc_passes s)))
                 e w2 Hw).
      reflexivity.
  - left. exists e, w1. split; [reflexivity |].
    apply try_except_caught_result. unfold bind.
    rewrite (measure_raise _ s _ _ (with_value_raise _ sp _ _ _ Hr)).
    reflexivity.
Qed.

Lemma dask_trial_cases path out_tmp enc sp s :
  (exists e w1,
     dd_read_csv path sp enc (world s) = (Raise e, w1) /\
     read_write_dask path out_tmp enc sp s
       = (caught e, MkState w1 (S (calls s)) (gc_passes s))) \/
  (exists ddf w1 e w2,
     dd_read_csv path sp enc (world s) = (Ok ddf, w1) /\
     dd_compute ddf (collect w1) = (Raise e, w2) /\
     read_write_dask path out_tmp enc sp s
       = (caught e, MkState w2 (S (S (calls s))) (S (gc_passes s)))) \/
  (exists ddf w1 pdf w2 e w3,
     dd_read_csv path sp enc (world s) = (Ok ddf, w1) /\
     dd_compute ddf (collect w1) = (Ok pdf, w2) /\
     pd_to_csv pdf out_tmp None (collect w2) = (Raise e, w3) /\
     read_write_dask path out_tmp enc sp s
       = (caught e, MkState w3 (S (S (S (calls s)))) (S (S (gc_passes s))))) \/
  (exists ddf w1 pdf w2 w3 d,
     dd_read_csv path sp enc (world s) = (Ok ddf, w1) /\
     dd_compute ddf (collect w1) = (Ok pdf, w2) /\
     pd_to_csv pdf out_tmp None (collect w2) = (Ok tt, w3) /\
     is_sample d /\
     read_write_dask path out_tmp enc sp s
       = (Ok d, MkState (collect w3) (S (S (S (calls s))))
                  (S (S (S (gc_passes s)))))).
Proof.
  destruct (dd_read_csv path sp enc (world s)) as [[ddf | e] w1] eqn:Hr.
  - right.
    pose proof (measure_ok _ s _ _ (with_value_ok _ sp _ _ _ Hr)) as M1.
    destruct (dd_compute ddf (collect w1)) as [[pdf | e] w2] eqn:Hc.
    + right.
      pose proof (measure_ok (dd_compute ddf)
                    (MkState (collect w1) (S (calls s)) (S (gc_passes s)))
                    pdf w2 Hc) as M2.
      destruct (pd_to_csv pdf out_tmp None (collect w2)) as [[[] | e] w3] eqn:Hw.
      * right. eexists ddf, w1, pdf, w2, w3, _. split; [reflexivity |].
        split; [exact Hc |]. split; [exact Hw |]. split; [repeat eexists |].
        apply try_except_returned. unfold bind. rewrite M1, M2.
        rewrite (measure_ok (pd_to_csv pdf out_tmp None)
                   (MkState (collect w2) (S (S (calls s)))
                      (S (S (gc_passes s)))) tt w3 Hw).
        reflexivity.
      * left. exists ddf, w1, pdf, w2, e, w3. split; [reflexivity |].
        split; [exact Hc |]. split; [exact Hw |].
        apply try_except_caught_result. unfold bind. rewrite M1, M2.
        rewrite (measure_raise (pd_to_csv pdf out_tmp None)
                   (MkState (collect w2) (S (S (calls s)))
                      (S (S (gc_passes s)))) e w3 Hw).
        reflexivity.
    + left. exists ddf, w1, e, w2. split; [reflexivity |]. split; [exact Hc |].
      apply try_except_caught_result. unfold bind. rewrite M1.
      rewrite (measure_raise (dd_compute ddf)
                 (MkState (collect w1) (S (calls s)) (S (gc_passes s)))
                 e w2 Hc).
      reflexivity.
  - left. exists e, w1. split; [reflexivity |].
    apply try_except_caught_result. unfold bind.
    rewrite (measure_raise _ s _ _ (with_value_raise _ sp _ _ _ Hr)).
    reflexivity.
Qed.

Lemma for_each_trial_continues c lib_name (f : lib_func) :
  raises_Exceptions_only f ->
  forall xs acc s, exists l s',
    for_each xs (trial c lib_name f) acc s = (Ok l, s') /\
    length l = (length acc + length xs)%nat.
Proof.
  intros Hf xs. induction xs as [| i xs IH]; intros acc s.
  - exists acc, s. split; [reflexivity | simpl; lia].
  - simpl. unfold bind. rewrite trial_run.
    destruct (f (input_path c) (temp_out_path c lib_name i) (encoding c)
                (sep c) s) as [[d | e] s1] eqn:Hfs.
    + destruct (IH (acc ++ [d])%list
                  (set_world (cleanup_world (temp_out_path c lib_name i)
                                (world s1)) s1)) as (l & s' & -> & Hl).
      exists l, s'. split; [reflexivity |].
      rewrite Hl, length_app. simpl. lia.
    + rewrite (Hf _ _ _ _ _ _ _ Hfs).
      destruct (IH (acc ++ [error_dict (exn_repr e)])%list
                  (set_world (cleanup_world (temp_out_path c lib_name i)
                                (world s1)) s1)) as (l & s' & -> & Hl).
      exists l, s'. split; [reflexivity |].
      rewrite Hl, length_app. simpl. lia.
Qed.

(** C2 (amended). In each of the three adapters the measured steps run in
    order and the first one that raises decides the result: an exception
    that derives from Exception is caught and handed back as the
    TrialFailure that carries its repr, an exception that does not is not
    caught and leaves the adapter; when every step returns, the result is a
    TrialSample.  A sample has exactly the four metric fields and no error
    field, a failure exactly the error field, so a result is never both and
    never partial.  The loop body does the same with whatever its adapter
    does: a returned outcome is appended, an Exception is appended as a
    failure, anything else leaves the loop; in all recorded cases the temp
    path is cleaned up and the loop goes on, so that an adapter raising
    nothing but Exceptions, even at every trial, gets one outcome recorded
    per trial. *)
Theorem trial_records_or_lets_through :
  (forall path out_tmp enc sp s,
     (exists e w1,
        pd_read_csv path sp enc (world s) = (Raise e, w1) /\
        read_write_pandas path out_tmp enc sp s
          = (caught e, MkState w1 (S (calls s)) (gc_passes s))) \/
     (exists df w1 e w2,
        pd_read_csv path sp enc (world s) = (Ok df, w1) /\
        pd_to_csv df out_tmp (Some enc) (collect w1) = (Raise e, w2) /\
        read_write_pandas path out_tmp enc sp s
          = (caught e, MkState w2 (S (S (calls s))) (S (gc_passes s)))) \/
     (exists df w1 w2 d,
        pd_read_csv path sp enc (world s) = (Ok df, w1) /\
        pd_to_csv df out_tmp (Some enc) (collect w1) = (Ok tt, w2) /\
        is_sample d /\
        read_write_pandas path out_tmp enc sp s
          = (Ok d, MkState (collect w2) (S (S (calls s)))
                     (S (S (gc_passes s)))))) /\
  (forall path out_tmp enc sp s,
     (exists e w1,
        pl_read_csv path sp enc (world s) = (Raise e, w1) /\
        read_write_polars path out_tmp enc sp s
          = (caught e, MkState w1 (S (calls s)) (gc_passes s))) \/
     (exists df w1 e w2,
        pl_read_csv path sp enc (world s) = (Ok df, w1) /\
        pl_write_csv df out_tmp (collect w1) = (Raise e, w2) /\
        read_write_polars path out_tmp enc sp s
          = (caught e, MkState w2 (S (S (calls s))) (S (gc_passes s)))) \/
     (exists df w1 w2 d,
        pl_read_csv path sp enc (world s) = (Ok df, w1) /\
        pl_write_csv df out_tmp (collect w1) = (Ok tt, w2) /\
        is_sample d /\
        read_write_polars path out_tmp enc sp s
          = (Ok d, MkState (collect w2) (S (S (calls s)))
                     (S (S (gc_passes s)))))) /\
  (forall path out_tmp enc sp s,
     (exists e w1,
        dd_read_csv path sp enc (world s) = (Raise e, w1) /\
        read_write_dask path out_tmp enc sp s
          = (caught e, MkState w1 (S (calls s)) (gc_passes s))) \/
     (exists ddf w1 e w2,
        dd_read_csv path sp enc (world s) = (Ok ddf, w1) /\
        dd_compute ddf (collect w1) = (Raise e, w2) /\
        read_write_dask path out_tmp enc sp s
          = (caught e, MkState w2 (S (S (calls s))) (S (gc_passes s)))) \/
     (exists ddf w1 pdf w2 e w3,
        dd_read_csv path sp enc (world s) = (Ok ddf, w1) /\
        dd_compute ddf (collect w1) = (Ok pdf, w2) /\
        pd_to_csv pdf out_tmp None (collect w2) = (Raise e, w3) /\
        read_write_dask path out_tmp enc sp s
          = (caught e, MkState w3 (S (S (S (calls s))))
                         (S (S (gc_passes s))))) \/
     (exists ddf w1 pdf w2 w3 d,
        dd_read_csv path sp enc (world s) = (Ok ddf, w1) /\
        dd_compute ddf (collect w1) = (Ok pdf, w2) /\
        pd_to_csv pdf out_tmp None (collect w2) = (Ok tt, w3) /\
        is_sample d /\
        read_write_dask path out_tmp enc sp s
          = (Ok d, MkState (collect w3) (S (S (S (calls s))))
                     (S (S (S (gc_passes s))))))) /\
  (forall e,
     (is_Exception e = true -> caught e = Ok (error_dict (exn_repr e))) /\
     (is_Exception e = false -> caught e = Raise e)) /\
  (forall d, is_sample d ->
     dom d = metric_keys /\ has_error d = false /\ ~ is_failure d) /\
  (forall d, is_failure d ->
     dom d = {[ "error" ]} /\ has_error d = true /\ ~ is_sample d) /\
  (forall c lib_name (f : lib_func) i runs_data s,
     trial c lib_name f i runs_data s =
       match f (input_path c) (temp_out_path c lib_name i) (encoding c)
               (sep c) s with
       | (Ok d, s1) =>
           (Ok (runs_data ++ [d])%list,
            set_world (cleanup_world (temp_out_path c lib_name i) (world s1)) s1)
       | (Raise e, s1) =>
           if is_Exception e
           then (Ok (runs_data ++ [error_dict (exn_repr e)])%list,
                 set_world (cleanup_world (temp_out_path c lib_name i)
                              (world s1)) s1)
           else (Raise e, s1)
       end) /\
  (forall c lib_name (f : lib_func) s,
     raises_Exceptions_only f ->
     exists l s',
       run_trials c lib_name f s = (Ok l, s') /\
       length l = length (trial_range c)) /\
  (only_Exceptions E ->
     always_records read_write_pandas /\
     always_records read_write_polars /\
     always_records read_write_dask) /\
  (forall c lib_name (f : lib_func) s l s',
     records_or_propagates f ->
     run_trials c lib_name f s = (Ok l, s') ->
     length l = length (trial_range c) /\ Forall is_outcome l).
Proof.
  split; [intros; apply pandas_trial_cases |].
  split; [intros; apply polars_trial_cases |].
  split; [intros; apply dask_trial_cases |].
  split.
  { intros e. unfold caught. split; intros ->; reflexivity. }
  split.
  { intros d Hd. split; [| split].
    - destruct Hd as (a & b & c & e & ->). apply dom_sample_dict.
    - destruct Hd as (a & b & c & e & ->). apply has_error_sample.
    - intros Hf. exact (sample_not_failure d Hd Hf). }
  split.
  { intros d Hd. split; [| split].
    - destruct Hd as (msg & ->). apply dom_error_dict.
    - destruct Hd as (msg & ->). apply has_error_failure.
    - intros Hs. exact (sample_not_failure d Hs Hd). }
  split; [intros; apply trial_run |].
  split.
  { intros c lib_name f s Hf.
    destruct (for_each_trial_continues c lib_name f Hf (trial_range c) [] s)
      as (l & s' & Hrun & Hlen).
    exists l, s'. split; [exact Hrun | exact Hlen]. }
  split.
  { intros HE. auto using read_write_pandas_total, read_write_polars_total,
      read_write_dask_total. }
  intros c lib_name f s l s' Hf H. rewrite trial_range_length.
  eapply run_trials_ok; eauto.
Qed.

(** C8 (amended). When the adapter hands back an outcome or raises an
    Exception, the iteration records exactly that outcome and then attempts
    the deletion of the temp path if it exists.  When [os.remove] succeeds
    the path no longer exists afterwards; when [os.remove] itself raises (the
    path is a directory) the failure is swallowed and the state, path
    included, is left as it was.  The recorded outcome is the same in every
    case, and the iteration does not raise. *)
Theorem cleanup_keeps_recorded_outcome
    (c : Config) (lib_name : string) (f : lib_func) (i : nat)
    (runs_data : list (gmap string pyval)) (s s1 : State)
    (r : Res (gmap string pyval)) :
  f (input_path c) (temp_out_path c lib_name i) (encoding c) (sep c) s
    = (r, s1) ->
  (forall e, r = Raise e -> is_Exception e = true) ->
  exists s',
    trial c lib_name f i runs_data s = (Ok (runs_data ++ [recorded r])%list, s') /\
    cleanup (temp_out_path c lib_name i) s1 = (Ok tt, s') /\
    (path_exists_in (temp_out_path c lib_name i) (world s1) = false -> s' = s1) /\
    (path_exists_in (temp_out_path c lib_name i) (world s1) = true ->
     forall s2,
       os_remove (temp_out_path c lib_name i) s1 = (Ok tt, s2) ->
       s' = s2 /\
       path_exists_in (temp_out_path c lib_name i) (world s') = false) /\
    (path_exists_in (temp_out_path c lib_name i) (world s1) = true ->
     forall e s2,
       os_remove (temp_out_path c lib_name i) s1 = (Raise e, s2) ->
       s' = s1 /\
       path_exists_in (temp_out_path c lib_name i) (world s') = true) /\
    (fs (world s1) !! temp_out_path c lib_name i <> Some Dir ->
       fs (world s') !! temp_out_path c lib_name i = None) /\
    (fs (world s1) !! temp_out_path c lib_name i = Some Dir -> s' = s1).
Proof.
  intros Hf Hr. rewrite trial_run, Hf, cleanup_run.
  set (p := temp_out_path c lib_name i).
  exists (set_world (cleanup_world p (world s1)) s1).
  split; [| split; [reflexivity |]].
  { destruct r as [d | e]; [reflexivity |].
    rewrite (Hr e eq_refl). reflexivity. }
  unfold path_exists_in, os_remove, cleanup_world.
  destruct (fs (world s1) !! p) as [[v |] |] eqn:Hp; simpl;
    rewrite ?set_world_same.
  - split; [discriminate |]. split; [| split; [| split]].
    + intros _ s2 H. injection H as <-. simpl.
      rewrite lookup_delete_eq. auto.
    + intros _ e s2 H. discriminate H.
    + intros _. apply lookup_delete_eq.
    + discriminate.
  - split; [discriminate |]. split; [| split; [| split]].
    + intros _ s2 H. discriminate H.
    + intros _ e s2 H. rewrite Hp. auto.
    + congruence.
    + reflexivity.
  - split; [reflexivity |]. split; [| split; [| split]].
    + discriminate.
    + discriminate.
    + intros _. exact Hp.
    + discriminate.
Qed.

End TrialClaims.

(** * The aggregation *)

Section AggregationClaims.

Lemma float_of_int_nonzero (z : Z) : z <> 0 -> float_of_int z <> Q2Qc 0.
Proof.
  intros Hz H. unfold float_of_int in H. apply Q2Qc_eq_iff in H.
  unfold Qeq in H. simpl in H. lia.
Qed.

Lemma all_failed_count outcomes :
  Forall (fun r => has_error r = true) outcomes -> success_count outcomes = 0%nat.
Proof.
  induction 1 as [| r l Hr _ IH]; [reflexivity |]. simpl.
  rewrite succeeded_negb_has_error, Hr. exact IH.
Qed.

Lemma summarise_skips_failure l1 l2 msg :
  summarise (l1 ++ error_dict msg :: l2)%list = summarise (l1 ++ l2)%list.
Proof.
  unfold summarise. rewrite !List.filter_app. simpl.
  rewrite has_error_failure. reflexivity.
Qed.

(** C1. When every recorded outcome is a TrialSample or a TrialFailure and
    at least one trial succeeded, the summary holds, for each of the four
    metrics, the arithmetic mean of that metric over the successful trials
    only (their sum divided by their number), and [runs_used] is the number
    of successful trials; a failed trial contributes nothing: the summary is
    the same as if that trial had not been run. *)
Theorem summary_is_mean_over_successes
    (outcomes : list (gmap string pyval)) :
  Forall is_outcome outcomes ->
  (1 <= success_count outcomes)%nat ->
  exists summary,
    summarise outcomes = Ok summary /\
    summary !! "read_time_s"
      = Some (VFloat (mean_over_successes "read_time_s" outcomes)) /\
    summary !! "write_time_s"
      = Some (VFloat (mean_over_successes "write_time_s" outcomes)) /\
    summary !! "read_mem_mb"
      = Some (VFloat (mean_over_successes "read_mem_mb" outcomes)) /\
    summary !! "write_mem_mb"
      = Some (VFloat (mean_over_successes "write_mem_mb" outcomes)) /\
    summary !! "runs_used" = Some (VInt (Z.of_nat (success_count outcomes))) /\
    (forall k,
       (mean_over_successes k outcomes
          * float_of_int (Z.of_nat (success_count outcomes))
        = success_total k outcomes)%Qc) /\
    (forall l1 l2 msg,
       outcomes = (l1 ++ l2)%list ->
       summarise (l1 ++ error_dict msg :: l2)%list = Ok summary).
Proof.
  intros Hall Hn. exists (mean_summary outcomes).
  pose proof (summarise_some_success outcomes Hall Hn) as Hsum.
  split; [exact Hsum |]. do 5 (split; [reflexivity |]). split.
  - intros k. unfold mean_over_successes, Qcdiv.
    rewrite <- Qcmult_assoc, (Qcmult_comm (/ _)), Qcmult_inv_r, Qcmult_1_r;
      [reflexivity |].
    apply float_of_int_nonzero. lia.
  - intros l1 l2 msg ->. rewrite summarise_skips_failure. exact Hsum.
Qed.

(** C5. When every trial of a backend failed, the summary is exactly the
    marker with the single field ["error"] holding ["all runs failed"]: it
    has no metric field and no [runs_used], whatever the number of failures
    and whatever their descriptions. *)
Theorem all_failed_summary_is_marker
    (outcomes : list (gmap string pyval)) :
  Forall (fun r => has_error r = true) outcomes ->
  summarise outcomes = Ok all_runs_failed /\
  dom all_runs_failed = {[ "error" ]} /\
  all_runs_failed !! "error" = Some (VStr "all runs failed") /\
  (forall k, k <> "error" -> all_runs_failed !! k = None) /\
  (forall msgs, summarise (map error_dict msgs) = summarise outcomes).
Proof.
  intros Hall. pose proof (summarise_no_success _ (all_failed_count _ Hall)) as Hs.
  split; [exact Hs |]. split; [apply dom_singleton_L |].
  split; [reflexivity |]. split.
  - intros k Hk. unfold all_runs_failed. apply lookup_singleton_ne. congruence.
  - intros msgs. rewrite Hs. apply summarise_no_success, all_failed_count.
    induction msgs as [| m msgs IH]; constructor; [reflexivity | exact IH].
Qed.

End AggregationClaims.

(** * The harness as a whole *)

Section MainClaims.
Context `{E : Externals}.

Lemma string_length_append (a b : string) :
  String.length (a ++ b) = (String.length a + String.length b)%nat.
Proof. induction a as [| ch a IH]; simpl; [reflexivity | rewrite IH; reflexivity]. Qed.

Lemma result_path_not_outdir c : result_path c <> outdir c.
Proof.
  unfold result_path, os_path_join. simpl. intros H.
  apply (f_equal String.length) in H.
  destruct (outdir c) as [| ch a] eqn:Ho; [discriminate H |].
  destruct (ends_with_slash (String ch a));
    rewrite !string_length_append in H; simpl in H; lia.
Qed.

Lemma split_at_last_slash_length p :
  (String.length (fst (split_at_last_slash p))
   + String.length (snd (split_at_last_slash p)) = String.length p)%nat.
Proof.
  induction p as [| ch p IH]; [reflexivity |]. simpl.
  destruct (split_at_last_slash p) as [h t]. simpl in IH.
  destruct (is_empty h) eqn:Hh; simpl.
  - destruct h; [| discriminate Hh]. simpl in IH.
    destruct (Ascii.eqb ch "/"); simpl; lia.
  - lia.
Qed.

Lemma rstrip_slashes_length s :
  (String.length (rstrip_slashes s) <= String.length s)%nat.
Proof.
  induction s as [| ch s IH]; [reflexivity |]. simpl.
  destruct (is_empty (rstrip_slashes s) && Ascii.eqb ch "/"); simpl; lia.
Qed.

Lemma posix_split_length p :
  (String.length (fst (posix_split p)) + String.length (snd (posix_split p))
   <= String.length p)%nat.
Proof.
  unfold posix_split. pose proof (split_at_last_slash_length p) as Hs.
  destruct (split_at_last_slash p) as [h t]. simpl in *.
  pose proof (rstrip_slashes_length h) as Hr.
  destruct (is_empty (rstrip_slashes h)); simpl; lia.
Qed.

(** The head on which [os.makedirs] recurses is shorter than the path. *)
Lemma makedirs_head_shorter name head0 tail0 head tail :
  posix_split name = (head0, tail0) ->
  (if is_empty tail0 then posix_split head0 else (head0, tail0)) = (head, tail) ->
  is_empty tail = false ->
  (String.length head < String.length name)%nat.
Proof.
  intros H0 H1 Ht. pose proof (posix_split_length name) as L0.
  rewrite H0 in L0. simpl in L0.
  assert (Hpos : (0 < String.length tail)%nat).
  { destruct tail; [discriminate Ht | simpl; lia]. }
  destruct (is_empty tail0).
  - pose proof (posix_split_length head0) as L1. rewrite H1 in L1.
    simpl in L1. lia.
  - injection H1 as <- <-. lia.
Qed.

(** The recursion of [os.makedirs] needs no more fuel than the length of
    the path. *)
Lemma makedirs_in_fuel n : forall m name f,
  (String.length name <= n)%nat -> (String.length name <= m)%nat ->
  makedirs_in n name f = makedirs_in m name f.
Proof.
  induction n as [| n IH]; intros m name f Hn Hm.
  - destruct name; [| simpl in Hn; lia]. destruct m; reflexivity.
  - destruct m as [| m].
    { destruct name; [| simpl in Hm; lia]. reflexivity. }
    simpl.
    destruct (posix_split name) as [head0 tail0] eqn:H0.
    destruct (if is_empty tail0 then posix_split head0 else (head0, tail0))
      as [head tail] eqn:H1.
    destruct (is_empty tail) eqn:Ht.
    { rewrite andb_false_r. reflexivity. }
    pose proof (makedirs_head_shorter _ _ _ _ _ H0 H1 Ht) as Hlt.
    rewrite (IH m head f) by lia. reflexivity.
Qed.

Lemma makedirs_result_fuel p f n :
  (String.length p <= n)%nat -> makedirs_in n p f = makedirs_result p f.
Proof. intros H. unfold makedirs_result. apply makedirs_in_fuel; lia. Qed.

Lemma mkdir_exist_ok_dir parent name f f' :
  mkdir_exist_ok parent name f = (None, f') -> f' !! name = Some Dir.
Proof.
  unfold mkdir_exist_ok, mkdir_in, isdir_in.
  destruct (is_empty name).
  - destruct (f !! name) as [[v |] |] eqn:Hn; intros H; try discriminate H.
    injection H as <-. exact Hn.
  - destruct (f !! name) as [[v |] |] eqn:Hn.
    + rewrite Hn. discriminate.
    + rewrite Hn. intros H. injection H as <-. exact Hn.
    + destruct (f !! parent) as [[v |] |].
      * rewrite Hn. discriminate.
      * intros H. injection H as <-. apply lookup_insert_eq.
      * intros H. injection H as <-. apply lookup_insert_eq.
Qed.

Lemma mkdir_exist_ok_keeps parent name f q n :
  f !! q = Some n -> snd (mkdir_exist_ok parent name f) !! q = Some n.
Proof.
  intros Hq. unfold mkdir_exist_ok, mkdir_in, isdir_in.
  destruct (is_empty name).
  { destruct (f !! name) as [[v |] |]; exact Hq. }
  destruct (f !! name) as [[v |] |] eqn:Hn.
  - rewrite Hn. exact Hq.
  - rewrite Hn. exact Hq.
  - destruct (f !! parent) as [[v |] |].
    + rewrite Hn. exact Hq.
    + simpl. rewrite lookup_insert_ne; [exact Hq | congruence].
    + simpl. rewrite lookup_insert_ne; [exact Hq | congruence].
Qed.

(** A call of [os.makedirs] that succeeds leaves a directory under the name
    it was given. *)
Lemma makedirs_in_dir fuel name f f' :
  makedirs_in fuel name f = (None, f') -> f' !! name = Some Dir.
Proof.
  destruct fuel as [| fuel]; simpl;
    destruct (posix_split name) as [head0 tail0];
    destruct (if is_empty tail0 then posix_split head0 else (head0, tail0))
      as [head tail].
  - apply mkdir_exist_ok_dir.
  - destruct (negb (is_empty head) && negb (is_empty tail)
              && negb (exists_in head f)).
    + destruct (makedirs_in fuel head f) as [[[| |] |] f1];
        first [ apply mkdir_exist_ok_dir | discriminate ].
    + apply mkdir_exist_ok_dir.
Qed.

(** [os.makedirs] only adds: what was in the file system stays as it was. *)
Lemma makedirs_in_keeps fuel : forall name f q n,
  f !! q = Some n -> snd (makedirs_in fuel name f) !! q = Some n.
Proof.
  induction fuel as [| fuel IH]; intros name f q n Hq; simpl;
    destruct (posix_split name) as [head0 tail0];
    destruct (if is_empty tail0 then posix_split head0 else (head0, tail0))
      as [head tail].
  - apply mkdir_exist_ok_keeps, Hq.
  - destruct (negb (is_empty head) && negb (is_empty tail)
              && negb (exists_in head f)).
    + pose proof (IH head f q n Hq) as H1.
      destruct (makedirs_in fuel head f) as [[[| |] |] f1]; simpl in H1;
        first [ apply mkdir_exist_ok_keeps, H1 | exact H1 ].
    + apply mkdir_exist_ok_keeps, Hq.
Qed.

Lemma makedirs_outdir c s :
  makedirs_error c s = None ->
  fs (makedirs_world (outdir c) (world s)) !! outdir c = Some Dir.
Proof.
  unfold makedirs_error, makedirs_world, makedirs_result. intros H.
  destruct (makedirs_in (String.length (outdir c)) (outdir c) (fs (world s)))
    as [r f'] eqn:Hm.
  simpl in H. subst r. simpl. eapply makedirs_in_dir, Hm.
Qed.

Lemma makedirs_world_keeps p w q n :
  fs w !! q = Some n -> fs (makedirs_world p w) !! q = Some n.
Proof. intros H. unfold makedirs_world, makedirs_result. simpl. apply makedirs_in_keeps, H. Qed.

Lemma missing_input_report_written c s :
  fs (world (missing_input_state c s)) !! result_path c
    = Some (File (VDict (missing_input_report c))).
Proof. unfold missing_input_state, write_world. simpl. apply lookup_insert_eq. Qed.

Lemma missing_input_outdir c s :
  makedirs_error c s = None ->
  fs (world (missing_input_state c s)) !! outdir c = Some Dir.
Proof.
  intros H. unfold missing_input_state, write_world. simpl.
  rewrite lookup_insert_ne by apply result_path_not_outdir.
  apply makedirs_outdir, H.
Qed.

Lemma missing_input_report_fields c :
  dom (missing_input_report c) = {[ "error"; "input" ]} /\
  missing_input_report c !! "error" = Some (VStr "input file not found") /\
  missing_input_report c !! "input" = Some (VStr (input_path c)).
Proof.
  split; [| split; reflexivity].
  unfold missing_input_report. simpl.
  rewrite !dom_insert_L, dom_empty_L. set_solver.
Qed.

Lemma benchmarked_report c s1 s' l1 l2 l3 :
  benchmarked c s1 s' l1 l2 l3 ->
  fs (world s') !! result_path c = Some (File (VDict (full_report c l1 l2 l3))).
Proof.
  intros (s2 & s3 & s4 & _ & _ & _ & ->). unfold write_world. simpl.
  apply lookup_insert_eq.
Qed.

Lemma benchmarked_lengths c s1 s' l1 l2 l3 :
  benchmarked c s1 s' l1 l2 l3 ->
  length l1 = Z.to_nat (Z.max 1 (runs c)) /\
  length l2 = Z.to_nat (Z.max 1 (runs c)) /\
  length l3 = Z.to_nat (Z.max 1 (runs c)).
Proof.
  intros (s2 & s3 & s4 & H1 & H2 & H3 & _).
  apply run_trials_length in H1, H2, H3. auto.
Qed.

(** C3 (amended). [main] tests the input once [os.makedirs(outdir)] has
    run.  If that call raises (the output path is a regular file, or passes
    through one), [main] raises the same error: it returns no status and
    writes no report.  If it succeeds and the input is then missing, [main]
    opens the report path: when no directory sits there, it returns 2 in the
    state where only the output directory and the report
    {"error": "input file not found", "input": path} have been written, no
    work invoked and no collection pass run; when a directory sits there,
    it raises IsADirectoryError instead.  If the input exists and the
    libraries raise only Exceptions, the trials of the three backends all
    run, whatever their outcomes, and the result of [main] is that of the
    final write of the full report: 0 when the output directory is still
    there and no directory sits at the report path.  A status that [main]
    returns is 2 with the error report written when the input was missing,
    and 0 with the full report written when it was there; when no trial of
    any backend succeeded, that report carries the failure marker for each
    backend and the status is 0 all the same. *)
Theorem main_exit_status (c : Config) (s : State) :
  (forall err,
     makedirs_error c s = Some err ->
     main_with c s
       = (Raise (mkdir_exn err),
          set_world (makedirs_world (outdir c) (world s)) s)) /\
  (makedirs_error c s = None ->
   input_found c s = false ->
   report_blocked c (makedirs_world (outdir c) (world s)) = false ->
     main_with c s = (Ok 2, missing_input_state c s) /\
     fs (world (missing_input_state c s)) !! result_path c
       = Some (File (VDict (missing_input_report c))) /\
     dom (missing_input_report c) = {[ "error"; "input" ]} /\
     missing_input_report c !! "error" = Some (VStr "input file not found") /\
     missing_input_report c !! "input" = Some (VStr (input_path c)) /\
     calls (missing_input_state c s) = calls s /\
     gc_passes (missing_input_state c s) = gc_passes s) /\
  (makedirs_error c s = None ->
   input_found c s = false ->
   report_blocked c (makedirs_world (outdir c) (world s)) = true ->
     main_with c s
       = (Raise IsADirectoryError,
          set_world (makedirs_world (outdir c) (world s)) s)) /\
  (makedirs_error c s = None ->
   input_found c s = true ->
   only_Exceptions E ->
     exists l1 l2 l3 s4,
       trials_ran c (set_world (makedirs_world (outdir c) (world s)) s) s4
         l1 l2 l3 /\
       main_with c s
         = (_ <- json_dump_to (result_path c) (VDict (full_report c l1 l2 l3)) ;;
            ret 0) s4 /\
       (isdir_in (outdir c) (fs (world s4)) = true ->
        report_blocked c (world s4) = false ->
          main_with c s
            = (Ok 0,
               set_world
                 (write_world (result_path c) (VDict (full_report c l1 l2 l3))
                    (world s4)) s4)) /\
       (report_blocked c (world s4) = true ->
          main_with c s = (Raise IsADirectoryError, s4))) /\
  (forall code s',
     main_with c s = (Ok code, s') ->
     makedirs_error c s = None /\
     if input_found c s
     then code = 0 /\
          exists l1 l2 l3,
            benchmarked c (set_world (makedirs_world (outdir c) (world s)) s) s'
              l1 l2 l3 /\
            fs (world s') !! result_path c
              = Some (File (VDict (full_report c l1 l2 l3)))
     else code = 2 /\ s' = missing_input_state c s) /\
  (forall l1 l2 l3,
     success_count l1 = 0%nat -> success_count l2 = 0%nat ->
     success_count l3 = 0%nat ->
     full_report c l1 l2 l3 = all_failed_report c).
Proof.
  split.
  { intros err Hm. rewrite main_with_eq, Hm. reflexivity. }
  split.
  { intros Hm Hf Hb. split; [apply main_missing; assumption |].
    split; [apply missing_input_report_written |].
    destruct (missing_input_report_fields c) as (Hd & He & Hi).
    split; [exact Hd |]. split; [exact He |]. split; [exact Hi |].
    split; reflexivity. }
  split.
  { intros Hm Hf Hb. rewrite main_with_eq, Hm, Hf, Hb. reflexivity. }
  split.
  { intros Hm Hf HE.
    destruct (libs_loop_total c
                (set_world (makedirs_world (outdir c) (world s)) s) HE)
      as (l1 & l2 & l3 & s4 & Htr & Hloop).
    exists l1, l2, l3, s4. split; [exact Htr |].
    assert (Heq : main_with c s
                  = (_ <- json_dump_to (result_path c)
                            (VDict (full_report c l1 l2 l3)) ;; ret 0) s4).
    { rewrite main_with_eq, Hm, Hf, Hloop.
      unfold report_blocked, isdir_in, bind, json_dump_to, ret.
      destruct (fs (world s4) !! result_path c) as [[v |] |]; reflexivity. }
    split; [exact Heq |]. split.
    - intros _ Hb. rewrite main_with_eq, Hm, Hf, Hloop, Hb. reflexivity.
    - intros Hb. rewrite main_with_eq, Hm, Hf, Hloop, Hb. reflexivity. }
  split.
  { intros code s' Hr.
    assert (Hm : makedirs_error c s = None).
    { rewrite main_with_eq in Hr.
      destruct (makedirs_error c s); [discriminate Hr | reflexivity]. }
    split; [exact Hm |].
    destruct (input_found c s) eqn:Hf.
    - destruct (main_found_ok c s code s' Hf Hr) as (-> & l1 & l2 & l3 & Hb).
      split; [reflexivity |]. exists l1, l2, l3.
      split; [exact Hb | eapply benchmarked_report, Hb].
    - rewrite main_with_eq, Hm, Hf in Hr.
      destruct (report_blocked c _); [discriminate Hr |].
      injection Hr as <- <-. split; reflexivity. }
  intros l1 l2 l3 H1 H2 H3. unfold full_report, all_failed_report, summary_of.
  rewrite H1, H2, H3. reflexivity.
Qed.

(** C4 (amended). The repetition count is clamped where the loop uses it:
    each backend runs max(1, runs) trials, at least one, and a loop that
    completes has recorded that many outcomes; so has each of the three
    backends when [main] completes.  The report echoes the configured value
    as it is; it is the clamped value exactly when the configured value is
    at least 1. *)
Theorem runs_clamped_in_loop_echoed_as_configured (c : Config) :
  (1 <= length (trial_range c))%nat /\
  length (trial_range c) = Z.to_nat (Z.max 1 (runs c)) /\
  (forall lib_name (f : lib_func) s l s',
     run_trials c lib_name f s = (Ok l, s') ->
     length l = Z.to_nat (Z.max 1 (runs c))) /\
  (forall s code s',
     input_found c s = true ->
     main_with c s = (Ok code, s') ->
     exists l1 l2 l3,
       fs (world s') !! result_path c
         = Some (File (VDict (full_report c l1 l2 l3))) /\
       length l1 = Z.to_nat (Z.max 1 (runs c)) /\
       length l2 = Z.to_nat (Z.max 1 (runs c)) /\
       length l3 = Z.to_nat (Z.max 1 (runs c)) /\
       full_report c l1 l2 l3 !! "runs" = Some (VInt (runs c))) /\
  (runs c = Z.max 1 (runs c) <-> 1 <= runs c).
Proof.
  split; [rewrite trial_range_length; lia |].
  split; [apply trial_range_length |].
  split; [intros; eapply run_trials_length; eauto |]. split.
  - intros s code s' Hf Hm.
    destruct (main_found_ok c s code s' Hf Hm) as (_ & l1 & l2 & l3 & Hb).
    exists l1, l2, l3. split; [eapply benchmarked_report, Hb |].
    destruct (benchmarked_lengths _ _ _ _ _ _ Hb) as (H1 & H2 & H3).
    split; [exact H1 |]. split; [exact H2 |]. split; [exact H3 |].
    apply report_with_runs.
  - lia.
Qed.

(** C10 (amended). When the input path does not exist, [main] has acted on
    the file system before it returns: [os.makedirs] comes first, it only
    adds to the file system, and once it has succeeded the output directory
    is a directory.  Whenever [main] then returns, its status is 2, the
    output directory is there and the report file holds the error report, so
    that the file system differs from the initial one unless that very
    report was already there.  [main] returns exactly when no directory sits
    at the report path; when one does, [main] raises IsADirectoryError with
    the output directory created and no report written; and when
    [os.makedirs] itself raises, [main] raises that error and the report is
    not written either. *)
Theorem missing_input_still_writes (c : Config) (s : State) :
  (forall q n,
     fs (world s) !! q = Some n ->
     fs (makedirs_world (outdir c) (world s)) !! q = Some n) /\
  (forall err,
     makedirs_error c s = Some err ->
     main_with c s
       = (Raise (mkdir_exn err),
          set_world (makedirs_world (outdir c) (world s)) s)) /\
  (makedirs_error c s = None ->
     fs (makedirs_world (outdir c) (world s)) !! outdir c = Some Dir) /\
  (forall code s',
     input_found c s = false ->
     main_with c s = (Ok code, s') ->
     code = 2 /\
     fs (world s') !! outdir c = Some Dir /\
     fs (world s') !! result_path c
       = Some (File (VDict (missing_input_report c))) /\
     (fs (world s) !! result_path c
        <> Some (File (VDict (missing_input_report c))) ->
      fs (world s') <> fs (world s))) /\
  (makedirs_error c s = None ->
   input_found c s = false ->
   report_blocked c (makedirs_world (outdir c) (world s)) = false ->
     main_with c s = (Ok 2, missing_input_state c s)) /\
  (makedirs_error c s = None ->
   input_found c s = false ->
   report_blocked c (makedirs_world (outdir c) (world s)) = true ->
     main_with c s
       = (Raise IsADirectoryError,
          set_world (makedirs_world (outdir c) (world s)) s) /\
     fs (makedirs_world (outdir c) (world s)) !! result_path c = Some Dir).
Proof.
  split; [intros q n; apply makedirs_world_keeps |].
  split.
  { intros err Hm. rewrite main_with_eq, Hm. reflexivity. }
  split; [apply makedirs_outdir |].
  split.
  { intros code s' Hf Hr. rewrite main_with_eq, Hf in Hr.
    destruct (makedirs_error c s) eqn:Hm; [discriminate Hr |].
    destruct (report_blocked c _); [discriminate Hr |].
    injection Hr as <- <-. split; [reflexivity |].
    split; [apply missing_input_outdir, Hm |].
    split; [apply missing_input_report_written |].
    intros Hne Heq. apply Hne. rewrite <- Heq.
    apply missing_input_report_written. }
  split; [apply main_missing |].
  intros Hm Hf Hb. split.
  - rewrite main_with_eq, Hm, Hf, Hb. reflexivity.
  - unfold report_blocked, isdir_in in Hb.
    destruct (fs (makedirs_world (outdir c) (world s)) !! result_path c)
      as [[v |] |]; first [ discriminate Hb | reflexivity ].
Qed.

End MainClaims.

(** * Examples *)

(** The harness settings with one repetition, on the libraries that all
    succeed: the first pandas temp file is the one of the source's naming
    scheme. *)
Example temp_out_path_pandas_0 :
  temp_out_path (config_with_runs 1) "pandas" 0
    = "./bench_results/tmp_pandas_0.csv".
Proof. reflexivity. Qed.

(** A work that allocates 2 MiB in a 50 MiB process: the figure is the mean
    of 50 MiB and 52 MiB, that is 51 MB. *)
Lemma measure_memory_is_mean_of_samples_witness :
  exists elapsed avg_mem s',
    measure (E := steady_libs) (busy 7%nat (2 * MiB) (Q2Qc 3))
      (start_in world_with_input) = (Ok (7%nat, elapsed, avg_mem), s') /\
    avg_mem = Q2Qc 51 /\
    (0 <= avg_mem)%Qc /\
    calls s' = 1%nat.
Proof.
  destruct (measure_memory_is_mean_of_samples (E := steady_libs)
              (busy 7%nat (2 * MiB) (Q2Qc 3)) (start_in world_with_input) 7%nat
              (MkWorld (fs world_with_input) (52 * MiB) (Q2Qc 0 + Q2Qc 3)%Qc)
              eq_refl)
    as (elapsed & avg_mem & s' & Hm & Havg & Hpos & _ & Hcalls & _).
  exists elapsed, avg_mem, s'. split; [exact Hm |].
  split; [| split; [exact Hpos | exact Hcalls]].
  rewrite Havg. apply Qc_is_canon. vm_compute. reflexivity.
Defined.

(** A read that fails in [measure]: no collection pass. *)
Lemma measure_failure_skips_collection_witness :
  measure (E := failing_libs) (failing ParserError : Work unit)
    (start_in world_with_input)
    = (Raise ParserError, MkState world_with_input 1 0) /\
  gc_passes (snd (measure (E := failing_libs) (failing ParserError : Work unit)
                    (start_in world_with_input))) = 0%nat.
Proof.
  destruct (measure_failure_skips_collection (E := failing_libs)
              (failing ParserError : Work unit) (start_in world_with_input)
              ParserError world_with_input eq_refl) as (H1 & H2 & _).
  split; [exact H1 | exact H2].
Defined.

(** The lazy build leaves the process at 50 MiB (figure 50), the
    materialization takes it from 50 MiB to 110 MiB (figure 80): the sample
    reports 80, and a read time of 1 s + 4 s. *)
Lemma dask_read_cost_is_combined_witness :
  exists d m s3,
    read_write_dask (E := steady_libs) "StudentsPerformance.csv"
      "./bench_results/tmp_dask_0.csv" "utf-8" "," (start_in world_with_input)
      = (Ok d, s3) /\
    d !! "read_mem_mb" = Some (VFloat m) /\
    m = Q2Qc 80 /\
    exists t, d !! "read_time_s" = Some (VFloat t) /\ t = Q2Qc 5.
Proof.
  destruct (dask_read_cost_is_combined (E := steady_libs)
              "StudentsPerformance.csv" "./bench_results/tmp_dask_0.csv"
              "utf-8" "," (start_in world_with_input) _ _ _ _ _ _ _ _ _ _ _ _ _
              eq_refl eq_refl eq_refl)
    as (d & m & Hrun & Ht & Hm & Hlazy & Hcomp & Hor & _).
  exists d, m. eexists. split; [exact Hrun |]. split; [exact Hm |]. split.
  - destruct Hor as [-> | ->].
    + exfalso. apply Hcomp. vm_compute. reflexivity.
    + apply Qc_is_canon. vm_compute. reflexivity.
  - eexists. split; [exact Ht |]. apply Qc_is_canon. vm_compute. reflexivity.
Defined.

(** Scenario: trials 2 and 4 of 5 failed; three runs are used and the mean
    read time is that of 0.1, 0.2 and 0.3. *)
Lemma summary_is_mean_over_successes_witness :
  exists summary m,
    summarise five_trials_two_failed = Ok summary /\
    summary !! "runs_used" = Some (VInt 3) /\
    summary !! "read_time_s" = Some (VFloat m) /\
    m = Q2Qc (2 # 10).
Proof.
  assert (Hall : Forall is_outcome five_trials_two_failed).
  { unfold five_trials_two_failed.
    repeat (constructor;
            [first [ left; repeat eexists; reflexivity
                   | right; eexists; reflexivity ] |]).
    constructor. }
  assert (Hn : (1 <= success_count five_trials_two_failed)%nat).
  { vm_compute. lia. }
  destruct (summary_is_mean_over_successes five_trials_two_failed Hall Hn)
    as (summary & Hs & Hrt & _ & _ & _ & Hru & _).
  exists summary, (mean_over_successes "read_time_s" five_trials_two_failed).
  split; [exact Hs |]. split; [exact Hru |]. split; [exact Hrt |].
  apply Qc_is_canon. vm_compute. reflexivity.
Defined.

Lemma all_failed_summary_is_marker_witness :
  summarise two_trials_failed = Ok all_runs_failed /\
  dom all_runs_failed = {[ "error" ]}.
Proof.
  assert (Hall : Forall (fun r => has_error r = true) two_trials_failed).
  { repeat constructor. }
  destruct (all_failed_summary_is_marker two_trials_failed Hall)
    as (Hs & Hd & _).
  split; [exact Hs | exact Hd].
Defined.

Lemma failing_libs_only_Exceptions : only_Exceptions failing_libs.
Proof.
  assert (Hw : forall p, raises_only_Exception (write_csv_file p)).
  { intros p w e w' H. unfold write_csv_file in H.
    destruct (fs w !! p) as [[v |] |]; try discriminate H.
    injection H as <- _. reflexivity. }
  assert (Hf : forall A, raises_only_Exception (failing ParserError : Work A)).
  { intros A w e w' H. injection H as <- _. reflexivity. }
  repeat split; simpl; intros; try apply Hw; try apply Hf.
  intros w e w' H. discriminate H.
Qed.

(** Missing input: exit status 2.  Input in place and every read failing:
    the three loops complete and [main] returns 0, with the failure marker
    for each backend in the report.  The output path a regular file:
    FileExistsError, and no status. *)
Lemma main_exit_status_witness :
  main_with (E := failing_libs) (config_with_runs 2)
      (start_in world_without_input)
    = (Ok 2, missing_input_state (config_with_runs 2)
               (start_in world_without_input)) /\
  (exists l1 l2 l3 s4,
     trials_ran (E := failing_libs) (config_with_runs 2)
       (set_world (makedirs_world "./bench_results" world_with_input)
          (start_in world_with_input)) s4 l1 l2 l3 /\
     main_with (E := failing_libs) (config_with_runs 2)
         (start_in world_with_input)
       = (_ <- json_dump_to "./bench_results/bench_result.json"
                 (VDict (full_report (config_with_runs 2) l1 l2 l3)) ;;
          ret 0) s4) /\
  (exists s' l1 l2 l3,
     main_with (E := failing_libs) (config_with_runs 2)
         (start_in world_with_input) = (Ok 0, s') /\
     fs (world s') !! "./bench_results/bench_result.json"
       = Some (File (VDict (full_report (config_with_runs 2) l1 l2 l3))) /\
     fs (world s') !! "./bench_results/bench_result.json"
       = Some (File (VDict (all_failed_report (config_with_runs 2))))) /\
  fst (main_with (E := failing_libs) (config_with_runs 2)
         (start_in world_with_file_at_outdir))
    = Raise (mkdir_exn EEXIST).
Proof.
  assert (Hm : makedirs_error (config_with_runs 2)
                 (start_in world_with_input) = None).
  { vm_compute. reflexivity. }
  assert (Hf : input_found (config_with_runs 2)
                 (start_in world_with_input) = true).
  { vm_compute. reflexivity. }
  split; [| split; [| split]].
  - destruct (main_exit_status (E := failing_libs) (config_with_runs 2)
                (start_in world_without_input)) as (_ & Hmiss & _).
    assert (Hm0 : makedirs_error (config_with_runs 2)
                    (start_in world_without_input) = None).
    { vm_compute. reflexivity. }
    assert (Hf0 : input_found (config_with_runs 2)
                    (start_in world_without_input) = false).
    { vm_compute. reflexivity. }
    assert (Hb0 : report_blocked (config_with_runs 2)
                    (makedirs_world (outdir (config_with_runs 2))
                       (world (start_in world_without_input))) = false).
    { vm_compute. reflexivity. }
    destruct (Hmiss Hm0 Hf0 Hb0) as (H & _). exact H.
  - destruct (main_exit_status (E := failing_libs) (config_with_runs 2)
                (start_in world_with_input)) as (_ & _ & _ & Htot & _).
    destruct (Htot Hm Hf failing_libs_only_Exceptions)
      as (l1 & l2 & l3 & s4 & Htr & Heq & _).
    exists l1, l2, l3, s4. split; [exact Htr | exact Heq].
  - destruct (main_exit_status (E := failing_libs) (config_with_runs 2)
                (start_in world_with_input)) as (_ & _ & _ & _ & Hret & _).
    assert (Hmain : main_with (E := failing_libs) (config_with_runs 2)
                      (start_in world_with_input)
                    = (Ok 0, snd (main_with (E := failing_libs)
                                    (config_with_runs 2)
                                    (start_in world_with_input)))).
    { vm_compute. reflexivity. }
    destruct (Hret 0 _ Hmain) as (_ & Hcase). rewrite Hf in Hcase.
    destruct Hcase as (_ & l1 & l2 & l3 & _ & Hrep).
    eexists _, l1, l2, l3. split; [exact Hmain |]. split; [exact Hrep |].
    vm_compute. reflexivity.
  - destruct (main_exit_status (E := failing_libs) (config_with_runs 2)
                (start_in world_with_file_at_outdir)) as (Hraise & _).
    assert (Hm1 : makedirs_error (config_with_runs 2)
                    (start_in world_with_file_at_outdir) = Some EEXIST).
    { vm_compute. reflexivity. }
    rewrite (Hraise EEXIST Hm1). reflexivity.
Defined.

(** Missing input in an empty file system: the output directory is created
    and the error report written.  A directory at the report path: the
    output directory is there, and [main] raises. *)
Lemma missing_input_still_writes_witness :
  (exists s',
     main_with (E := steady_libs) source_config (start_in world_without_input)
       = (Ok 2, s') /\
     fs (world s') !! "./bench_results" = Some Dir /\
     fs (world s') !! "./bench_results/bench_result.json"
       = Some (File (VDict (missing_input_report source_config))) /\
     fs (world s') <> fs world_without_input) /\
  fst (main_with (E := steady_libs) source_config
         (start_in world_with_dir_at_report))
    = Raise IsADirectoryError.
Proof.
  split.
  - destruct (missing_input_still_writes (E := steady_libs) source_config
                (start_in world_without_input))
      as (_ & _ & _ & Hret & Hrun & _).
    assert (Hm : makedirs_error source_config (start_in world_without_input)
                 = None).
    { vm_compute. reflexivity. }
    assert (Hf : input_found source_config (start_in world_without_input)
                 = false).
    { vm_compute. reflexivity. }
    assert (Hb : report_blocked source_config
                   (makedirs_world (outdir source_config)
                      (world (start_in world_without_input))) = false).
    { vm_compute. reflexivity. }
    pose proof (Hrun Hm Hf Hb) as Hmain.
    destruct (Hret 2 _ Hf Hmain) as (_ & Hdir & Hrep & Hdiff).
    eexists. split; [exact Hmain |]. split; [exact Hdir |].
    split; [exact Hrep |]. apply Hdiff. vm_compute. discriminate.
  - destruct (missing_input_still_writes (E := steady_libs) source_config
                (start_in world_with_dir_at_report))
      as (_ & _ & _ & _ & _ & Hblk).
    assert (Hm : makedirs_error source_config
                   (start_in world_with_dir_at_report) = None).
    { vm_compute. reflexivity. }
    assert (Hf : input_found source_config
                   (start_in world_with_dir_at_report) = false).
    { vm_compute. reflexivity. }
    assert (Hb : report_blocked source_config
                   (makedirs_world (outdir source_config)
                      (world (start_in world_with_dir_at_report))) = true).
    { vm_compute. reflexivity. }
    destruct (Hblk Hm Hf Hb) as (Hmain & _). rewrite Hmain. reflexivity.
Defined.

(** A pandas trial that succeeds: its temp file is gone afterwards. *)
Lemma cleanup_keeps_recorded_outcome_witness :
  exists d s',
    trial (config_with_runs 1) "pandas" (read_write_pandas (E := steady_libs))
      0 [] (start_in world_with_input) = (Ok [d], s') /\
    has_error d = false /\
    fs (world s') !! "./bench_results/tmp_pandas_0.csv" = None.
Proof.
  edestruct (cleanup_keeps_recorded_outcome (config_with_runs 1) "pandas"
               (read_write_pandas (E := steady_libs)) 0 []
               (start_in world_with_input))
    as (s' & Ht & _ & _ & _ & _ & Hgone & _).
  - reflexivity.
  - intros e He. discriminate He.
  - eexists _, s'. split; [exact Ht |]. split; [reflexivity |].
    apply Hgone. vm_compute. discriminate.
Defined.

Lemma failing_pandas_raises_Exceptions_only :
  raises_Exceptions_only (read_write_pandas (E := failing_libs)).
Proof.
  intros path out_tmp enc sp s e s' H.
  destruct (read_write_pandas_total failing_libs_only_Exceptions
              path out_tmp enc sp s) as (d & s1 & H1 & _).
  rewrite H1 in H. discriminate H.
Qed.

(** On libraries that raise only Exceptions the adapters always hand back an
    outcome; with a reader that fails at every trial, both trials of the
    pandas loop are recorded as failures and the loop completes. *)
Lemma trial_records_or_lets_through_witness :
  (always_records (read_write_pandas (E := failing_libs)) /\
   always_records (read_write_polars (E := failing_libs)) /\
   always_records (read_write_dask (E := failing_libs))) /\
  (exists l s',
     run_trials (config_with_runs 2) "pandas"
       (read_write_pandas (E := failing_libs)) (start_in world_with_input)
       = (Ok l, s') /\
     length l = 2%nat /\
     Forall is_outcome l) /\
  caught ParserError = Ok (error_dict (exn_repr ParserError)) /\
  caught PanicException = Raise PanicException.
Proof.
  destruct (trial_records_or_lets_through (E := failing_libs))
    as (_ & _ & _ & Hcaught & _ & _ & _ & Hloop & Htot & Hok).
  split; [exact (Htot failing_libs_only_Exceptions) |]. split.
  - destruct (Hloop (config_with_runs 2) "pandas"
                (read_write_pandas (E := failing_libs))
                (start_in world_with_input)
                failing_pandas_raises_Exceptions_only)
      as (l & s' & Hrun & Hlen).
    exists l, s'. split; [exact Hrun |]. split; [exact Hlen |].
    apply (Hok (config_with_runs 2) "pandas"
             (read_write_pandas (E := failing_libs))
             (start_in world_with_input) l s').
    + apply pandas_records_or_propagates.
    + exact Hrun.
  - split.
    + apply (Hcaught ParserError). reflexivity.
    + apply (Hcaught PanicException). reflexivity.
Defined.

(** A configured count of -3: one trial per backend. *)
Lemma runs_clamped_in_loop_echoed_as_configured_witness :
  length (trial_range (config_with_runs (-3))) = 1%nat /\
  forall lib_name (f : lib_func) s l s',
    run_trials (config_with_runs (-3)) lib_name f s = (Ok l, s') ->
    length l = 1%nat.
Proof.
  destruct (runs_clamped_in_loop_echoed_as_configured (E := steady_libs)
              (config_with_runs (-3))) as (_ & Hlen & Hrun & _).
  split; [exact Hlen | exact Hrun].
Defined.

(** [main] itself, with its 1000 repetitions, on libraries that always
    succeed: exit status 0, 7000 collection passes (two measured steps per
    pandas and polars trial, three per dask trial), and 1000 runs used for
    pandas. *)
Example main_source_config_run :
  run_digest (main (E := steady_libs) (start_in world_with_input))
    = (Ok 0, 7000, Some (VInt 1000)).
Proof. vm_compute. reflexivity. Qed.

(** * Counterexamples *)

(** C2, as stated, fails: a panic of the polars reader is not an Exception;
    it leaves the adapter, the loop body and [main], and no outcome is
    recorded for the trial. *)
Lemma polars_panic_escapes_trial :
  fst (read_write_polars (E := panicking_libs) "StudentsPerformance.csv"
         "./bench_results/tmp_polars_0.csv" "utf-8" ","
         (start_in world_with_input)) = Raise PanicException /\
  fst (trial (config_with_runs 1) "polars"
         (read_write_polars (E := panicking_libs)) 0 []
         (start_in world_with_input)) = Raise PanicException /\
  fst (main_with (E := panicking_libs) (config_with_runs 1)
         (start_in world_with_input)) = Raise PanicException.
Proof. repeat split; vm_compute; reflexivity. Qed.

(** C4, as stated, fails: with a configured count of 0 one trial runs per
    backend, yet the report echoes 0, not the clamped value 1. *)
Lemma echoed_runs_not_clamped :
  fst (main_with (E := failing_libs) (config_with_runs 0)
         (start_in world_with_input)) = Ok 0 /\
  length (trial_range (config_with_runs 0)) = 1%nat /\
  Z.max 1 (runs (config_with_runs 0)) = 1 /\
  match fs (world (snd (main_with (E := failing_libs) (config_with_runs 0)
                          (start_in world_with_input)))) 
          !! "./bench_results/bench_result.json" with
  | Some (File (VDict report)) => report !! "runs" = Some (VInt 0)
  | _ => False
  end.
Proof. repeat split; vm_compute; reflexivity. Qed.

(** C8, as stated, fails: when the temp path of a trial is a directory, the
    write fails, the trial is recorded as a failure, the deletion fails too
    and is swallowed, and the path still exists after the trial. *)
Lemma blocked_temp_survives_cleanup :
  fst (trial (config_with_runs 1) "pandas"
         (read_write_pandas (E := steady_libs)) 0 []
         (start_in world_with_blocked_temp))
    = Ok [error_dict
            "OSError('Is a directory: ./bench_results/tmp_pandas_0.csv')"] /\
  path_exists_in "./bench_results/tmp_pandas_0.csv"
    (world (snd (trial (config_with_runs 1) "pandas"
                   (read_write_pandas (E := steady_libs)) 0 []
                   (start_in world_with_blocked_temp)))) = true.
Proof. split; vm_compute; reflexivity. Qed.

(** C3, as stated, fails: with the input missing and a regular file at the
    output path, [os.makedirs] raises FileExistsError; [main] returns no
    status, and no report is written: the file system is as it was. *)
Lemma outdir_file_prevents_exit_status :
  path_exists_in "StudentsPerformance.csv" world_with_file_at_outdir = false /\
  input_found source_config (start_in world_with_file_at_outdir) = false /\
  main (E := steady_libs) (start_in world_with_file_at_outdir)
    = (Raise (mkdir_exn EEXIST), start_in world_with_file_at_outdir) /\
  exn_repr (mkdir_exn EEXIST) = "FileExistsError(17, 'File exists')" /\
  fs world_with_file_at_outdir !! "./bench_results/bench_result.json" = None.
Proof. repeat split; vm_compute; reflexivity. Qed.

(** C10, as stated, fails: with the input missing and a directory at the
    report path, the report cannot be opened for writing; [main] raises
    IsADirectoryError instead of returning, and no report file is written:
    the report path still holds the directory. *)
Lemma report_path_directory_prevents_report :
  input_found source_config (start_in world_with_dir_at_report) = false /\
  fst (main (E := steady_libs) (start_in world_with_dir_at_report))
    = Raise IsADirectoryError /\
  fs (world (snd (main (E := steady_libs) (start_in world_with_dir_at_report))))
    !! "./bench_results/bench_result.json" = Some Dir.
Proof. repeat split; vm_compute; reflexivity. Qed.

(** * Further properties of the harness *)

Section PathFacts.
Context `{E : Externals}.

Lemma string_app_assoc (a b c : string) : (a ++ b) ++ c = a ++ (b ++ c).
Proof.
  induction a as [| ch a IH]; [reflexivity |].
  change (String ch ((a ++ b) ++ c) = String ch (a ++ b ++ c)).
  rewrite IH. reflexivity.
Qed.

Lemma string_app_length (a b : string) :
  String.length (a ++ b) = (String.length a + String.length b)%nat.
Proof. induction a as [| ch a IH]; simpl; [reflexivity | rewrite IH; reflexivity]. Qed.

Lemma string_app_inj_r (x y t : string) : x ++ t = y ++ t -> x = y.
Proof.
  revert y. induction x as [| a x IH]; intros [| b y] H.
  - reflexivity.
  - apply (f_equal String.length) in H.
    rewrite !string_app_length in H. simpl in H. lia.
  - apply (f_equal String.length) in H.
    rewrite !string_app_length in H. simpl in H. lia.
  - change (String a (x ++ t) = String b (y ++ t)) in H.
    injection H as -> H. rewrite (IH _ H). reflexivity.
Qed.

Lemma os_path_join_relative (a b : string) :
  starts_with_slash b = false -> os_path_join a b = join_prefix a ++ b.
Proof.
  intros Hb. unfold os_path_join, join_prefix. rewrite Hb.
  destruct a as [| ch a]; [reflexivity |].
  destruct (ends_with_slash (String ch a)); [reflexivity |].
  symmetry. apply string_app_assoc.
Qed.

Lemma temp_out_path_eq c lib_name i :
  temp_out_path c lib_name i =
    join_prefix (outdir c) ++ "tmp_" ++ lib_name ++ "_" ++ pretty i ++ ".csv".
Proof. unfold temp_out_path. apply os_path_join_relative. reflexivity. Qed.

Lemma result_path_eq c :
  result_path c = join_prefix (outdir c) ++ "bench_result.json".
Proof. unfold result_path. apply os_path_join_relative. reflexivity. Qed.

Lemma temp_out_path_inj_index c lib_name i j :
  temp_out_path c lib_name i = temp_out_path c lib_name j -> i = j.
Proof.
  rewrite !temp_out_path_eq. intros H.
  do 4 apply (inj (String.app _)) in H.
  apply string_app_inj_r in H. apply (inj pretty), H.
Qed.

(** X1. The temp files of a run never collide: for one backend, different
    trial indices give different temp paths; among the three registered
    backends, different (backend, index) pairs give different temp paths;
    and no temp path is the path of the report. *)
Theorem temp_paths_never_collide (c : Config) :
  map fst libs = lib_names /\
  (forall lib_name i j,
     temp_out_path c lib_name i = temp_out_path c lib_name j -> i = j) /\
  (forall lib_name, NoDup (map (temp_out_path c lib_name) (trial_range c))) /\
  (forall n1 n2 i j,
     In n1 lib_names -> In n2 lib_names ->
     temp_out_path c n1 i = temp_out_path c n2 j -> n1 = n2 /\ i = j) /\
  (forall lib_name i, temp_out_path c lib_name i <> result_path c).
Proof.
  split; [reflexivity |].
  split; [intros; eapply temp_out_path_inj_index; eauto |].
  split; [| split].
  - intros lib_name. apply NoDup_fmap_2.
    + intros i j H. eapply temp_out_path_inj_index, H.
    + apply NoDup_seq.
  - intros n1 n2 i j H1 H2 H.
    assert (Hn : n1 = n2).
    { rewrite !temp_out_path_eq in H. apply (inj (String.app _)) in H.
      simpl in H1, H2.
      destruct H1 as [<- | [<- | [<- | []]]];
        destruct H2 as [<- | [<- | [<- | []]]];
        try reflexivity; simpl in H; discriminate H. }
    subst n2. split; [reflexivity |]. eapply temp_out_path_inj_index, H.
  - intros lib_name i H. rewrite temp_out_path_eq, result_path_eq in H.
    apply (inj (String.app _)) in H. simpl in H. discriminate H.
Qed.

End PathFacts.

Section FileSystemFacts.
Context `{E : Externals}.


Lemma mkdir_exist_ok_there parent name g :
  g !! name = Some Dir -> mkdir_exist_ok parent name g = (None, g).
Proof.
  intros Hn. unfold mkdir_exist_ok, mkdir_in.
  destruct (is_empty name); [| rewrite Hn]; unfold isdir_in; rewrite Hn;
    reflexivity.
Qed.

Lemma mkdir_exist_ok_exists parent name f r f' :
  mkdir_exist_ok parent name f = (r, f') ->
  r = None \/ r = Some EEXIST ->
  exists_in name f' = true.
Proof.
  unfold mkdir_exist_ok, mkdir_in, isdir_in, exists_in.
  intros H Hr. destruct (is_empty name).
  - destruct (f !! name) as [[v |] |] eqn:Hn; injection H as <- <-;
      first [ rewrite Hn; reflexivity
            | destruct Hr as [Hr | Hr]; discriminate Hr ].
  - destruct (f !! name) as [[v |] |] eqn:Hn.
    + rewrite Hn in H. injection H as <- <-. rewrite Hn. reflexivity.
    + rewrite Hn in H. injection H as <- <-. rewrite Hn. reflexivity.
    + destruct (f !! parent) as [[v |] |].
      * rewrite Hn in H. injection H as <- <-.
        destruct Hr as [Hr | Hr]; discriminate Hr.
      * injection H as <- <-. rewrite lookup_insert_eq. reflexivity.
      * injection H as <- <-. rewrite lookup_insert_eq. reflexivity.
Qed.

Lemma makedirs_in_exists fuel name f r f' :
  makedirs_in fuel name f = (r, f') ->
  r = None \/ r = Some EEXIST ->
  exists_in name f' = true.
Proof.
  destruct fuel as [| fuel]; simpl;
    destruct (posix_split name) as [head0 tail0];
    destruct (if is_empty tail0 then posix_split head0 else (head0, tail0))
      as [head tail].
  - apply mkdir_exist_ok_exists.
  - destruct (negb (is_empty head) && negb (is_empty tail)
              && negb (exists_in head f)).
    + destruct (makedirs_in fuel head f) as [[[| |] |] f1];
        first [ apply mkdir_exist_ok_exists
              | intros H [Hr | Hr]; injection H as <- _; discriminate Hr ].
    + apply mkdir_exist_ok_exists.
Qed.

Lemma mkdir_exist_ok_exists_keeps parent name f q :
  exists_in q f = true -> exists_in q (snd (mkdir_exist_ok parent name f)) = true.
Proof.
  unfold exists_in. destruct (f !! q) as [n |] eqn:Hq; [| discriminate].
  intros _. rewrite (mkdir_exist_ok_keeps parent name f q n Hq). reflexivity.
Qed.

(** Once [os.makedirs] has succeeded, calling it again changes nothing,
    whatever has been written in between, as long as what existed still
    exists and the directory is still a directory. *)
Lemma makedirs_in_again fuel name f f1 g :
  makedirs_in fuel name f = (None, f1) ->
  (forall q, exists_in q f1 = true -> exists_in q g = true) ->
  g !! name = Some Dir ->
  makedirs_in fuel name g = (None, g).
Proof.
  intros Hm Hg Hname.
  destruct fuel as [| fuel]; simpl in *;
    destruct (posix_split name) as [head0 tail0];
    destruct (if is_empty tail0 then posix_split head0 else (head0, tail0))
      as [head tail].
  - apply mkdir_exist_ok_there, Hname.
  - assert (Hhead : negb (is_empty head) && negb (is_empty tail)
                    && negb (exists_in head g) = false).
    { destruct (is_empty head); [reflexivity |].
      destruct (is_empty tail); [reflexivity |]. simpl in *.
      destruct (exists_in head f) eqn:Hex; simpl in Hm.
      - rewrite Hg; [reflexivity |].
        pose proof (mkdir_exist_ok_exists_keeps head name f head Hex) as Hk.
        rewrite Hm in Hk. exact Hk.
      - destruct (makedirs_in fuel head f) as [r f0] eqn:Hrec.
        assert (Hr : r = None \/ r = Some EEXIST).
        { destruct r as [[| |] |]; auto; discriminate Hm. }
        pose proof (makedirs_in_exists _ _ _ _ _ Hrec Hr) as Hex0.
        assert (Hm' : mkdir_exist_ok head name f0 = (None, f1)).
        { destruct Hr as [-> | ->]; exact Hm. }
        rewrite Hg; [reflexivity |].
        pose proof (mkdir_exist_ok_exists_keeps head name f0 head Hex0) as Hk.
        rewrite Hm' in Hk. exact Hk. }
    rewrite Hhead. apply mkdir_exist_ok_there, Hname.
Qed.

Lemma main_returns_2 c s s' :
  main_with c s = (Ok 2, s') ->
  makedirs_error c s = None /\ s' = missing_input_state c s.
Proof.
  intros Hrun. rewrite main_with_eq in Hrun.
  destruct (makedirs_error c s); [discriminate Hrun |].
  split; [reflexivity |].
  destruct (input_found c s).
  - destruct (for_each libs (run_lib c) (initial_results c) _)
      as [[results | e] s4]; [| discriminate Hrun].
    destruct (report_blocked c (world s4)); discriminate Hrun.
  - destruct (report_blocked c _); [discriminate Hrun |].
    injection Hrun as <-. reflexivity.
Qed.

(** X3. Running the harness again on a missing input changes nothing more:
    when [main] has returned 2 and, run again in the state it left, still
    finds the input missing, it returns 2 again and leaves that state as it
    is. *)
Theorem main_missing_input_idempotent (c : Config) (s s' : State) :
  main_with c s = (Ok 2, s') ->
  input_found c s' = false ->
  main_with c s' = (Ok 2, s').
Proof.
  intros Hrun Hmiss.
  destruct (main_returns_2 c s s' Hrun) as (Hm & ->). clear Hrun.
  pose proof (missing_input_outdir c s Hm) as Hdir.
  assert (Hagain : makedirs_result (outdir c)
                     (fs (world (missing_input_state c s)))
                   = (None, fs (world (missing_input_state c s)))).
  { unfold makedirs_error in Hm. unfold makedirs_result in *.
    destruct (makedirs_in (String.length (outdir c)) (outdir c) (fs (world s)))
      as [r f1] eqn:Hmk.
    simpl in Hm. subst r.
    apply (makedirs_in_again _ _ (fs (world s)) f1); [exact Hmk | | exact Hdir].
    intros q. unfold missing_input_state, write_world, makedirs_world,
      makedirs_result, exists_in. simpl. rewrite Hmk. simpl.
    destruct (decide (result_path c = q)) as [<- | Hne].
    - rewrite lookup_insert_eq. reflexivity.
    - rewrite lookup_insert_ne by exact Hne. auto. }
  assert (Hworld : makedirs_world (outdir c) (world (missing_input_state c s))
                   = world (missing_input_state c s)).
  { unfold makedirs_world. rewrite Hagain. simpl.
    destruct (world (missing_input_state c s)); reflexivity. }
  assert (Herr : makedirs_error c (missing_input_state c s) = None).
  { unfold makedirs_error. rewrite Hagain. reflexivity. }
  assert (Hfree : report_blocked c (world (missing_input_state c s)) = false).
  { unfold report_blocked, isdir_in. rewrite missing_input_report_written.
    reflexivity. }
  rewrite main_with_eq, Herr, Hmiss, Hworld, Hfree.
  f_equal. unfold missing_input_state at 1. rewrite Hworld.
  unfold missing_input_state, write_world, set_world, set_fs. simpl.
  rewrite insert_insert_eq. reflexivity.
Qed.

End FileSystemFacts.

Section AggregationEdgeCases.

Lemma column_raise k l e :
  column k l = Raise e ->
  e = KeyError k /\ exists r, In r l /\ r !! k = None.
Proof.
  induction l as [| r l IH]; [discriminate |]. simpl. unfold getitem.
  destruct (r !! k) as [v |] eqn:Hr.
  - destruct (column k l) as [vs | e0]; [discriminate |].
    intros H. injection H as <-. destruct (IH eq_refl) as (-> & r0 & Hin & H0).
    split; [reflexivity |]. exists r0. auto.
  - intros H. injection H as <-. split; [reflexivity |]. exists r. auto.
Qed.

Lemma column_missing k l r :
  In r l -> r !! k = None -> column k l = Raise (KeyError k).
Proof.
  induction l as [| r0 l IH]; [intros [] |]. intros [-> | Hin] Hr; simpl.
  - unfold getitem. rewrite Hr. reflexivity.
  - unfold getitem. destruct (r0 !! k); [| reflexivity].
    rewrite (IH Hin Hr). reflexivity.
Qed.

Lemma column_ok_length k l vs : column k l = Ok vs -> length vs = length l.
Proof.
  revert vs. induction l as [| r l IH]; intros vs H; simpl in H.
  - injection H as <-. reflexivity.
  - destruct (getitem r k); [| discriminate H].
    destruct (column k l) as [vs' |]; [| discriminate H].
    injection H as <-. simpl. rewrite (IH vs' eq_refl). reflexivity.
Qed.

Lemma float_sum_raise vs e :
  float_sum vs = Raise e -> exists msg, e = TypeError msg.
Proof.
  induction vs as [| v vs IH]; [discriminate |]. simpl.
  destruct v; simpl;
    try (intros H; injection H as <-; eexists; reflexivity);
    (destruct (float_sum vs); [discriminate |];
     intros H; injection H as <-; apply IH; reflexivity).
Qed.

Lemma statistics_mean_raise data e :
  data <> [] -> statistics_mean data = Raise e -> exists msg, e = TypeError msg.
Proof.
  intros Hne H. unfold statistics_mean in H.
  destruct data as [| v vs]; [congruence |].
  destruct (float_sum (v :: vs)) eqn:Hs.
  - destruct (forallb is_int (v :: vs) && _); discriminate H.
  - injection H as <-. eapply float_sum_raise, Hs.
Qed.

Lemma in_successes r l :
  In r (List.filter (fun r => negb (has_error r)) l) <->
  In r l /\ has_error r = false.
Proof.
  rewrite List.filter_In. destruct (has_error r); simpl; intuition congruence.
Qed.

Lemma successes_samples_only l :
  (forall r, In r l -> has_error r = false -> is_sample r) ->
  Forall is_sample (List.filter (fun r => negb (has_error r)) l).
Proof.
  induction l as [| r l IH]; intros H; simpl; [constructor |].
  assert (IH' : Forall is_sample (List.filter (fun r => negb (has_error r)) l)).
  { apply IH. intros r0 Hin. apply H. right. exact Hin. }
  destruct (has_error r) eqn:Hr; simpl; [exact IH' |].
  constructor; [apply H; [left; reflexivity | exact Hr] | exact IH'].
Qed.

(** X4. The aggregation of one backend never calls [statistics.mean] on an
    empty list, so it never raises StatisticsError.  A successful outcome
    without [read_time_s] makes it raise the KeyError of that key.  And it
    returns a summary whenever every outcome that has no error field is a
    TrialSample, whatever the other outcomes hold. *)
Theorem summarise_failure_modes (runs_data : list (gmap string pyval)) :
  (forall m, summarise runs_data <> Raise (StatisticsError m)) /\
  (forall r,
     In r runs_data -> has_error r = false -> r !! "read_time_s" = None ->
     summarise runs_data = Raise (KeyError "read_time_s")) /\
  ((forall r, In r runs_data -> has_error r = false -> is_sample r) ->
   exists summary, summarise runs_data = Ok summary).
Proof.
  split; [| split].
  - intros m H. unfold summarise in H.
    set (succ := List.filter (fun r => negb (has_error r)) runs_data) in *.
    destruct succ as [| r0 rest] eqn:Hsucc; [discriminate H |].
    rewrite <- Hsucc in H.
    assert (Hne : forall k cs, column k succ = Ok cs -> cs <> []).
    { intros k cs Hc Hnil. apply column_ok_length in Hc.
      rewrite Hnil, Hsucc in Hc. discriminate Hc. }
    assert (Hmean : forall k cs,
              column k succ = Ok cs ->
              statistics_mean cs <> Raise (StatisticsError m)).
    { intros k cs Hc Hs.
      destruct (statistics_mean_raise cs _ (Hne _ _ Hc) Hs) as (msg & He).
      discriminate He. }
    unfold res_bind in H.
    destruct (column "read_time_s" succ) as [c1 |] eqn:H1;
      [| apply column_raise in H1 as (-> & _); discriminate H].
    destruct (column "write_time_s" succ) as [c2 |] eqn:H2;
      [| apply column_raise in H2 as (-> & _); discriminate H].
    destruct (column "read_mem_mb" succ) as [c3 |] eqn:H3;
      [| apply column_raise in H3 as (-> & _); discriminate H].
    destruct (column "write_mem_mb" succ) as [c4 |] eqn:H4;
      [| apply column_raise in H4 as (-> & _); discriminate H].
    destruct (statistics_mean c1) eqn:M1;
      [| injection H as ->; exact (Hmean _ _ H1 M1)].
    destruct (statistics_mean c2) eqn:M2;
      [| injection H as ->; exact (Hmean _ _ H2 M2)].
    destruct (statistics_mean c3) eqn:M3;
      [| injection H as ->; exact (Hmean _ _ H3 M3)].
    destruct (statistics_mean c4) eqn:M4;
      [| injection H as ->; exact (Hmean _ _ H4 M4)].
    discriminate H.
  - intros r Hin Herr Hr. unfold summarise.
    assert (Hs : In r (List.filter (fun r => negb (has_error r)) runs_data)).
    { apply in_successes. auto. }
    destruct (List.filter _ runs_data) as [| r0 rest] eqn:Hsucc; [destruct Hs |].
    rewrite (column_missing _ _ _ Hs Hr). reflexivity.
  - intros Hall. apply successes_samples_only in Hall. unfold summarise.
    destruct (List.filter _ runs_data) as [| r0 rest]; [eexists; reflexivity |].
    rewrite !column_samples by
      auto using float_field_read_time, float_field_write_time,
                 float_field_read_mem, float_field_write_mem.
    unfold res_bind. rewrite !statistics_mean_floats. eexists. reflexivity.
Qed.

End AggregationEdgeCases.

Section AggregationOrder.

Lemma same_result_trans {A} (r1 r2 r3 : Res A) :
  same_result r1 r2 -> same_result r2 r3 -> same_result r1 r3.
Proof.
  destruct r1, r2, r3; simpl; try contradiction; try trivial. congruence.
Qed.

Lemma float_sum_perm vs vs' :
  Permutation vs vs' -> same_result (float_sum vs) (float_sum vs').
Proof.
  induction 1 as [| v l l' _ IH | v1 v2 l | l1 l2 l3 _ IH1 _ IH2].
  - reflexivity.
  - simpl. destruct (exact_ratio v); [| exact I].
    destruct (float_sum l), (float_sum l'); simpl in *;
      try contradiction; [congruence | exact I].
  - simpl. destruct (exact_ratio v1) as [q1 |], (exact_ratio v2) as [q2 |],
      (float_sum l) as [t |]; simpl; try exact I.
    rewrite !Qcplus_assoc, (Qcplus_comm q2 q1). reflexivity.
  - eapply same_result_trans; eassumption.
Qed.

Lemma forallb_perm {A} (f : A -> bool) l l' :
  Permutation l l' -> forallb f l = forallb f l'.
Proof.
  induction 1 as [| x l l' _ IH | x y l | l1 l2 l3 _ IH1 _ IH2].
  - reflexivity.
  - simpl. rewrite IH. reflexivity.
  - simpl. destruct (f x), (f y); reflexivity.
  - congruence.
Qed.

Lemma statistics_mean_perm vs vs' :
  Permutation vs vs' ->
  same_result (statistics_mean vs) (statistics_mean vs').
Proof.
  intros Hp. pose proof (float_sum_perm _ _ Hp) as Hs.
  pose proof (Permutation_length Hp) as Hlen.
  pose proof (forallb_perm is_int _ _ Hp) as Hint.
  destruct vs as [| v vs], vs' as [| v' vs']; try discriminate Hlen;
    [exact I |].
  unfold statistics_mean.
  destruct (float_sum (v :: vs)), (float_sum (v' :: vs')); simpl in Hs;
    try contradiction; [| exact I].
  subst. rewrite Hlen, Hint.
  destruct (forallb is_int (v' :: vs') && _); reflexivity.
Qed.

Lemma column_perm k l l' :
  Permutation l l' ->
  match column k l, column k l' with
  | Ok vs, Ok vs' => Permutation vs vs'
  | Raise e, Raise e' => e = e'
  | _, _ => False
  end.
Proof.
  induction 1 as [| r l l' _ IH | r1 r2 l | l1 l2 l3 _ IH1 _ IH2].
  - simpl. constructor.
  - simpl. destruct (getitem r k); [| reflexivity].
    destruct (column k l), (column k l'); try contradiction.
    + constructor. exact IH.
    + exact IH.
  - simpl. unfold getitem.
    destruct (r1 !! k), (r2 !! k), (column k l); try reflexivity.
    apply perm_swap.
  - destruct (column k l1), (column k l2), (column k l3);
      try contradiction; try congruence.
    etransitivity; eauto.
Qed.

Lemma filter_perm {A} (f : A -> bool) l l' :
  Permutation l l' -> Permutation (List.filter f l) (List.filter f l').
Proof.
  induction 1 as [| x l l' _ IH | x y l | l1 l2 l3 _ IH1 _ IH2].
  - constructor.
  - simpl. destruct (f x); [constructor |]; exact IH.
  - simpl. destruct (f x), (f y); try reflexivity. apply perm_swap.
  - etransitivity; eauto.
Qed.

Lemma summarise_perm runs_data runs_data' :
  Permutation runs_data runs_data' ->
  same_result (summarise runs_data) (summarise runs_data').
Proof.
  intros Hp. unfold summarise.
  pose proof (filter_perm (fun r => negb (has_error r)) _ _ Hp) as Hs.
  set (s1 := List.filter _ runs_data) in *.
  set (s2 := List.filter _ runs_data') in *.
  pose proof (Permutation_length Hs) as Hlen.
  pose proof (column_perm "read_time_s" _ _ Hs) as C1.
  pose proof (column_perm "write_time_s" _ _ Hs) as C2.
  pose proof (column_perm "read_mem_mb" _ _ Hs) as C3.
  pose proof (column_perm "write_mem_mb" _ _ Hs) as C4.
  destruct s1 as [| a s1], s2 as [| b s2]; try discriminate Hlen;
    [reflexivity |].
  unfold res_bind.
  destruct (column "read_time_s" (a :: s1)) as [c1 |],
    (column "read_time_s" (b :: s2)) as [c1' |];
    try contradiction; [| exact I].
  destruct (column "write_time_s" (a :: s1)) as [c2 |],
    (column "write_time_s" (b :: s2)) as [c2' |];
    try contradiction; [| exact I].
  destruct (column "read_mem_mb" (a :: s1)) as [c3 |],
    (column "read_mem_mb" (b :: s2)) as [c3' |];
    try contradiction; [| exact I].
  destruct (column "write_mem_mb" (a :: s1)) as [c4 |],
    (column "write_mem_mb" (b :: s2)) as [c4' |];
    try contradiction; [| exact I].
  apply statistics_mean_perm in C1, C2, C3, C4.
  destruct (statistics_mean c1), (statistics_mean c1'); simpl in C1;
    try contradiction; [subst | exact I].
  destruct (statistics_mean c2), (statistics_mean c2'); simpl in C2;
    try contradiction; [subst | exact I].
  destruct (statistics_mean c3), (statistics_mean c3'); simpl in C3;
    try contradiction; [subst | exact I].
  destruct (statistics_mean c4), (statistics_mean c4'); simpl in C4;
    try contradiction; [subst | exact I].
  unfold same_result. rewrite Hlen. reflexivity.
Qed.

(** X5. The summary of a backend does not depend on the order in which its
    trials were recorded: of two outcome lists that are permutations of each
    other, either both get a summary, and it is the same one, or both make
    the aggregation raise. *)
Theorem summarise_order_independent
    (runs_data runs_data' : list (gmap string pyval)) :
  Permutation runs_data runs_data' ->
  same_result (summarise runs_data) (summarise runs_data') /\
  (forall summary,
     summarise runs_data = Ok summary <-> summarise runs_data' = Ok summary) /\
  ((exists e, summarise runs_data = Raise e) <->
   (exists e', summarise runs_data' = Raise e')).
Proof.
  intros Hp. pose proof (summarise_perm _ _ Hp) as Hs.
  split; [exact Hs |].
  destruct (summarise runs_data) as [a | e], (summarise runs_data') as [a' | e'];
    simpl in Hs; try contradiction.
  - subst a'. split; [intros summary; split; auto |].
    split; intros (e & He); discriminate He.
  - split; [intros summary; split; intros H; discriminate H |].
    split; intros _; eauto.
Qed.

End AggregationOrder.

Section AggregationValues.

Lemma successes_of_failures l :
  Forall (fun r => has_error r = true) l ->
  List.filter (fun r => negb (has_error r)) l = [].
Proof.
  induction 1 as [| r l Hr _ IH]; [reflexivity |]. simpl. rewrite Hr. exact IH.
Qed.

Lemma mean_of_one (a : Qc) : ((a + Q2Qc 0) / float_of_int 1)%Qc = a.
Proof.
  assert (H1 : float_of_int 1 = 1%Qc) by (apply Qc_is_canon; reflexivity).
  rewrite H1. unfold Qcdiv.
  assert (Hinv : (/ 1)%Qc = 1%Qc) by (apply Qc_is_canon; reflexivity).
  rewrite Hinv. ring.
Qed.

(** X6. When exactly one trial of a backend succeeded, whatever the number
    of failed trials around it, the summary carries the four figures of that
    one sample unchanged and [runs_used] is 1. *)
Theorem single_success_is_reported_as_is
    (before after : list (gmap string pyval))
    (t_read t_write mem_read mem_write : Qc) :
  Forall (fun r => has_error r = true) before ->
  Forall (fun r => has_error r = true) after ->
  summarise (before ++ sample_dict t_read t_write mem_read mem_write :: after)%list
    = Ok (<["runs_used" := VInt 1]>
            (sample_dict t_read t_write mem_read mem_write)).
Proof.
  intros Hb Ha.
  set (smp := sample_dict t_read t_write mem_read mem_write).
  assert (Hsucc : List.filter (fun r => negb (has_error r))
                    (before ++ smp :: after)%list = [smp]).
  { rewrite List.filter_app. simpl.
    rewrite (successes_of_failures _ Hb), (successes_of_failures _ Ha).
    reflexivity. }
  assert (Hsame : summarise (before ++ smp :: after)%list = summarise [smp]).
  { unfold summarise. rewrite Hsucc. reflexivity. }
  rewrite Hsame, summarise_some_success.
  - f_equal. unfold mean_summary, mean_over_successes. simpl.
    change (metric "read_time_s" smp) with t_read.
    change (metric "write_time_s" smp) with t_write.
    change (metric "read_mem_mb" smp) with mem_read.
    change (metric "write_mem_mb" smp) with mem_write.
    change (succeeded smp) with true. cbv iota.
    change (Z.of_nat 1) with 1.
    rewrite !mean_of_one. apply map_eq. intros k. unfold smp, sample_dict.
    simpl.
    destruct (decide (k = "runs_used")) as [-> | Hk]; [reflexivity |].
    rewrite (lookup_insert_ne _ "runs_used") by congruence.
    destruct (decide (k = "read_time_s")) as [-> | H1]; [reflexivity |].
    destruct (decide (k = "write_time_s")) as [-> | H2]; [reflexivity |].
    destruct (decide (k = "read_mem_mb")) as [-> | H3]; [reflexivity |].
    destruct (decide (k = "write_mem_mb")) as [-> | H4]; [reflexivity |].
    rewrite !lookup_insert_ne by congruence. reflexivity.
  - constructor; [| constructor]. left. repeat eexists.
  - change (1 <= 1)%nat. lia.
Qed.

Lemma float_of_int_pos (z : Z) : 0 < z -> (0 < float_of_int z)%Qc.
Proof.
  intros Hz. unfold float_of_int, Qclt, Q2Qc, this. rewrite !Qred_correct.
  unfold Qlt. simpl. lia.
Qed.

Lemma float_of_nat_succ (n : nat) :
  float_of_int (Z.of_nat (S n)) = (float_of_int (Z.of_nat n) + 1)%Qc.
Proof.
  rewrite Nat2Z.inj_succ. unfold Z.succ. rewrite float_of_int_add.
  reflexivity.
Qed.

Lemma success_total_bounds k (lo hi : Qc) l :
  (forall r, In r l -> succeeded r = true ->
     (lo <= metric k r)%Qc /\ (metric k r <= hi)%Qc) ->
  (lo * float_of_int (Z.of_nat (success_count l)) <= success_total k l)%Qc /\
  (success_total k l <= hi * float_of_int (Z.of_nat (success_count l)))%Qc.
Proof.
  induction l as [| r l IH]; intros Hb.
  - simpl. change (float_of_int 0) with (Q2Qc 0).
    rewrite !Qcmult_0_r. split; apply Qcle_refl.
  - assert (Hb' : forall r0, In r0 l -> succeeded r0 = true ->
                    (lo <= metric k r0)%Qc /\ (metric k r0 <= hi)%Qc).
    { intros r0 Hin. apply Hb. right. exact Hin. }
    destruct (IH Hb') as [IHlo IHhi]. simpl.
    destruct (succeeded r) eqn:Hr; [| split; assumption].
    destruct (Hb r (or_introl eq_refl) Hr) as [Hlo Hhi].
    rewrite float_of_nat_succ, !Qcmult_plus_distr_r, !Qcmult_1_r,
      (Qcplus_comm (lo * _)), (Qcplus_comm (hi * _)).
    split; apply Qcplus_le_compat; assumption.
Qed.

(** X7. A reported mean lies within the range of the samples it averages:
    when every successful trial has its metric between [lo] and [hi], so
    has the summary.  In particular non-negative samples give a non-negative
    mean. *)
Theorem reported_mean_within_sample_range
    (outcomes : list (gmap string pyval)) (k : string) (lo hi : Qc) :
  Forall is_outcome outcomes ->
  (1 <= success_count outcomes)%nat ->
  k ∈ metric_keys ->
  (forall r, In r outcomes -> succeeded r = true ->
     (lo <= metric k r)%Qc /\ (metric k r <= hi)%Qc) ->
  exists summary m,
    summarise outcomes = Ok summary /\
    summary !! k = Some (VFloat m) /\
    (lo <= m)%Qc /\ (m <= hi)%Qc.
Proof.
  intros Hall Hn Hk Hb.
  exists (mean_summary outcomes), (mean_over_successes k outcomes).
  split; [apply summarise_some_success; assumption |]. split.
  { unfold metric_keys in Hk.
    apply elem_of_union in Hk as [Hk | Hk];
      [apply elem_of_union in Hk as [Hk | Hk];
        [apply elem_of_union in Hk as [Hk | Hk] |] |];
      apply elem_of_singleton in Hk; subst k; reflexivity. }
  destruct (success_total_bounds k lo hi outcomes Hb) as [Hlo Hhi].
  set (n := float_of_int (Z.of_nat (success_count outcomes))) in *.
  assert (Hpos : (0 < n)%Qc) by (apply float_of_int_pos; lia).
  assert (Hnz : n <> 0%Qc).
  { intros H0. rewrite H0 in Hpos. exact (Qclt_not_eq _ _ Hpos eq_refl). }
  assert (Hmul : (mean_over_successes k outcomes * n
                  = success_total k outcomes)%Qc).
  { unfold mean_over_successes. fold n. rewrite Qcmult_comm.
    apply Qcmult_div_r, Hnz. }
  split; apply (Qcmult_lt_0_le_reg_r _ _ n Hpos); rewrite Hmul; assumption.
Qed.

End AggregationValues.

Section AdapterFacts.
Context `{E : Externals}.

Lemma try_except_caught (body : M (gmap string pyval)) s e s1 :
  body s = (Raise e, s1) ->
  try_except body (fun e => ret (error_dict (exn_repr e))) s = (caught e, s1).
Proof.
  intros H. unfold try_except, caught. rewrite H.
  destruct (is_Exception e); reflexivity.
Qed.

(** X8. A failed read ends the trial at once: in each of the three
    adapters, when the read raises, the result is the failure built from
    that exception (or the exception itself when it is not an Exception),
    one work has been invoked, no collection pass has run, and the world is
    the one the read left, so the write was never attempted.  In the dask
    adapter the same holds for a materialization that raises after a
    successful lazy read: two works invoked, one pass, no write. *)
Theorem failed_read_ends_trial (path out_tmp enc sp : string) (s : State) :
  (forall e w1,
     pd_read_csv path sp enc (world s) = (Raise e, w1) ->
     read_write_pandas path out_tmp enc sp s
       = (caught e, MkState w1 (S (calls s)) (gc_passes s))) /\
  (forall e w1,
     pl_read_csv path sp enc (world s) = (Raise e, w1) ->
     read_write_polars path out_tmp enc sp s
       = (caught e, MkState w1 (S (calls s)) (gc_passes s))) /\
  (forall e w1,
     dd_read_csv path sp enc (world s) = (Raise e, w1) ->
     read_write_dask path out_tmp enc sp s
       = (caught e, MkState w1 (S (calls s)) (gc_passes s))) /\
  (forall ddf w1 e w2,
     dd_read_csv path sp enc (world s) = (Ok ddf, w1) ->
     dd_compute ddf (collect w1) = (Raise e, w2) ->
     read_write_dask path out_tmp enc sp s
       = (caught e, MkState w2 (S (S (calls s))) (S (gc_passes s)))).
Proof.
  split; [| split; [| split]].
  - intros e w1 H. apply try_except_caught. unfold bind.
    rewrite (measure_raise _ _ _ _ (with_value_raise _ sp _ _ _ H)).
    reflexivity.
  - intros e w1 H. apply try_except_caught. unfold bind.
    rewrite (measure_raise _ _ _ _ (with_value_raise _ sp _ _ _ H)).
    reflexivity.
  - intros e w1 H. apply try_except_caught. unfold bind.
    rewrite (measure_raise _ _ _ _ (with_value_raise _ sp _ _ _ H)).
    reflexivity.
  - intros ddf w1 e w2 H1 H2. apply try_except_caught. unfold bind.
    assert (Hv : with_value (dd_read_csv path sp enc) sp (world s)
                 = (Ok (ddf, sp), w1)).
    { unfold with_value. rewrite H1. reflexivity. }
    rewrite (measure_ok _ _ _ _ Hv).
    rewrite (measure_raise (dd_compute ddf)
               (MkState (collect w1) (S (calls s)) (S (gc_passes s))) e w2 H2).
    reflexivity.
Qed.

Lemma measure_ok_inv {A} (func : Work A) s res t m s' :
  measure func s = (Ok (res, t, m), s') ->
  (0 <= m)%Qc /\
  calls s' = S (calls s) /\ gc_passes s' = S (gc_passes s).
Proof.
  intros H. destruct (measure_cases func s)
    as [(r & w1 & _ & Hm) | (e & w1 & _ & Hm)]; rewrite Hm in H.
  - injection H as _ _ <- <-. split; [apply mean_of_two_mb_nonneg |].
    split; reflexivity.
  - discriminate H.
Qed.

Lemma measure_raise_inv {A} (func : Work A) s e s' :
  measure func s = (Raise e, s') ->
  calls s' = S (calls s) /\ gc_passes s' = gc_passes s.
Proof.
  intros H. destruct (measure_cases func s)
    as [(r & w1 & _ & Hm) | (e0 & w1 & _ & Hm)]; rewrite Hm in H.
  - discriminate H.
  - injection H as _ <-. split; reflexivity.
Qed.

Lemma py_max_nonneg a b : (0 <= a)%Qc -> (0 <= b)%Qc -> (0 <= py_max a b)%Qc.
Proof. intros Ha Hb. unfold py_max. destruct (Qclt_le_dec a b); assumption. Qed.

Lemma handler_has_error (body : M (gmap string pyval)) s d s' :
  (forall d0 s0, body s = (Ok d0, s0) -> sound_sample d0) ->
  try_except body (fun e => ret (error_dict (exn_repr e))) s = (Ok d, s') ->
  has_error d = false -> sound_sample d.
Proof.
  intros Hb H Herr. unfold try_except in H.
  destruct (body s) as [[d0 | e] s0] eqn:Hbody.
  - injection H as <- <-. eapply Hb. reflexivity.
  - destruct (is_Exception e); [| discriminate H].
    injection H as <- _. discriminate Herr.
Qed.

Lemma read_write_pandas_sound path out_tmp enc sp s d s' :
  read_write_pandas path out_tmp enc sp s = (Ok d, s') ->
  has_error d = false -> sound_sample d.
Proof.
  apply handler_has_error. intros d0 s0 H. unfold bind in H.
  destruct (measure _ s) as [[[[[df x] t1] m1] | e] s1] eqn:H1;
    [| discriminate H].
  destruct (measure _ s1) as [[[[u t2] m2] | e] s2] eqn:H2;
    [| discriminate H].
  injection H as <- _. exists t1, t2, m1, m2.
  split; [reflexivity |].
  split; [eapply measure_ok_inv, H1 | eapply measure_ok_inv, H2].
Qed.

Lemma read_write_polars_sound path out_tmp enc sp s d s' :
  read_write_polars path out_tmp enc sp s = (Ok d, s') ->
  has_error d = false -> sound_sample d.
Proof.
  apply handler_has_error. intros d0 s0 H. unfold bind in H.
  destruct (measure _ s) as [[[[[df x] t1] m1] | e] s1] eqn:H1;
    [| discriminate H].
  destruct (measure _ s1) as [[[[u t2] m2] | e] s2] eqn:H2;
    [| discriminate H].
  injection H as <- _. exists t1, t2, m1, m2.
  split; [reflexivity |].
  split; [eapply measure_ok_inv, H1 | eapply measure_ok_inv, H2].
Qed.

Lemma read_write_dask_sound path out_tmp enc sp s d s' :
  read_write_dask path out_tmp enc sp s = (Ok d, s') ->
  has_error d = false -> sound_sample d.
Proof.
  apply handler_has_error. intros d0 s0 H. unfold bind in H.
  destruct (measure _ s) as [[[[[df x] t1] m1] | e] s1] eqn:H1;
    [| discriminate H].
  destruct (measure _ s1) as [[[[pdf t2] m2] | e] s2] eqn:H2;
    [| discriminate H].
  destruct (measure _ s2) as [[[[u t3] m3] | e] s3] eqn:H3;
    [| discriminate H].
  injection H as <- _. exists (t1 + t2)%Qc, t3, (py_max m1 m2), m3.
  split; [reflexivity |]. split.
  - apply py_max_nonneg; [eapply measure_ok_inv, H1 | eapply measure_ok_inv, H2].
  - eapply measure_ok_inv, H3.
Qed.

(** X9. Every sample that an adapter hands back has non-negative memory
    figures: an outcome of the pandas, polars or dask adapter without an
    error field is a sample whose [read_mem_mb] and [write_mem_mb] are
    both at least 0. *)
Theorem adapter_samples_have_nonnegative_memory
    (path out_tmp enc sp : string) (s : State) :
  (forall d s',
     read_write_pandas path out_tmp enc sp s = (Ok d, s') ->
     has_error d = false -> sound_sample d) /\
  (forall d s',
     read_write_polars path out_tmp enc sp s = (Ok d, s') ->
     has_error d = false -> sound_sample d) /\
  (forall d s',
     read_write_dask path out_tmp enc sp s = (Ok d, s') ->
     has_error d = false -> sound_sample d).
Proof.
  split; [| split]; intros d s'.
  - apply read_write_pandas_sound.
  - apply read_write_polars_sound.
  - apply read_write_dask_sound.
Qed.

End AdapterFacts.

Section PassAccounting.
Context `{E : Externals}.

Lemma failed_works_caught e : failed_works (caught e) = 1%nat.
Proof. unfold caught. destruct (is_Exception e); reflexivity. Qed.

Ltac measured H :=
  first [ apply measure_ok_inv in H as (_ & ? & ?)
        | apply measure_raise_inv in H as (? & ?) ].

Lemma pandas_accounts_for_passes : accounts_for_passes read_write_pandas.
Proof.
  intros path out_tmp enc sp s. unfold read_write_pandas.
  destruct (measure (with_value (pd_read_csv path sp enc) sp) s)
    as [[[[[df x] t1] m1] | e] s1] eqn:H1.
  - destruct (measure (pd_to_csv df out_tmp (Some enc)) s1)
      as [[[[u t2] m2] | e] s2] eqn:H2.
    + unfold try_except, bind. rewrite H1, H2. simpl.
      rewrite has_error_sample. measured H1. measured H2. lia.
    + rewrite (try_except_caught _ s e s2)
        by (unfold bind; rewrite H1, H2; reflexivity).
      simpl. rewrite failed_works_caught. measured H1. measured H2. lia.
  - rewrite (try_except_caught _ s e s1)
      by (unfold bind; rewrite H1; reflexivity).
    simpl. rewrite failed_works_caught. measured H1. lia.
Qed.

Lemma polars_accounts_for_passes : accounts_for_passes read_write_polars.
Proof.
  intros path out_tmp enc sp s. unfold read_write_polars.
  destruct (measure (with_value (pl_read_csv path sp enc) sp) s)
    as [[[[[df x] t1] m1] | e] s1] eqn:H1.
  - destruct (measure (pl_write_csv df out_tmp) s1)
      as [[[[u t2] m2] | e] s2] eqn:H2.
    + unfold try_except, bind. rewrite H1, H2. simpl.
      rewrite has_error_sample. measured H1. measured H2. lia.
    + rewrite (try_except_caught _ s e s2)
        by (unfold bind; rewrite H1, H2; reflexivity).
      simpl. rewrite failed_works_caught. measured H1. measured H2. lia.
  - rewrite (try_except_caught _ s e s1)
      by (unfold bind; rewrite H1; reflexivity).
    simpl. rewrite failed_works_caught. measured H1. lia.
Qed.

Lemma dask_accounts_for_passes : accounts_for_passes read_write_dask.
Proof.
  intros path out_tmp enc sp s. unfold read_write_dask.
  destruct (measure (with_value (dd_read_csv path sp enc) sp) s)
    as [[[[[ddf x] t1] m1] | e] s1] eqn:H1.
  - destruct (measure (dd_compute ddf) s1)
      as [[[[pdf t2] m2] | e] s2] eqn:H2.
    + destruct (measure (pd_to_csv pdf out_tmp None) s2)
        as [[[[u t3] m3] | e] s3] eqn:H3.
      * unfold try_except, bind. rewrite H1, H2, H3. simpl.
        rewrite has_error_sample. measured H1. measured H2. measured H3. lia.
      * rewrite (try_except_caught _ s e s3)
          by (unfold bind; rewrite H1, H2, H3; reflexivity).
        simpl. rewrite failed_works_caught.
        measured H1. measured H2. measured H3. lia.
    + rewrite (try_except_caught _ s e s2)
        by (unfold bind; rewrite H1, H2; reflexivity).
      simpl. rewrite failed_works_caught. measured H1. measured H2. lia.
  - rewrite (try_except_caught _ s e s1)
      by (unfold bind; rewrite H1; reflexivity).
    simpl. rewrite failed_works_caught. measured H1. lia.
Qed.

Lemma failure_count_app l d :
  failure_count (l ++ [d])%list
  = (failure_count l + (if has_error d then 1 else 0))%nat.
Proof.
  unfold failure_count. rewrite List.filter_app, length_app. simpl.
  destruct (has_error d); reflexivity.
Qed.

Lemma failure_success_count l :
  (failure_count l + success_count l = length l)%nat.
Proof.
  unfold failure_count. induction l as [| r l IH]; [reflexivity |]. simpl.
  rewrite succeeded_negb_has_error. destruct (has_error r); simpl; lia.
Qed.

Lemma for_each_trial_accounts c lib_name (f : lib_func) :
  accounts_for_passes f ->
  forall xs acc s l s',
    for_each xs (trial c lib_name f) acc s = (Ok l, s') ->
    (calls s' + gc_passes s + failure_count acc
     = calls s + gc_passes s' + failure_count l)%nat.
Proof.
  intros Hf xs. induction xs as [| i xs IH]; intros acc s l s' H.
  - injection H as <- <-. lia.
  - simpl in H. unfold bind in H. rewrite trial_run in H.
    specialize (Hf (input_path c) (temp_out_path c lib_name i)
                   (encoding c) (sep c) s).
    destruct (f _ _ _ _ s) as [[d | e] s1]; simpl in Hf.
    + apply IH in H. rewrite failure_count_app in H. simpl in H. lia.
    + destruct (is_Exception e); [| discriminate H].
      apply IH in H. rewrite failure_count_app, has_error_failure in H.
      simpl in H. lia.
Qed.

Lemma run_trials_accounts c lib_name (f : lib_func) s l s' :
  accounts_for_passes f ->
  run_trials c lib_name f s = (Ok l, s') ->
  (calls s' + gc_passes s = calls s + gc_passes s' + failure_count l)%nat.
Proof.
  intros Hf H. apply (for_each_trial_accounts _ _ _ Hf) in H.
  change (failure_count []) with 0%nat in H. lia.
Qed.

(** X10. Over a whole run the two counters differ by the failed trials: when
    [main] completes on an existing input, the number of works it invoked
    exceeds the number of collection passes by exactly the number of failure
    outcomes recorded for the three backends, since a pass follows every
    work that returned and each failed trial stopped at its first failing
    work.  For each backend the failures and the successes add up to the
    trials run. *)
Theorem passes_match_successful_works (c : Config) (s s' : State) (code : Z) :
  input_found c s = true ->
  main_with c s = (Ok code, s') ->
  exists l1 l2 l3,
    benchmarked c (set_world (makedirs_world (outdir c) (world s)) s) s'
      l1 l2 l3 /\
    (calls s' + gc_passes s
     = calls s + gc_passes s'
       + failure_count l1 + failure_count l2 + failure_count l3)%nat /\
    (failure_count l1 + success_count l1 = Z.to_nat (Z.max 1 (runs c)))%nat /\
    (failure_count l2 + success_count l2 = Z.to_nat (Z.max 1 (runs c)))%nat /\
    (failure_count l3 + success_count l3 = Z.to_nat (Z.max 1 (runs c)))%nat.
Proof.
  intros Hf Hm. destruct (main_found_ok c s code s' Hf Hm) as (_ & l1 & l2 & l3 & Hb).
  exists l1, l2, l3. split; [exact Hb |].
  destruct (benchmarked_lengths _ _ _ _ _ _ Hb) as (L1 & L2 & L3).
  destruct Hb as (s2 & s3 & s4 & H1 & H2 & H3 & ->).
  apply (run_trials_accounts _ _ _ _ _ _ pandas_accounts_for_passes) in H1.
  apply (run_trials_accounts _ _ _ _ _ _ polars_accounts_for_passes) in H2.
  apply (run_trials_accounts _ _ _ _ _ _ dask_accounts_for_passes) in H3.
  simpl in *. rewrite !failure_success_count. repeat split; try assumption.
  lia.
Qed.

End PassAccounting.

Section ReportFacts.
Context `{E : Externals}.

Lemma dom_mean_summary l : dom (mean_summary l) = metric_keys ∪ {[ "runs_used" ]}.
Proof.
  unfold mean_summary, metric_keys. simpl.
  rewrite !dom_insert_L, dom_empty_L. set_solver.
Qed.

Lemma summary_of_shape l :
  summary_of l = all_runs_failed \/
  dom (summary_of l) = metric_keys ∪ {[ "runs_used" ]}.
Proof.
  unfold summary_of. destruct (success_count l); [left; reflexivity |].
  right. apply dom_mean_summary.
Qed.

Lemma summary_of_runs_used l v :
  summary_of l !! "runs_used" = Some v ->
  v = VInt (Z.of_nat (success_count l)) /\ (1 <= success_count l)%nat.
Proof.
  unfold summary_of. destruct (success_count l) as [| n] eqn:Hn.
  - intros H. discriminate H.
  - intros H. change (Some (VInt (Z.of_nat (success_count l))) = Some v) in H.
    injection H as <-. rewrite Hn. split; [reflexivity | lia].
Qed.

Lemma full_report_libs l1 l2 l3 lib_name v :
  (<["dask" := VDict (summary_of l3)]>
     (<["polars" := VDict (summary_of l2)]>
        (<["pandas" := VDict (summary_of l1)]> (∅ : gmap string pyval))))
    !! lib_name = Some v ->
  exists l, v = VDict (summary_of l) /\ (l = l1 \/ l = l2 \/ l = l3) /\
            In lib_name lib_names.
Proof.
  intros H. unfold lib_names.
  destruct (decide (lib_name = "dask")) as [-> | Hd].
  { rewrite lookup_insert_eq in H. injection H as <-. exists l3.
    split; [reflexivity |]. split; [auto | simpl; auto 6]. }
  rewrite lookup_insert_ne in H by congruence.
  destruct (decide (lib_name = "polars")) as [-> | Hp].
  { rewrite lookup_insert_eq in H. injection H as <-. exists l2.
    split; [reflexivity |]. split; [auto | simpl; auto 6]. }
  rewrite lookup_insert_ne in H by congruence.
  destruct (decide (lib_name = "pandas")) as [-> | Hq].
  { rewrite lookup_insert_eq in H. injection H as <-. exists l1.
    split; [reflexivity |]. split; [auto | simpl; auto 6]. }
  rewrite lookup_insert_ne in H by congruence. discriminate H.
Qed.

(** X11. A completed run leaves a report of a fixed shape: its fields are
    exactly input, runs, separator and libs; input and separator echo the
    settings; libs has exactly the entries pandas, polars and dask, and each
    entry is either the failure marker or a dictionary with exactly the four
    metrics and [runs_used]. *)
Theorem report_has_fixed_shape (c : Config) (s s' : State) (code : Z) :
  input_found c s = true ->
  main_with c s = (Ok code, s') ->
  exists report lm,
    fs (world s') !! result_path c = Some (File (VDict report)) /\
    dom report = {[ "input"; "runs"; "separator"; "libs" ]} /\
    report !! "input" = Some (VStr (input_path c)) /\
    report !! "separator" = Some (VStr (sep c)) /\
    report !! "libs" = Some (VDict lm) /\
    dom lm = {[ "pandas"; "polars"; "dask" ]} /\
    (forall lib_name v,
       lm !! lib_name = Some v ->
       exists d, v = VDict d /\
         (d = all_runs_failed \/ dom d = metric_keys ∪ {[ "runs_used" ]})).
Proof.
  intros Hf Hm. destruct (main_found_ok c s code s' Hf Hm) as (_ & l1 & l2 & l3 & Hb).
  eexists (full_report c l1 l2 l3), _.
  split; [eapply benchmarked_report, Hb |]. split.
  { unfold full_report, report_with, initial_results. simpl.
    rewrite !dom_insert_L, dom_empty_L. set_solver. }
  split; [reflexivity |]. split; [reflexivity |].
  split; [apply report_with_libs |]. split.
  { rewrite !dom_insert_L, dom_empty_L. set_solver. }
  intros lib_name v H.
  apply full_report_libs in H as (l & -> & _ & _).
  eexists. split; [reflexivity | apply summary_of_shape].
Qed.

(** X12. The [runs_used] that a completed run reports for a backend is at
    least 1 and at most the number of trials max(1, runs); a backend for
    which an error is reported has no [runs_used], and its error is the
    text "all runs failed". *)
Theorem reported_runs_used_is_bounded
    (c : Config) (s s' : State) (code : Z) (lib_name : string) :
  input_found c s = true ->
  main_with c s = (Ok code, s') ->
  (forall v,
     reported (result_path c) lib_name "runs_used" (world s') = Some v ->
     exists n, v = VInt n /\ 1 <= n <= Z.max 1 (runs c)) /\
  (forall v,
     reported (result_path c) lib_name "error" (world s') = Some v ->
     v = VStr "all runs failed" /\
     reported (result_path c) lib_name "runs_used" (world s') = None).
Proof.
  intros Hf Hm. destruct (main_found_ok c s code s' Hf Hm) as (_ & l1 & l2 & l3 & Hb).
  destruct (benchmarked_lengths _ _ _ _ _ _ Hb) as (L1 & L2 & L3).
  unfold reported. rewrite (benchmarked_report _ _ _ _ _ _ Hb).
  unfold full_report. rewrite report_with_libs.
  destruct (_ !! lib_name) as [v0 |] eqn:Hl; [| split; intros v H; discriminate H].
  apply full_report_libs in Hl as (l & -> & Hl & _).
  assert (Hlen : length l = Z.to_nat (Z.max 1 (runs c))).
  { destruct Hl as [-> | [-> | ->]]; assumption. }
  split.
  - intros v H. apply summary_of_runs_used in H as [-> Hn].
    eexists. split; [reflexivity |].
    pose proof (failure_success_count l). lia.
  - intros v H. unfold summary_of in *.
    destruct (success_count l); [| discriminate H].
    injection H as <-. split; reflexivity.
Qed.

End ReportFacts.

Section ReportedMemory.
Context `{E : Externals}.

Lemma adapter_outcome_sound (f : lib_func) :
  records_or_propagates f ->
  (forall path out_tmp enc sp s d s',
     f path out_tmp enc sp s = (Ok d, s') ->
     has_error d = false -> sound_sample d) ->
  forall path out_tmp enc sp s d s',
    f path out_tmp enc sp s = (Ok d, s') -> sound_outcome d.
Proof.
  intros Hres Hsound path out_tmp enc sp s d s' H.
  specialize (Hres path out_tmp enc sp s). rewrite H in Hres.
  destruct Hres as [Hs | Hf]; [| right; exact Hf].
  left. eapply Hsound; [exact H |].
  destruct Hs as (a & b & c & e & ->). apply has_error_sample.
Qed.

Lemma for_each_trial_sound c lib_name (f : lib_func) :
  (forall path out_tmp enc sp s d s',
     f path out_tmp enc sp s = (Ok d, s') -> sound_outcome d) ->
  forall xs acc s l s',
    Forall sound_outcome acc ->
    for_each xs (trial c lib_name f) acc s = (Ok l, s') ->
    Forall sound_outcome l.
Proof.
  intros Hf xs. induction xs as [| i xs IH]; intros acc s l s' Hacc H.
  - injection H as <- _. exact Hacc.
  - simpl in H. unfold bind in H. rewrite trial_run in H.
    destruct (f (input_path c) (temp_out_path c lib_name i) (encoding c)
                (sep c) s) as [[d | e] s1] eqn:Hfs.
    + eapply IH; [| exact H]. apply Forall_app. split; [exact Hacc |].
      constructor; [eapply Hf, Hfs | constructor].
    + destruct (is_Exception e); [| discriminate H].
      eapply IH; [| exact H]. apply Forall_app. split; [exact Hacc |].
      constructor; [right; eexists; reflexivity | constructor].
Qed.

Lemma success_total_nonneg k l :
  (forall r, In r l -> succeeded r = true -> (0 <= metric k r)%Qc) ->
  (0 <= success_total k l)%Qc.
Proof.
  induction l as [| r l IH]; intros Hb; simpl.
  - apply Qcle_refl.
  - assert (IH' : (0 <= success_total k l)%Qc).
    { apply IH. intros r0 Hin. apply Hb. right. exact Hin. }
    destruct (succeeded r) eqn:Hr; [| exact IH'].
    replace 0%Qc with (0 + 0)%Qc by ring.
    apply Qcplus_le_compat; [apply Hb; [left; reflexivity | exact Hr] | exact IH'].
Qed.

Lemma mean_nonneg k l :
  (1 <= success_count l)%nat ->
  (forall r, In r l -> succeeded r = true -> (0 <= metric k r)%Qc) ->
  (0 <= mean_over_successes k l)%Qc.
Proof.
  intros Hn Hb. pose proof (success_total_nonneg k l Hb) as Ht.
  set (n := float_of_int (Z.of_nat (success_count l))).
  assert (Hpos : (0 < n)%Qc) by (apply float_of_int_pos; lia).
  assert (Hnz : n <> 0%Qc).
  { intros H0. rewrite H0 in Hpos. exact (Qclt_not_eq _ _ Hpos eq_refl). }
  apply (Qcmult_lt_0_le_reg_r _ _ n Hpos).
  rewrite Qcmult_0_l. unfold mean_over_successes. fold n.
  rewrite Qcmult_comm, Qcmult_div_r by exact Hnz. exact Ht.
Qed.

Lemma sound_outcome_memory r :
  sound_outcome r -> succeeded r = true ->
  (0 <= metric "read_mem_mb" r)%Qc /\ (0 <= metric "write_mem_mb" r)%Qc.
Proof.
  intros [(a & b & c & d & -> & Hc & Hd) | (msg & ->)] Hs.
  - split; assumption.
  - discriminate Hs.
Qed.

Lemma summary_of_memory l k v :
  Forall sound_outcome l ->
  k = "read_mem_mb" \/ k = "write_mem_mb" ->
  summary_of l !! k = Some v ->
  exists m, v = VFloat m /\ (0 <= m)%Qc.
Proof.
  intros Hall Hk H. unfold summary_of in H.
  destruct (success_count l) as [| n] eqn:Hn.
  - destruct Hk as [-> | ->]; discriminate H.
  - assert (Hmem : forall r, In r l -> succeeded r = true ->
              (0 <= metric "read_mem_mb" r)%Qc /\
              (0 <= metric "write_mem_mb" r)%Qc).
    { intros r Hin Hs. rewrite Forall_forall in Hall.
      apply sound_outcome_memory; [| exact Hs].
      apply Hall, list_elem_of_In, Hin. }
    destruct Hk as [-> | ->].
    + change (Some (VFloat (mean_over_successes "read_mem_mb" l)) = Some v) in H.
      injection H as <-. eexists. split; [reflexivity |].
      apply mean_nonneg; [lia |]. intros r Hin Hs. apply (Hmem r Hin Hs).
    + change (Some (VFloat (mean_over_successes "write_mem_mb" l)) = Some v) in H.
      injection H as <-. eexists. split; [reflexivity |].
      apply mean_nonneg; [lia |]. intros r Hin Hs. apply (Hmem r Hin Hs).
Qed.

Lemma run_trials_sound c lib_name (f : lib_func) s l s' :
  records_or_propagates f ->
  (forall path out_tmp enc sp s d s',
     f path out_tmp enc sp s = (Ok d, s') ->
     has_error d = false -> sound_sample d) ->
  run_trials c lib_name f s = (Ok l, s') -> Forall sound_outcome l.
Proof.
  intros Hres Hsound H.
  eapply (for_each_trial_sound c lib_name f
            (adapter_outcome_sound f Hres Hsound)); [| exact H].
  constructor.
Qed.

(** X13. Every memory figure in the report of a completed run is
    non-negative: whatever a backend's [read_mem_mb] or [write_mem_mb]
    entry is, it is a float that is at least 0. *)
Theorem reported_memory_is_nonnegative
    (c : Config) (s s' : State) (code : Z) (lib_name k : string) (v : pyval) :
  input_found c s = true ->
  main_with c s = (Ok code, s') ->
  k = "read_mem_mb" \/ k = "write_mem_mb" ->
  reported (result_path c) lib_name k (world s') = Some v ->
  exists m, v = VFloat m /\ (0 <= m)%Qc.
Proof.
  intros Hf Hm Hk. destruct (main_found_ok c s code s' Hf Hm) as (_ & l1 & l2 & l3 & Hb).
  unfold reported. rewrite (benchmarked_report _ _ _ _ _ _ Hb).
  unfold full_report. rewrite report_with_libs.
  destruct Hb as (s2 & s3 & s4 & H1 & H2 & H3 & _).
  apply (run_trials_sound _ _ _ _ _ _ pandas_records_or_propagates
           read_write_pandas_sound) in H1.
  apply (run_trials_sound _ _ _ _ _ _ polars_records_or_propagates
           read_write_polars_sound) in H2.
  apply (run_trials_sound _ _ _ _ _ _ dask_records_or_propagates
           read_write_dask_sound) in H3.
  destruct (_ !! lib_name) as [v0 |] eqn:Hl; [| intros H; discriminate H].
  apply full_report_libs in Hl as (l & -> & Hl & _).
  intros H. eapply (summary_of_memory l k v); [| exact Hk | exact H].
  destruct Hl as [-> | [-> | ->]]; assumption.
Qed.

End ReportedMemory.

(** * Examples for the further properties *)

Lemma five_trials_are_outcomes : Forall is_outcome five_trials_two_failed.
Proof.
  unfold five_trials_two_failed.
  repeat (constructor;
          [first [ left; repeat eexists; reflexivity
                 | right; eexists; reflexivity ] |]).
  constructor.
Qed.

(** A second run on a missing input, in the state the first one left. *)
Lemma main_missing_input_idempotent_witness :
  main_with (E := steady_libs) source_config
    (missing_input_state source_config (start_in world_without_input))
  = (Ok 2, missing_input_state source_config (start_in world_without_input)).
Proof.
  apply (main_missing_input_idempotent (E := steady_libs) source_config
           (start_in world_without_input)).
  - vm_compute. reflexivity.
  - vm_compute. reflexivity.
Defined.

(** An outcome without any field counts as a success and makes the
    aggregation raise; five proper outcomes get a summary. *)
Lemma summarise_failure_modes_witness :
  summarise [empty_outcome] = Raise (KeyError "read_time_s") /\
  exists summary, summarise five_trials_two_failed = Ok summary.
Proof.
  split.
  - destruct (summarise_failure_modes [empty_outcome]) as (_ & Hmissing & _).
    apply (Hmissing empty_outcome);
      [left; reflexivity | reflexivity | reflexivity].
  - destruct (summarise_failure_modes five_trials_two_failed)
      as (_ & _ & Hsamples).
    apply Hsamples. intros r Hin Hr.
    pose proof five_trials_are_outcomes as Hall.
    rewrite List.Forall_forall in Hall.
    destruct (Hall r Hin) as [Hs | (msg & ->)]; [exact Hs |].
    rewrite has_error_failure in Hr. discriminate Hr.
Defined.

(** The five trials in reverse order get the summary of the five trials. *)
Lemma summarise_order_independent_witness :
  summarise (rev five_trials_two_failed)
    = Ok (summary_of five_trials_two_failed).
Proof.
  destruct (summarise_order_independent five_trials_two_failed
              (rev five_trials_two_failed) (Permutation_rev _))
    as (_ & Hsame & _).
  apply (proj1 (Hsame _)). apply summarise_total, five_trials_are_outcomes.
Defined.

Lemma single_success_is_reported_as_is_witness :
  summarise [ error_dict "ParserError('Error tokenizing data')";
              sample_dict (Q2Qc (2 # 10)) (Q2Qc (5 # 10)) (Q2Qc 51) (Q2Qc 61);
              error_dict "OSError('No space left on device')" ]
  = Ok (<["runs_used" := VInt 1]>
          (sample_dict (Q2Qc (2 # 10)) (Q2Qc (5 # 10)) (Q2Qc 51) (Q2Qc 61))).
Proof.
  apply (single_success_is_reported_as_is
           [error_dict "ParserError('Error tokenizing data')"]
           [error_dict "OSError('No space left on device')"]);
    repeat constructor.
Defined.

Lemma reported_mean_within_sample_range_witness :
  exists summary m,
    summarise five_trials_two_failed = Ok summary /\
    summary !! "read_time_s" = Some (VFloat m) /\
    (Q2Qc (1 # 10) <= m)%Qc /\ (m <= Q2Qc (3 # 10))%Qc.
Proof.
  apply (reported_mean_within_sample_range five_trials_two_failed
           "read_time_s" (Q2Qc (1 # 10)) (Q2Qc (3 # 10))).
  - exact five_trials_are_outcomes.
  - vm_compute. lia.
  - unfold metric_keys. set_solver.
  - intros r Hin Hs. unfold five_trials_two_failed in Hin. simpl in Hin.
    destruct Hin as [<- | [<- | [<- | [<- | [<- | []]]]]];
      try discriminate Hs; split; vm_compute; discriminate.
Defined.

Lemma failed_read_ends_trial_witness :
  read_write_pandas (E := failing_libs) "StudentsPerformance.csv"
    "./bench_results/tmp_pandas_0.csv" "utf-8" "," (start_in world_with_input)
  = (Ok (error_dict (exn_repr ParserError)), MkState world_with_input 1 0).
Proof.
  destruct (failed_read_ends_trial (E := failing_libs) "StudentsPerformance.csv"
              "./bench_results/tmp_pandas_0.csv" "utf-8" ","
              (start_in world_with_input)) as (Hpandas & _).
  exact (Hpandas ParserError world_with_input eq_refl).
Defined.

Lemma adapter_samples_have_nonnegative_memory_witness :
  exists d s',
    read_write_pandas (E := steady_libs) "StudentsPerformance.csv"
      "./bench_results/tmp_pandas_0.csv" "utf-8" "," (start_in world_with_input)
      = (Ok d, s') /\
    sound_sample d.
Proof.
  destruct (adapter_samples_have_nonnegative_memory (E := steady_libs)
              "StudentsPerformance.csv" "./bench_results/tmp_pandas_0.csv"
              "utf-8" "," (start_in world_with_input)) as (Hpandas & _).
  eexists _, _. split; [reflexivity |].
  eapply Hpandas; reflexivity.
Defined.

Lemma failing_run_completes : failing_run = (Ok 0, snd failing_run).
Proof. vm_compute. reflexivity. Qed.

Lemma steady_run_completes : steady_run = (Ok 0, snd steady_run).
Proof. vm_compute. reflexivity. Qed.

(** Two repetitions, every read failing: six works invoked, no pass, six
    failures recorded. *)
Lemma passes_match_successful_works_witness :
  exists l1 l2 l3,
    (calls (snd failing_run) + 0
     = 0 + gc_passes (snd failing_run)
       + failure_count l1 + failure_count l2 + failure_count l3)%nat /\
    (failure_count l1 + success_count l1 = 2)%nat /\
    calls (snd failing_run) = 6%nat /\
    gc_passes (snd failing_run) = 0%nat.
Proof.
  destruct (passes_match_successful_works (E := failing_libs)
              (config_with_runs 2) (start_in world_with_input)
              (snd failing_run) 0 eq_refl failing_run_completes)
    as (l1 & l2 & l3 & _ & Hacc & H1 & _).
  exists l1, l2, l3. split; [exact Hacc |]. split; [exact H1 |].
  split; vm_compute; reflexivity.
Defined.

Lemma report_has_fixed_shape_witness :
  exists report lm,
    fs (world (snd steady_run)) !! "./bench_results/bench_result.json"
      = Some (File (VDict report)) /\
    dom report = {[ "input"; "runs"; "separator"; "libs" ]} /\
    report !! "libs" = Some (VDict lm) /\
    dom lm = {[ "pandas"; "polars"; "dask" ]}.
Proof.
  destruct (report_has_fixed_shape (E := steady_libs) (config_with_runs 2)
              (start_in world_with_input) (snd steady_run) 0 eq_refl
              steady_run_completes)
    as (report & lm & Hfile & Hdom & _ & _ & Hlibs & Hlm & _).
  exists report, lm. auto.
Defined.

Lemma reported_runs_used_is_bounded_witness :
  (forall v,
     reported "./bench_results/bench_result.json" "pandas" "runs_used"
       (world (snd steady_run)) = Some v ->
     exists n, v = VInt n /\ 1 <= n <= 2) /\
  reported "./bench_results/bench_result.json" "pandas" "runs_used"
    (world (snd steady_run)) = Some (VInt 2).
Proof.
  destruct (reported_runs_used_is_bounded (E := steady_libs)
              (config_with_runs 2) (start_in world_with_input)
              (snd steady_run) 0 "pandas" eq_refl steady_run_completes)
    as (Hused & _).
  split; [exact Hused | vm_compute; reflexivity].
Defined.

Lemma reported_memory_is_nonnegative_witness :
  exists m,
    reported "./bench_results/bench_result.json" "dask" "read_mem_mb"
      (world (snd steady_run)) = Some (VFloat m) /\
    (0 <= m)%Qc.
Proof.
  eexists. split; [vm_compute; reflexivity |].
  match goal with
  | |- (0 <= ?m)%Qc =>
      assert (Hrep : reported "./bench_results/bench_result.json" "dask"
                       "read_mem_mb" (world (snd steady_run))
                     = Some (VFloat m)) by (vm_compute; reflexivity);
      destruct (reported_memory_is_nonnegative (E := steady_libs)
                  (config_with_runs 2) (start_in world_with_input)
                  (snd steady_run) 0 "dask" "read_mem_mb" (VFloat m) eq_refl
                  steady_run_completes (or_introl eq_refl) Hrep)
        as (m' & Hv & Hm);
      injection Hv as <-; exact Hm
  end.
Defined.
